(** * superset/common/query_context.py : QueryContext

    A shallow embedding of [QueryContext] (cache-timeout resolution, the
    post-processing pipeline of [get_query_result], the annotation merger
    and the caching state machine of [get_df_payload]) together with the
    properties of the written specification that concern them.

    Python effects are modelled by an exception-and-state monad [Eff]:
    the state is the frame of local variables of the running method, the
    log is the chronological list of calls made to the collaborators
    (cache store, datasource, DAOs, stats logger, logger).  Both survive
    a raised exception, exactly as Python locals and side effects do. *)

From Stdlib Require Import ZArith String List.
From stdpp Require Import base option list strings pretty gmap.

Open Scope string_scope.
Open Scope Z_scope.
Open Scope list_scope.

(** ** Exceptions *)

(** The exception classes the module raises, catches or can meet.
    [SupersetException], [QueryObjectValidationError] and [CacheLoadError]
    are imported from [superset.exceptions]; the last two derive from the
    first.  Every value of [exn] is an instance of Python's [Exception]. *)
Inductive exn_class : Type :=
| Exception
| SupersetException
| QueryObjectValidationError
| CacheLoadError
| AttributeError
| KeyError.

(** An exception instance: its class and [str(ex)]. *)
Record exn : Type := mk_exn { exn_cls : exn_class; exn_str : string }.

Definition exn_class_eqb (a b : exn_class) : bool :=
  match a, b with
  | Exception, Exception
  | SupersetException, SupersetException
  | QueryObjectValidationError, QueryObjectValidationError
  | CacheLoadError, CacheLoadError
  | AttributeError, AttributeError
  | KeyError, KeyError => true
  | _, _ => false
  end.

(** [isinstance(ex, cls)] for the classes used in [except] clauses. *)
Definition isinstance (ex : exn) (cls : exn_class) : bool :=
  match cls with
  | Exception => true
  | SupersetException =>
      match exn_cls ex with
      | SupersetException | QueryObjectValidationError | CacheLoadError => true
      | _ => false
      end
  | c => exn_class_eqb (exn_cls ex) c
  end.

Inductive result (A : Type) : Type :=
| Ok (a : A)
| Raise (ex : exn).
Arguments Ok {A} a.
Arguments Raise {A} ex.

(** ** Python truthiness *)

Definition str_truthy (s : string) : bool :=
  match s with EmptyString => false | _ => true end.

(** Truthiness of an [Optional[str]]: [None] and [""] are falsy. *)
Definition opt_str_truthy (o : option string) : bool :=
  match o with Some s => str_truthy s | None => false end.

(** Truthiness of an [Optional[bool]]. *)
Definition opt_bool_truthy (o : option bool) : bool :=
  match o with Some b => b | None => false end.

(** ** Tables (pandas) *)

Inductive Dtype : Type := dt_object | dt_float64 | dt_int64 | dt_bool | dt_datetime64.

(** A cell of a table.  Floating-point values are kept abstract except
    for the three special values the module itself names. *)
Inductive cell : Type :=
| c_nan            (* np.nan *)
| c_inf            (* np.inf *)
| c_neg_inf        (* -np.inf *)
| c_int (z : Z)
| c_str (s : string)
| c_dttm (t : Z).

Definition cell_eqb (a b : cell) : bool :=
  match a, b with
  | c_nan, c_nan => false         (* nan != nan *)
  | c_inf, c_inf => true
  | c_neg_inf, c_neg_inf => true
  | c_int x, c_int y => Z.eqb x y
  | c_str x, c_str y => String.eqb x y
  | c_dttm x, c_dttm y => Z.eqb x y
  | _, _ => false
  end.

Record Series : Type := mk_series { dtype : Dtype; values : list cell }.

Record DataFrame : Type := mk_df {
  df_index : list Z;                       (* df.index *)
  df_columns : list (string * Series)      (* column label, column *)
}.

(** [pd.DataFrame()] *)
Definition pd_DataFrame : DataFrame := mk_df [] [].

(** [df.empty]: some axis has length zero. *)
Definition df_empty (df : DataFrame) : bool :=
  match df_index df, df_columns df with
  | [], _ => true
  | _, [] => true
  | _, _ => false
  end.

(** [len(df.index)] *)
Definition df_rowcount (df : DataFrame) : nat := length (df_index df).

(** [df.replace(to_replace, value, inplace=True)] *)
Definition series_replace (to_replace : list cell) (value : cell) (s : Series) : Series :=
  mk_series (dtype s)
    (map (fun c => if existsb (cell_eqb c) to_replace then value else c) (values s)).

Definition df_replace (to_replace : list cell) (value : cell) (df : DataFrame) : DataFrame :=
  mk_df (df_index df)
    (map (fun '(name, s) => (name, series_replace to_replace value s)) (df_columns df)).

Definition is_object (d : Dtype) : bool :=
  match d with dt_object => true | _ => false end.

(** [col in names] for a list of strings. *)
Definition str_in (x : string) (l : list string) : bool := existsb (String.eqb x) l.

(** ** Collaborating objects *)

Inductive QueryStatus : Type :=
| STOPPED | FAILED | PENDING | RUNNING | SCHEDULED | SUCCESS | TIMED_OUT.

Definition status_is_failed (s : QueryStatus) : bool :=
  match s with FAILED => true | _ => false end.

(** What the datasource's [query] returns. *)
Record QueryResult : Type := mk_query_result {
  qr_df : DataFrame;
  qr_query : string;
  qr_status : QueryStatus;
  qr_error_message : option string
}.

(** A metric of a query object: the name of a saved metric or an ad-hoc
    metric over a column. *)
Inductive Metric : Type :=
| saved_metric (name : string)
| adhoc_metric (column_name : string) (label : string).

(** An annotation-layer reference carried by a query object: the dict
    with keys ["name"], ["sourceType"] and ["value"]. *)
Record Layer : Type := mk_layer {
  layer_name : string;
  layer_sourceType : string;
  layer_value : Z
}.

(** The keyword arguments [query_cache_key] passes to
    [QueryObject.cache_key]. *)
Record CacheKeyArgs : Type := mk_cache_key_args {
  ck_datasource : string;
  ck_extra_cache_keys : list string;
  ck_rls : list Z;
  ck_changed_on : Z
}.

(** The part of [QueryObject] (superset/common/query_object.py) the
    module reads.  [qo_bool] is [bool(query_obj)]; [exec_post_processing]
    and [cache_key] are its methods. *)
Record QueryObject : Type := mk_query_object {
  qo_bool : bool;
  columns : list string;
  groupby : list string;
  metrics : option (list Metric);
  metric_names : list string;
  granularity : option string;
  time_shift : option Z;
  annotation_layers : list Layer;
  exec_post_processing : DataFrame -> result DataFrame;
  qo_cache_key : CacheKeyArgs -> option string
}.

(** A column descriptor of a "table" datasource. *)
Record TableColumn : Type := mk_table_column { python_date_format : option string }.

(** The owning database connection of a datasource. *)
Record Database : Type := mk_database { db_cache_timeout : option Z }.

(** The datasource interface ([BaseDatasource]).  [database] is [None]
    when the object has no attribute of that name ([hasattr] is false). *)
Record BaseDatasource : Type := mk_datasource {
  ds_type : string;
  ds_cache_timeout : option Z;
  database : option Database;
  offset : Z;
  column_names : list string;
  uid : string;
  changed_on : Z;
  is_rls_supported : bool;
  get_column : option string -> option TableColumn;
  get_extra_cache_keys : QueryObject -> list string;
  ds_query : QueryObject -> result QueryResult
}.

(** Annotation rows and layers of the annotation-layer store. *)
Record Annotation : Type := mk_annotation {
  start_dttm : Z;
  end_dttm : Z;
  short_descr : string;
  long_descr : string;
  json_metadata : string
}.

Record AnnotationLayer : Type := mk_annotation_layer {
  al_id : Z;
  al_annotation : list Annotation
}.

Inductive field_value : Type :=
| fv_dttm (t : Z)
| fv_text (s : string).

(** [getattr(annotation, column)] for the five columns read. *)
Definition annotation_getattr (a : Annotation) (column : string) : field_value :=
  if String.eqb column "start_dttm" then fv_dttm (start_dttm a)
  else if String.eqb column "end_dttm" then fv_dttm (end_dttm a)
  else if String.eqb column "short_descr" then fv_text (short_descr a)
  else if String.eqb column "long_descr" then fv_text (long_descr a)
  else fv_text (json_metadata a).

(** The rendered data of a visualization ([payload["data"]]), opaque here. *)
Inductive VizData : Type := viz_data (rendered : string).

(** The value stored under a layer name in the annotation mapping. *)
Inductive AnnotationValue : Type :=
| native_result (cols : list string) (records : list (list (string * field_value)))
| viz_result (data : VizData).

(** A saved chart of the chart store. *)
Record Slice : Type := mk_slice {
  form_data : list (string * string);
  slice_datasource_type : string;
  slice_datasource_id : Z
}.

(** A visualization object returned by [get_viz]; its payload is a dict
    whose ["data"] entry may be missing. *)
Record VizPayload : Type := mk_viz_payload { payload_data : option VizData }.
Record BaseViz : Type := mk_viz { get_payload : result VizPayload }.

(** A per-query cache entry: a dict over the keys ["df"], ["query"],
    ["annotation_data"] and ["dttm"], each of which may be missing. *)
Record CacheValue : Type := mk_cache_value {
  cv_df : option DataFrame;
  cv_query : option string;
  cv_annotation_data : option (gmap string AnnotationValue);
  cv_dttm : option string
}.

(** Truthiness of a cache entry: a dict is falsy exactly when empty. *)
Definition cache_value_truthy (v : CacheValue) : bool :=
  match cv_df v, cv_query v, cv_annotation_data v, cv_dttm v with
  | None, None, None, None => false
  | _, _, _, _ => true
  end.

(** The local variables of [get_df_payload] that are assigned more than
    once. *)
Module L.
Record t : Type := mk {
  is_loaded : bool;
  stacktrace : option string;
  df : DataFrame;
  cache_value : option CacheValue;
  status : option QueryStatus;
  query : string;
  annotation_data : gmap string AnnotationValue;
  error_message : option string
}.

(** Their values before the cache check. *)
Definition init : t := mk false None pd_DataFrame None None "" ∅ None.

Definition set_is_loaded (v : bool) (l : t) : t :=
  mk v (stacktrace l) (df l) (cache_value l) (status l) (query l)
     (annotation_data l) (error_message l).
Definition set_stacktrace (v : option string) (l : t) : t :=
  mk (is_loaded l) v (df l) (cache_value l) (status l) (query l)
     (annotation_data l) (error_message l).
Definition set_df (v : DataFrame) (l : t) : t :=
  mk (is_loaded l) (stacktrace l) v (cache_value l) (status l) (query l)
     (annotation_data l) (error_message l).
Definition set_cache_value (v : option CacheValue) (l : t) : t :=
  mk (is_loaded l) (stacktrace l) (df l) v (status l) (query l)
     (annotation_data l) (error_message l).
Definition set_status (v : option QueryStatus) (l : t) : t :=
  mk (is_loaded l) (stacktrace l) (df l) (cache_value l) v (query l)
     (annotation_data l) (error_message l).
Definition set_query (v : string) (l : t) : t :=
  mk (is_loaded l) (stacktrace l) (df l) (cache_value l) (status l) v
     (annotation_data l) (error_message l).
Definition set_annotation_data (v : gmap string AnnotationValue) (l : t) : t :=
  mk (is_loaded l) (stacktrace l) (df l) (cache_value l) (status l) (query l)
     v (error_message l).
Definition set_error_message (v : option string) (l : t) : t :=
  mk (is_loaded l) (stacktrace l) (df l) (cache_value l) (status l) (query l)
     (annotation_data l) v.
End L.

(** The dict [get_df_payload] returns. *)
Module Payload.
Record t : Type := mk {
  cache_key : option string;
  cached_dttm : option string;
  cache_timeout : option Z;
  df : DataFrame;
  annotation_data : gmap string AnnotationValue;
  error : option string;
  is_cached : bool;
  query : string;
  status : option QueryStatus;
  stacktrace : option string;
  rowcount : nat
}.
End Payload.

(** ** The log of calls to collaborators

    A logger call is recorded with its level and its message template,
    the other calls with the arguments that identify them. *)

Inductive Event : Type :=
| Ev_log (level : string) (message : string)
| Ev_stats_incr (key : string)
| Ev_cache_get (key : string)
| Ev_datasource_query
| Ev_normalize_dttm_col
| Ev_exec_post_processing
| Ev_find_annotation_layers (ids : list Z)
| Ev_find_chart (id : Z)
| Ev_get_viz (datasource_id : Z) (force : bool)
| Ev_set_and_log_cache (key : string) (value : CacheValue) (timeout : option Z)
    (datasource_uid : string).

Definition Trace : Type := list Event.

Definition is_datasource_query (e : Event) : bool :=
  match e with Ev_datasource_query => true | _ => false end.

Definition is_post_processing (e : Event) : bool :=
  match e with Ev_normalize_dttm_col | Ev_exec_post_processing => true | _ => false end.

Definition is_annotation_merge (e : Event) : bool :=
  match e with
  | Ev_find_annotation_layers _ | Ev_find_chart _ | Ev_get_viz _ _ => true
  | _ => false
  end.

Definition is_cache_write (e : Event) : bool :=
  match e with Ev_set_and_log_cache _ _ _ _ => true | _ => false end.

(** ** The effect monad *)

Definition Eff (S A : Type) : Type := S -> Trace -> result A * S * Trace.

Definition eff_ret {S A} (a : A) : Eff S A := fun s t => (Ok a, s, t).

Definition eff_bind {S A B} (k : A -> Eff S B) (m : Eff S A) : Eff S B :=
  fun s t =>
    match m s t with
    | (Ok a, s', t') => k a s' t'
    | (Raise ex, s', t') => (Raise ex, s', t')
    end.

#[global] Instance Eff_ret S : MRet (Eff S) := @eff_ret S.
#[global] Instance Eff_bind S : MBind (Eff S) := @eff_bind S.

Definition raise {S A} (ex : exn) : Eff S A := fun s t => (Raise ex, s, t).

(** [try: body except ... as ex: handler ex] *)
Definition try_except {S A} (body : Eff S A) (handler : exn -> Eff S A) : Eff S A :=
  fun s t =>
    match body s t with
    | (Raise ex, s', t') => handler ex s' t'
    | r => r
    end.

Definition emit {S} (e : Event) : Eff S unit := fun s t => (Ok tt, s, t ++ [e]).

Definition get_locals {S} : Eff S S := fun s t => (Ok s, s, t).

Definition modify {S} (f : S -> S) : Eff S unit := fun s t => (Ok tt, f s, t).

(** The outcome of a call that may raise. *)
Definition lift {S A} (r : result A) : Eff S A := fun s t => (r, s, t).

(** A call to a collaborator: logged, then its outcome. *)
Definition call {S A} (e : Event) (r : result A) : Eff S A := emit e;; lift r.

Definition stats_logger_incr {S} (key : string) : Eff S unit := emit (Ev_stats_incr key).
Definition logger {S} (level message : string) : Eff S unit := emit (Ev_log level message).

(** ** Ambient collaborators

    The configuration, the cache manager, the DAOs and the helper
    functions the module imports; they are fixed for a process. *)
Class Ambient : Type := {
  CACHE_DEFAULT_TIMEOUT : Z;                   (* config["CACHE_DEFAULT_TIMEOUT"] *)
  DTTM_ALIAS : string;                         (* superset.utils.core.DTTM_ALIAS *)
  data_cache : option (gmap string CacheValue);  (* cache_manager.data_cache *)
  row_level_security : bool;                   (* is_feature_enabled("ROW_LEVEL_SECURITY") *)
  get_rls_ids : BaseDatasource -> list Z;      (* security_manager.get_rls_ids *)
  gettext : string -> string;                  (* flask_babel._ on a plain message *)
  gettext_names : string -> list string -> string;
                                               (* flask_babel._ on a template and the list bound
                                                  to its one placeholder *)
  error_msg_from_exception : exn -> string;
  get_column_names_from_metrics : list Metric -> list string;
  get_stacktrace : exn -> option string;       (* get_stacktrace() while handling the exception *)
  normalize_dttm_col : DataFrame -> option string -> Z -> option Z -> result DataFrame;
  infer_objects : Series -> Series;            (* pandas Series.infer_objects *)
  find_by_ids : list Z -> list AnnotationLayer;  (* AnnotationLayerDAO.find_by_ids *)
  find_by_id : Z -> option Slice;              (* ChartDAO.find_by_id *)
  get_viz : string -> Z -> list (string * string) -> bool -> result BaseViz
}.

(** ** QueryContext *)

Record QueryContext : Type := mk_query_context {
  datasource : BaseDatasource;
  queries : list QueryObject;
  force : bool;
  custom_cache_timeout : option Z
}.

(** The Python values the guard of [cache_timeout] ranges over. *)
Inductive pyval : Type := py_False | py_None | py_int (z : Z).

Definition py_of_timeout (o : option Z) : pyval :=
  match o with Some z => py_int z | None => py_None end.

Definition is_not_None (v : pyval) : bool :=
  match v with py_None => false | _ => true end.

(** [enforce_numerical_metrics: ClassVar[bool] = True] *)
Definition enforce_numerical_metrics : bool := true.

Section WithAmbient.
Context `{Ambient}.

(** *** cache_timeout *)

(** [hasattr(datasource, "database") and datasource.database.cache_timeout] *)
Definition hasattr_database_and_timeout (ds : BaseDatasource) : pyval :=
  match database ds with
  | None => py_False
  | Some db => py_of_timeout (db_cache_timeout db)
  end.

(** [datasource.database.cache_timeout] *)
Definition database_cache_timeout (ds : BaseDatasource) : result (option Z) :=
  match database ds with
  | None => Raise (mk_exn AttributeError "object has no attribute 'database'")
  | Some db => Ok (db_cache_timeout db)
  end.

Definition cache_timeout (self : QueryContext) : result (option Z) :=
  match custom_cache_timeout self with
  | Some t => Ok (Some t)
  | None =>
    match ds_cache_timeout (datasource self) with
    | Some t => Ok (Some t)
    | None =>
      if is_not_None (hasattr_database_and_timeout (datasource self))
      then database_cache_timeout (datasource self)
      else Ok (Some CACHE_DEFAULT_TIMEOUT)
    end
  end.

(** *** get_query_result *)

(** [df_metrics_to_num]: every object-typed column that is a metric is
    replaced by its [infer_objects()]. *)
Definition df_metrics_to_num (df : DataFrame) (query_object : QueryObject) : DataFrame :=
  mk_df (df_index df)
    (map (fun '(col, s) =>
            if is_object (dtype s) && str_in col (metric_names query_object)
            then (col, infer_objects s)
            else (col, s))
         (df_columns df)).

Definition get_query_result {S} (self : QueryContext) (query_object : QueryObject)
  : Eff S QueryResult :=
  let timestamp_format :=
    if String.eqb (ds_type (datasource self)) "table" then
      match get_column (datasource self) (granularity query_object) with
      | Some dttm_col => python_date_format dttm_col
      | None => None
      end
    else None in
  result ← call Ev_datasource_query (ds_query (datasource self) query_object);
  let df := qr_df result in
  df ← (if negb (df_empty df) then
          df ← call Ev_normalize_dttm_col
                 (normalize_dttm_col df timestamp_format
                    (offset (datasource self)) (time_shift query_object));
          let df := if enforce_numerical_metrics
                    then df_metrics_to_num df query_object else df in
          let df := df_replace [c_inf; c_neg_inf] c_nan df in
          call Ev_exec_post_processing (exec_post_processing query_object df)
        else mret df);
  mret (mk_query_result df (qr_query result) (qr_status result) (qr_error_message result)).

(** *** query_cache_key *)

Definition query_cache_key (self : QueryContext) (query_obj : QueryObject) : option string :=
  let extra_cache_keys := get_extra_cache_keys (datasource self) query_obj in
  if qo_bool query_obj then
    qo_cache_key query_obj
      (mk_cache_key_args
         (uid (datasource self))
         extra_cache_keys
         (if row_level_security && is_rls_supported (datasource self)
          then get_rls_ids (datasource self) else [])
         (changed_on (datasource self)))
  else None.

(** *** Annotation data *)

Definition annotation_columns : list string :=
  ["start_dttm"; "end_dttm"; "short_descr"; "long_descr"; "json_metadata"].

(** [{o.id: o for o in objects}]: a later object replaces an earlier one
    with the same id. *)
Definition index_by_id (objects : list AnnotationLayer) : gmap Z AnnotationLayer :=
  fold_left (fun m o => <[al_id o := o]> m) objects ∅.

(** The loop of [get_native_annotation_data] over the native layers. *)
Fixpoint native_layers_loop {S} (layer_objects : gmap Z AnnotationLayer)
    (layers : list Layer) (annotation_data : gmap string AnnotationValue)
  : Eff S (gmap string AnnotationValue) :=
  match layers with
  | [] => mret annotation_data
  | layer :: rest =>
      let layer_id := layer_value layer in
      let layer_name := layer_name layer in
      match layer_objects !! layer_id with
      | None => raise (mk_exn KeyError (pretty layer_id))
      | Some layer_object =>
          let records :=
            map (fun annotation =>
                   map (fun column => (column, annotation_getattr annotation column))
                       annotation_columns)
                (al_annotation layer_object) in
          let result := native_result annotation_columns records in
          native_layers_loop layer_objects rest (<[layer_name := result]> annotation_data)
      end
  end.

Definition get_native_annotation_data {S} (query_obj : QueryObject)
  : Eff S (gmap string AnnotationValue) :=
  let annotation_layers :=
    List.filter (fun layer => String.eqb (layer_sourceType layer) "NATIVE")
                (annotation_layers query_obj) in
  let layer_ids := map layer_value annotation_layers in
  objects ← call (Ev_find_annotation_layers layer_ids) (Ok (find_by_ids layer_ids));
  native_layers_loop (index_by_id objects) annotation_layers ∅.

(** [chart.form_data] on the outcome of [ChartDAO.find_by_id]. *)
Definition chart_form_data (chart : option Slice) : result (list (string * string)) :=
  match chart with
  | None => Raise (mk_exn AttributeError "'NoneType' object has no attribute 'form_data'")
  | Some c => Ok (form_data c)
  end.

(** [payload["data"]] *)
Definition payload_getitem_data (payload : VizPayload) : result VizData :=
  match payload_data payload with
  | None => Raise (mk_exn KeyError "'data'")
  | Some d => Ok d
  end.

Definition get_viz_annotation_data {S} (annotation_layer : Layer) (force : bool)
  : Eff S VizData :=
  chart ← call (Ev_find_chart (layer_value annotation_layer))
               (Ok (find_by_id (layer_value annotation_layer)));
  form_data ← lift (chart_form_data chart);
  match chart with
  | None =>
      raise (mk_exn QueryObjectValidationError (gettext "The chart does not exist"))
  | Some chart =>
      try_except
        (viz_obj ← call (Ev_get_viz (slice_datasource_id chart) force)
                     (get_viz (slice_datasource_type chart) (slice_datasource_id chart)
                              form_data force);
         payload ← lift (get_payload viz_obj);
         lift (payload_getitem_data payload))
        (fun ex =>
           if isinstance ex SupersetException
           then raise (mk_exn QueryObjectValidationError (error_msg_from_exception ex))
           else raise ex)
  end.

(** The loop of [get_annotation_data] over the derived layers. *)
Fixpoint viz_layers_loop {S} (force : bool) (layers : list Layer)
    (annotation_data : gmap string AnnotationValue)
  : Eff S (gmap string AnnotationValue) :=
  match layers with
  | [] => mret annotation_data
  | annotation_layer :: rest =>
      let name := layer_name annotation_layer in
      data ← get_viz_annotation_data annotation_layer force;
      viz_layers_loop force rest (<[name := viz_result data]> annotation_data)
  end.

Definition is_derived (layer : Layer) : bool :=
  str_in (layer_sourceType layer) ["line"; "table"].

Definition get_annotation_data {S} (self : QueryContext) (query_obj : QueryObject)
  : Eff S (gmap string AnnotationValue) :=
  annotation_data ← get_native_annotation_data query_obj;
  viz_layers_loop (force self)
    (List.filter is_derived (annotation_layers query_obj))
    annotation_data.

(** *** get_df_payload *)

(** [cache_value[key]] for the three keys read with a subscript. *)
Definition getitem {A} (key : string) (field : option A) : result A :=
  match field with
  | Some a => Ok a
  | None => Raise (mk_exn KeyError ("'" ++ key ++ "'")%string)
  end.

(** [status != QueryStatus.FAILED] *)
Definition status_ne_FAILED (status : option QueryStatus) : bool :=
  match status with Some s => negb (status_is_failed s) | None => true end.

Definition is_some {A} (o : option A) : bool :=
  match o with Some _ => true | None => false end.

Definition is_nil {A} (l : list A) : bool :=
  match l with [] => true | _ => false end.

(** [cache_manager.data_cache.get(cache_key)] *)
Definition data_cache_get (cache_key : option string) : option CacheValue :=
  match data_cache, cache_key with
  | Some store, Some key => store !! key
  | _, _ => None
  end.

(** Lines 318-334: the cache check. *)
Definition cache_check (self : QueryContext) (cache_key : option string) : Eff L.t unit :=
  if opt_str_truthy cache_key && is_some data_cache && negb (force self) then
    cache_value ← call (Ev_cache_get (default "" cache_key)) (Ok (data_cache_get cache_key));
    modify (L.set_cache_value cache_value);;
    match cache_value with
    | Some entry =>
        if cache_value_truthy entry then
          stats_logger_incr "loading_from_cache";;
          try_except
            (df ← lift (getitem "df" (cv_df entry));
             modify (L.set_df df);;
             query ← lift (getitem "query" (cv_query entry));
             modify (L.set_query query);;
             modify (L.set_annotation_data (default ∅ (cv_annotation_data entry)));;
             modify (L.set_status (Some SUCCESS));;
             modify (L.set_is_loaded true);;
             stats_logger_incr "loaded_from_cache")
            (fun ex =>
               if isinstance ex KeyError then
                 logger "exception" (exn_str ex);;
                 logger "error" "Error reading cache: %s"
               else raise ex);;
          logger "info" "Serving from cache"
        else mret tt
    | None => mret tt
    end
  else mret tt.

(** Lines 336-340: the cache-only guard. *)
Definition force_cached_check (force_cached : option bool) : Eff L.t unit :=
  l ← get_locals;
  if opt_bool_truthy force_cached && negb (L.is_loaded l) then
    logger "warning" "force_cached (QueryContext): value not found for key %s";;
    raise (mk_exn CacheLoadError "Error loading data from cache")
  else mret tt.

(** Lines 344-350: the names that are neither a column of the
    datasource nor the synthetic time column. *)
Definition invalid_columns (self : QueryContext) (query_obj : QueryObject) : list string :=
  List.filter
    (fun col => negb (str_in col (column_names (datasource self)))
                && negb (String.eqb col DTTM_ALIAS))
    (columns query_obj ++ groupby query_obj
     ++ get_column_names_from_metrics (default [] (metrics query_obj))).

(** Lines 344-369: the body of the [try]. *)
Definition fetch_body (self : QueryContext) (query_obj : QueryObject) : Eff L.t unit :=
  let invalid_columns := invalid_columns self query_obj in
  (if negb (is_nil invalid_columns) then
     raise (mk_exn QueryObjectValidationError
              (gettext_names "Columns missing in datasource: %(invalid_columns)s"
                             invalid_columns))
   else mret tt);;
  query_result ← get_query_result self query_obj;
  modify (L.set_status (Some (qr_status query_result)));;
  modify (L.set_query (qr_query query_result));;
  modify (L.set_error_message (qr_error_message query_result));;
  modify (L.set_df (qr_df query_result));;
  annotation_data ← get_annotation_data self query_obj;
  modify (L.set_annotation_data annotation_data);;
  l ← get_locals;
  if status_ne_FAILED (L.status l) then
    stats_logger_incr "loaded_from_source";;
    (if negb (force self) then stats_logger_incr "loaded_from_source_without_force"
     else mret tt);;
    modify (L.set_is_loaded true)
  else mret tt.

(** Lines 370-378: the two [except] clauses. *)
Definition fetch_handler (ex : exn) : Eff L.t unit :=
  if isinstance ex QueryObjectValidationError then
    modify (L.set_error_message (Some (exn_str ex)));;
    modify (L.set_status (Some FAILED))
  else
    logger "exception" (exn_str ex);;
    l ← get_locals;
    (if negb (opt_str_truthy (L.error_message l)) then
       modify (L.set_error_message (Some (exn_str ex)))
     else mret tt);;
    modify (L.set_status (Some FAILED));;
    modify (L.set_stacktrace (get_stacktrace ex)).

(** Lines 380-387: the cache write. *)
Definition cache_write (self : QueryContext) (cache_key : option string) : Eff L.t unit :=
  l ← get_locals;
  if L.is_loaded l && opt_str_truthy cache_key && status_ne_FAILED (L.status l) then
    timeout ← lift (cache_timeout self);
    emit (Ev_set_and_log_cache
            (default "" cache_key)
            (mk_cache_value (Some (L.df l)) (Some (L.query l))
                            (Some (L.annotation_data l)) None)
            timeout
            (uid (datasource self)))
  else mret tt.


(** [cache_value["dttm"] if cache_value is not None else None] *)
Definition cached_dttm_of (cache_value : option CacheValue) : result (option string) :=
  match cache_value with
  | Some entry =>
      match getitem "dttm" (cv_dttm entry) with
      | Ok dttm => Ok (Some dttm)
      | Raise ex => Raise ex
      end
  | None => Ok None
  end.

(** Lines 388-400: the returned dict, its entries evaluated in order. *)
Definition build_payload (self : QueryContext) (cache_key : option string)
  : Eff L.t Payload.t :=
  l ← get_locals;
  cached_dttm ← lift (cached_dttm_of (L.cache_value l));
  timeout ← lift (cache_timeout self);
  mret (Payload.mk
          cache_key
          cached_dttm
          timeout
          (L.df l)
          (L.annotation_data l)
          (L.error_message l)
          (is_some (L.cache_value l))
          (L.query l)
          (L.status l)
          (L.stacktrace l)
          (df_rowcount (L.df l))).

Definition get_df_payload (self : QueryContext) (query_obj : QueryObject)
    (force_cached : option bool) : Eff L.t Payload.t :=
  let cache_key := query_cache_key self query_obj in
  logger "info" "Cache key: %s";;
  cache_check self cache_key;;
  force_cached_check force_cached;;
  l ← get_locals;
  (if qo_bool query_obj && negb (L.is_loaded l) then
     try_except (fetch_body self query_obj) fetch_handler;;
     cache_write self cache_key
   else mret tt);;
  build_payload self cache_key.

(** A call of [get_df_payload]: what it returns or raises, and the calls
    it made to its collaborators. *)
Definition run_get_df_payload (self : QueryContext) (query_obj : QueryObject)
    (force_cached : option bool) : result Payload.t * Trace :=
  let '(r, _, t) := get_df_payload self query_obj force_cached L.init [] in (r, t).

End WithAmbient.

(** * Scenarios

    Concrete collaborators on which the model can be run: a "table"
    datasource with columns [region] and [sales], a chart store holding
    chart 7 only, and an annotation-layer store. *)
Module Scenario.

Definition sales : DataFrame :=
  mk_df [0; 1] [("sales", mk_series dt_float64 [c_inf; c_int 3])].

Definition no_rows : DataFrame :=
  mk_df [] [("sales", mk_series dt_float64 [])].

Definition ambient (store : option (gmap string CacheValue)) : Ambient := {|
  CACHE_DEFAULT_TIMEOUT := 86400;
  DTTM_ALIAS := "__timestamp";
  data_cache := store;
  row_level_security := false;
  get_rls_ids := fun _ => [];
  gettext := fun message => message;
  gettext_names := fun template names =>
    (template ++ " % [" ++ String.concat ", " names ++ "]")%string;
  error_msg_from_exception := exn_str;
  get_column_names_from_metrics :=
    map (fun m => match m with saved_metric n => n | adhoc_metric c _ => c end);
  get_stacktrace := fun ex => Some ("Traceback: " ++ exn_str ex)%string;
  normalize_dttm_col := fun df _ _ _ => Ok df;
  infer_objects := fun s => s;
  find_by_ids :=
    map (fun id => mk_annotation_layer id [mk_annotation 0 1 "closed" "bank holiday" "{}"]);
  find_by_id := fun id => if Z.eqb id 7 then Some (mk_slice [] "table" 3) else None;
  get_viz := fun _ _ _ _ => Ok (mk_viz (Ok (mk_viz_payload (Some (viz_data "line")))))
|}.

Definition query_object (cols : list string) (ms : option (list Metric))
    (layers : list Layer) : QueryObject :=
  mk_query_object true cols [] ms [] None None layers
    (fun df => Ok df) (fun _ => Some "key1").

Definition table (db : option Database) (response : result QueryResult)
  : BaseDatasource :=
  mk_datasource "table" None db 0 ["region"; "sales"] "1__table" 0 false
    (fun _ => None) (fun _ => []) (fun _ => response).

Definition context (db : option Database) (response : result QueryResult)
  : QueryContext :=
  mk_query_context (table db response) [] false None.

Definition main_db : option Database := Some (mk_database None).

Definition answered (df : DataFrame) (status : QueryStatus) (error : option string)
  : result QueryResult :=
  Ok (mk_query_result df "SELECT sales FROM t" status error).

Definition holidays : list Layer :=
  [mk_layer "Holidays" "NATIVE" 1; mk_layer "Holidays" "line" 7].

(** A stale entry: no ["query"], but a ["dttm"]. *)
Definition stale : CacheValue := mk_cache_value (Some sales) None None (Some "2020-01-01T00:00:00").

End Scenario.

(** * Properties *)

(** Unfolding of the monad's operations. *)
Ltac eff_simpl :=
  cbv beta iota zeta delta
    [mbind mret Eff_bind Eff_ret eff_bind eff_ret call emit lift raise modify
     get_locals try_except logger stats_logger_incr].

Tactic Notation "eff_simpl" "in" hyp(H) :=
  cbv beta iota zeta delta
    [mbind mret Eff_bind Eff_ret eff_bind eff_ret call emit lift raise modify
     get_locals try_except logger stats_logger_incr] in H.

Section Properties.
Context `{Ambient}.

(** ** cache_timeout *)

(** The first non-null value among the override, the datasource's
    timeout and the database's timeout, else the default. *)
Definition first_non_null (default : Z) (candidates : list (option Z)) : Z :=
  fold_right (fun o rest => match o with Some t => t | None => rest end) default candidates.

Lemma cache_timeout_with_database (self : QueryContext) (db : Database) :
  database (datasource self) = Some db ->
  cache_timeout self =
    Ok (Some (first_non_null CACHE_DEFAULT_TIMEOUT
                [custom_cache_timeout self;
                 ds_cache_timeout (datasource self);
                 db_cache_timeout db])).
Proof.
  intros Hdb. unfold cache_timeout, hasattr_database_and_timeout, database_cache_timeout.
  rewrite Hdb. cbn.
  destruct (custom_cache_timeout self); [reflexivity|].
  destruct (ds_cache_timeout (datasource self)); [reflexivity|].
  destruct (db_cache_timeout db); reflexivity.
Qed.

Lemma cache_timeout_not_None (self : QueryContext) :
  cache_timeout self <> Ok None.
Proof.
  unfold cache_timeout, hasattr_database_and_timeout, database_cache_timeout.
  destruct (custom_cache_timeout self); [discriminate|].
  destruct (ds_cache_timeout (datasource self)); [discriminate|].
  destruct (database (datasource self)) as [db|]; cbn; [|discriminate].
  destruct (db_cache_timeout db); cbn; discriminate.
Qed.

(** C1. A datasource without a [database] attribute, with no timeout of
    its own and no per-call override, does not get the process-wide
    default: the guard [(hasattr(...) and ...) is not None] is true on
    [False], and the attribute access that follows raises. *)
Theorem cache_timeout_without_database (self : QueryContext) :
  custom_cache_timeout self = None ->
  ds_cache_timeout (datasource self) = None ->
  database (datasource self) = None ->
  cache_timeout self = Raise (mk_exn AttributeError "object has no attribute 'database'")
  /\ cache_timeout self <> Ok (Some CACHE_DEFAULT_TIMEOUT).
Proof.
  intros Hc Hd Hdb.
  unfold cache_timeout, hasattr_database_and_timeout, database_cache_timeout.
  rewrite Hc, Hd, Hdb. cbn. split; [reflexivity | discriminate].
Qed.

(** ** get_query_result *)

(** After [df.replace([np.inf, -np.inf], np.nan)] no cell of the table
    is infinite. *)
Lemma df_replace_scrubs df name s c :
  In (name, s) (df_columns (df_replace [c_inf; c_neg_inf] c_nan df)) ->
  In c (values s) ->
  c <> c_inf /\ c <> c_neg_inf.
Proof.
  unfold df_replace. cbn [df_columns]. rewrite in_map_iff.
  intros ([name0 s0] & [= <- <-] & _). cbn [series_replace values].
  rewrite in_map_iff. intros (c0 & <- & _).
  destruct c0; cbn; split; discriminate.
Qed.

(** The date-format hint handed to the timestamp normalization. *)
Definition timestamp_format_of (self : QueryContext) (query_object : QueryObject)
  : option string :=
  if String.eqb (ds_type (datasource self)) "table" then
    match get_column (datasource self) (granularity query_object) with
    | Some dttm_col => python_date_format dttm_col
    | None => None
    end
  else None.

(** The four steps, composed in the order the specification gives. *)
Definition pipeline_in_order (self : QueryContext) (query_object : QueryObject)
    (df : DataFrame) : result DataFrame :=
  match normalize_dttm_col df (timestamp_format_of self query_object)
          (offset (datasource self)) (time_shift query_object) with
  | Raise ex => Raise ex
  | Ok normalized =>
      let coerced := df_metrics_to_num normalized query_object in
      let scrubbed := df_replace [c_inf; c_neg_inf] c_nan coerced in
      exec_post_processing query_object scrubbed
  end.

Definition with_df (r : QueryResult) (df : DataFrame) : QueryResult :=
  mk_query_result df (qr_query r) (qr_status r) (qr_error_message r).

Lemma get_query_result_raise {S} self q ex (s : S) t :
  ds_query (datasource self) q = Raise ex ->
  get_query_result self q s t = (Raise ex, s, t ++ [Ev_datasource_query]).
Proof.
  intros Hq. unfold get_query_result. eff_simpl. rewrite Hq. reflexivity.
Qed.

Lemma get_query_result_empty {S} self q r (s : S) t :
  ds_query (datasource self) q = Ok r ->
  df_empty (qr_df r) = true ->
  get_query_result self q s t = (Ok r, s, t ++ [Ev_datasource_query]).
Proof.
  intros Hq He. unfold get_query_result. eff_simpl. rewrite Hq, He. cbn.
  destruct r; reflexivity.
Qed.

Lemma get_query_result_nonempty {S} self q r (s : S) t :
  ds_query (datasource self) q = Ok r ->
  df_empty (qr_df r) = false ->
  get_query_result self q s t =
    match normalize_dttm_col (qr_df r) (timestamp_format_of self q)
            (offset (datasource self)) (time_shift q) with
    | Raise ex => (Raise ex, s, t ++ [Ev_datasource_query; Ev_normalize_dttm_col])
    | Ok _ =>
        match pipeline_in_order self q (qr_df r) with
        | Raise ex =>
            (Raise ex, s,
             t ++ [Ev_datasource_query; Ev_normalize_dttm_col; Ev_exec_post_processing])
        | Ok df =>
            (Ok (with_df r df), s,
             t ++ [Ev_datasource_query; Ev_normalize_dttm_col; Ev_exec_post_processing])
        end
    end.
Proof.
  intros Hq He. unfold get_query_result, pipeline_in_order, timestamp_format_of.
  eff_simpl. rewrite Hq, He. cbn -[df_replace df_metrics_to_num].
  destruct (normalize_dttm_col _ _ _ _) as [d|ex]; cbn -[df_replace df_metrics_to_num].
  - destruct (exec_post_processing q _) as [d'|ex]; cbn;
      rewrite <- ?app_assoc; reflexivity.
  - rewrite <- ?app_assoc; reflexivity.
Qed.


(** ** Annotation data *)

(** A computation that does not read the frame of locals can be run on
    its own: what it returns or raises, and the calls it makes. *)
Definition outcome {A} (m : Eff unit A) : result A := (m tt []).1.1.
Definition events {A} (m : Eff unit A) : Trace := (m tt []).2.

Lemma native_layers_loop_run objects layers :
  forall acc S (s : S) t,
    native_layers_loop objects layers acc s t =
      (outcome (native_layers_loop objects layers acc), s, t).
Proof.
  induction layers as [|l rest IH]; intros acc S s t; cbn.
  - reflexivity.
  - destruct (objects !! layer_value l); [|reflexivity].
    rewrite IH. unfold outcome. rewrite (IH _ unit tt []). reflexivity.
Qed.

Lemma native_layers_loop_events objects layers acc :
  events (native_layers_loop objects layers acc) = [].
Proof. unfold events. rewrite native_layers_loop_run. reflexivity. Qed.

Lemma get_native_annotation_data_run {S} q (s : S) t :
  get_native_annotation_data q s t =
    (outcome (get_native_annotation_data q), s,
     t ++ events (get_native_annotation_data q)).
Proof.
  unfold outcome, events, get_native_annotation_data. eff_simpl.
  rewrite !native_layers_loop_run. reflexivity.
Qed.

Lemma get_native_annotation_data_events q :
  events (get_native_annotation_data q) =
    [Ev_find_annotation_layers
       (map layer_value
          (List.filter (fun layer => String.eqb (layer_sourceType layer) "NATIVE")
                       (annotation_layers q)))].
Proof.
  unfold events, get_native_annotation_data. eff_simpl.
  rewrite native_layers_loop_run. reflexivity.
Qed.

Lemma get_viz_annotation_data_run {S} layer force (s : S) t :
  get_viz_annotation_data layer force s t =
    (outcome (get_viz_annotation_data layer force), s,
     t ++ events (get_viz_annotation_data layer force)).
Proof.
  unfold outcome, events, get_viz_annotation_data. eff_simpl.
  destruct (find_by_id (layer_value layer)) as [chart|]; cbn -[isinstance];
    [|reflexivity].
  destruct (get_viz _ _ _ _) as [viz|ex]; cbn -[isinstance].
  - destruct (get_payload viz) as [payload|ex]; cbn -[isinstance].
    + destruct (payload_getitem_data payload) as [d|ex]; cbn -[isinstance].
      * rewrite <- app_assoc. reflexivity.
      * destruct (isinstance ex SupersetException); rewrite <- app_assoc; reflexivity.
    + destruct (isinstance ex SupersetException); rewrite <- app_assoc; reflexivity.
  - destruct (isinstance ex SupersetException); rewrite <- app_assoc; reflexivity.
Qed.

Lemma viz_layers_loop_run force layers :
  forall acc S (s : S) t,
    viz_layers_loop force layers acc s t =
      (outcome (viz_layers_loop force layers acc), s,
       t ++ events (viz_layers_loop force layers acc)).
Proof.
  induction layers as [|l rest IH]; intros acc S s t.
  - cbn. rewrite app_nil_r. reflexivity.
  - unfold outcome, events. cbn [viz_layers_loop]. eff_simpl.
    rewrite (get_viz_annotation_data_run l force s t).
    rewrite (get_viz_annotation_data_run l force tt []).
    destruct (outcome (get_viz_annotation_data l force)) as [d|ex]; cbn.
    + rewrite IH. rewrite (IH _ unit tt). unfold outcome, events.
      rewrite <- app_assoc. reflexivity.
    + reflexivity.
Qed.

Lemma get_annotation_data_run {S} self q (s : S) t :
  get_annotation_data self q s t =
    (outcome (get_annotation_data self q), s,
     t ++ events (get_annotation_data self q)).
Proof.
  unfold outcome, events, get_annotation_data. eff_simpl.
  rewrite (get_native_annotation_data_run q s t).
  rewrite (get_native_annotation_data_run q tt []).
  destruct (outcome (get_native_annotation_data q)) as [m|ex]; cbn.
  - rewrite viz_layers_loop_run. rewrite (viz_layers_loop_run _ _ _ unit tt).
    rewrite <- app_assoc. reflexivity.
  - reflexivity.
Qed.

(** The merge always starts with the lookup of the native layers. *)
Lemma get_annotation_data_events self q :
  exists rest,
    events (get_annotation_data self q) =
      Ev_find_annotation_layers
        (map layer_value
           (List.filter (fun layer => String.eqb (layer_sourceType layer) "NATIVE")
                        (annotation_layers q))) :: rest.
Proof.
  unfold events, get_annotation_data. eff_simpl.
  rewrite (get_native_annotation_data_run q tt []).
  rewrite get_native_annotation_data_events.
  destruct (outcome (get_native_annotation_data q)) as [m|ex]; cbn.
  - rewrite viz_layers_loop_run. cbn. eauto.
  - eauto.
Qed.

(** The last layer of a list that carries a given name. *)
Fixpoint last_named (name : string) (layers : list Layer) : option Layer :=
  match layers with
  | [] => None
  | layer :: rest =>
      match last_named name rest with
      | Some later => Some later
      | None => if String.eqb (layer_name layer) name then Some layer else None
      end
  end.

Lemma viz_layers_loop_lookup force layers acc m :
  outcome (viz_layers_loop force layers acc) = Ok m ->
  forall name,
    match last_named name layers with
    | Some layer =>
        exists data, outcome (get_viz_annotation_data layer force) = Ok data
                     /\ m !! name = Some (viz_result data)
    | None => m !! name = acc !! name
    end.
Proof.
  revert acc. induction layers as [|l rest IH]; intros acc Hm name.
  - cbn in Hm. injection Hm as <-. reflexivity.
  - unfold outcome in Hm. cbn [viz_layers_loop] in Hm. eff_simpl in Hm.
    rewrite (get_viz_annotation_data_run l force tt []) in Hm.
    destruct (outcome (get_viz_annotation_data l force)) as [d|ex] eqn:Hd;
      cbn in Hm; [|discriminate].
    rewrite viz_layers_loop_run in Hm. cbn in Hm.
    specialize (IH _ Hm name). cbn [last_named].
    destruct (last_named name rest) as [later|]; [exact IH|].
    destruct (String.eqb (layer_name l) name) eqn:Hn.
    + apply String.eqb_eq in Hn. subst name. exists d. split; [exact Hd|].
      rewrite IH. apply lookup_insert_eq.
    + apply String.eqb_neq in Hn. rewrite IH. apply lookup_insert_ne. exact Hn.
Qed.

(** Native layers are resolved first and derived layers merged
    afterwards, so under every name that a derived layer carries the
    mapping holds the data of the last derived layer of that name,
    whatever native layer shares the name; the other names keep what the
    native layers put there. *)
Theorem get_annotation_data_derived_overwrites {S} self q (s s' : S) t t' m :
  get_annotation_data self q s t = (Ok m, s', t') ->
  exists native,
    outcome (get_native_annotation_data q) = Ok native /\
    t' = t ++ events (get_native_annotation_data q)
           ++ events (viz_layers_loop (force self)
                        (List.filter is_derived (annotation_layers q)) native) /\
    forall name,
      match last_named name (List.filter is_derived (annotation_layers q)) with
      | Some layer =>
          exists data,
            outcome (get_viz_annotation_data layer (force self)) = Ok data
            /\ m !! name = Some (viz_result data)
      | None => m !! name = native !! name
      end.
Proof.
  unfold get_annotation_data. eff_simpl.
  rewrite (get_native_annotation_data_run q s t).
  destruct (outcome (get_native_annotation_data q)) as [native|ex]; cbn;
    [|discriminate].
  rewrite viz_layers_loop_run. intros Hrun.
  injection Hrun as Hm _ Ht. exists native. split; [reflexivity|]. split.
  - rewrite <- Ht, <- app_assoc. reflexivity.
  - apply viz_layers_loop_lookup. exact Hm.
Qed.

(** C2. When the chart store has no chart for the layer's reference,
    [get_viz_annotation_data] raises the [AttributeError] of
    [chart.form_data] on [None]; the validation error of the next
    statement is never reached. *)
Theorem get_viz_annotation_data_missing_chart {S} layer force (s : S) t :
  find_by_id (layer_value layer) = None ->
  get_viz_annotation_data layer force s t =
    (Raise (mk_exn AttributeError "'NoneType' object has no attribute 'form_data'"),
     s, t ++ [Ev_find_chart (layer_value layer)])
  /\ isinstance (mk_exn AttributeError "'NoneType' object has no attribute 'form_data'")
       QueryObjectValidationError = false.
Proof.
  intros Hc. unfold get_viz_annotation_data. eff_simpl. rewrite Hc. cbn.
  split; reflexivity.
Qed.


(** ** get_df_payload: the cache check *)

(** The entry the cache check finds under the derived key; [None] when
    the check is skipped or the store has nothing under the key. *)
Definition cache_entry_found (self : QueryContext) (query_obj : QueryObject)
  : option CacheValue :=
  let cache_key := query_cache_key self query_obj in
  if opt_str_truthy cache_key && is_some data_cache && negb (force self)
  then data_cache_get cache_key else None.

(** An entry is usable when both ["df"] and ["query"] can be read. *)
Definition well_formed (entry : CacheValue) : bool :=
  is_some (cv_df entry) && is_some (cv_query entry).

Definition served_from_cache (self : QueryContext) (query_obj : QueryObject) : bool :=
  match cache_entry_found self query_obj with
  | Some entry => well_formed entry
  | None => false
  end.

(** Locals and log when the cache check is over. *)
Definition after_cache_check (self : QueryContext) (query_obj : QueryObject)
  : L.t * Trace :=
  let '(_, l, t) := cache_check self (query_cache_key self query_obj)
                      L.init [Ev_log "info" "Cache key: %s"] in
  (l, t).

Definition is_cache_phase_event (e : Event) : bool :=
  match e with
  | Ev_log _ _ | Ev_stats_incr _ | Ev_cache_get _ => true
  | _ => false
  end.

Lemma cache_check_spec self q :
  cache_check self (query_cache_key self q) L.init [Ev_log "info" "Cache key: %s"]
    = (Ok tt, (after_cache_check self q).1, (after_cache_check self q).2)
  /\ L.cache_value (after_cache_check self q).1 = cache_entry_found self q
  /\ L.is_loaded (after_cache_check self q).1 = served_from_cache self q
  /\ L.error_message (after_cache_check self q).1 = None
  /\ L.stacktrace (after_cache_check self q).1 = None
  /\ L.status (after_cache_check self q).1
       = (if served_from_cache self q then Some SUCCESS else None)
  /\ forallb is_cache_phase_event (after_cache_check self q).2 = true.
Proof.
  unfold after_cache_check, served_from_cache, cache_entry_found, cache_check.
  destruct (opt_str_truthy (query_cache_key self q) && is_some data_cache
            && negb (force self)); eff_simpl; cbn; [|repeat split; reflexivity].
  destruct (data_cache_get (query_cache_key self q)) as [[d qy a dt]|]; cbn;
    [|repeat split; reflexivity].
  destruct d, qy, a, dt; cbn; repeat split; reflexivity.
Qed.


(** ** get_df_payload: the fetch *)

Lemma get_query_result_run {S} self q (s : S) t :
  get_query_result self q s t =
    (outcome (get_query_result self q), s, t ++ events (get_query_result self q)).
Proof.
  unfold outcome, events.
  destruct (ds_query (datasource self) q) as [r|ex] eqn:Hq.
  - destruct (df_empty (qr_df r)) eqn:He.
    + rewrite !(get_query_result_empty _ _ _ _ _ Hq He). reflexivity.
    + rewrite !(get_query_result_nonempty _ _ _ _ _ Hq He).
      destruct (normalize_dttm_col _ _ _ _); [|reflexivity].
      destruct (pipeline_in_order self q (qr_df r)); reflexivity.
  - rewrite !(get_query_result_raise _ _ _ _ _ Hq). reflexivity.
Qed.

(** The query of the datasource is the first call [get_query_result]
    makes. *)
Lemma get_query_result_events self q :
  exists rest, events (get_query_result self q) = Ev_datasource_query :: rest.
Proof.
  unfold events.
  destruct (ds_query (datasource self) q) as [r|ex] eqn:Hq.
  - destruct (df_empty (qr_df r)) eqn:He.
    + rewrite (get_query_result_empty _ _ _ _ _ Hq He). cbn. eauto.
    + rewrite (get_query_result_nonempty _ _ _ _ _ Hq He).
      destruct (normalize_dttm_col _ _ _ _); [|cbn; eauto].
      destruct (pipeline_in_order self q (qr_df r)); cbn; eauto.
  - rewrite (get_query_result_raise _ _ _ _ _ Hq). cbn. eauto.
Qed.

(** Status and error message of the result are those of the datasource's
    response. *)
Lemma get_query_result_response self q qr :
  outcome (get_query_result self q) = Ok qr ->
  exists r, ds_query (datasource self) q = Ok r
            /\ qr_status qr = qr_status r
            /\ qr_error_message qr = qr_error_message r
            /\ qr_query qr = qr_query r.
Proof.
  unfold outcome.
  destruct (ds_query (datasource self) q) as [r|ex] eqn:Hq.
  - destruct (df_empty (qr_df r)) eqn:He.
    + rewrite (get_query_result_empty _ _ _ _ _ Hq He). cbn.
      intros [= <-]. eauto.
    + rewrite (get_query_result_nonempty _ _ _ _ _ Hq He).
      destruct (normalize_dttm_col _ _ _ _); [|discriminate].
      destruct (pipeline_in_order self q (qr_df r)); [|discriminate].
      cbn. intros [= <-]. exists r. cbn. auto.
  - rewrite (get_query_result_raise _ _ _ _ _ Hq). discriminate.
Qed.

(** The four assignments that follow a successful [get_query_result]. *)
Definition fetched (qr : QueryResult) (l : L.t) : L.t :=
  L.set_df (qr_df qr)
    (L.set_error_message (qr_error_message qr)
       (L.set_query (qr_query qr)
          (L.set_status (Some (qr_status qr)) l))).

Definition source_stats (self : QueryContext) : Trace :=
  Ev_stats_incr "loaded_from_source"
  :: (if negb (force self) then [Ev_stats_incr "loaded_from_source_without_force"] else []).

Definition columns_missing (self : QueryContext) (q : QueryObject) : exn :=
  mk_exn QueryObjectValidationError
    (gettext_names "Columns missing in datasource: %(invalid_columns)s"
                   (invalid_columns self q)).

(** Symbolic execution of the body of the [try]. *)
Lemma fetch_body_run self q l t :
  fetch_body self q l t =
    if negb (is_nil (invalid_columns self q)) then (Raise (columns_missing self q), l, t)
    else
      match outcome (get_query_result self q) with
      | Raise ex => (Raise ex, l, t ++ events (get_query_result self q))
      | Ok qr =>
          match outcome (get_annotation_data self q) with
          | Raise ex =>
              (Raise ex, fetched qr l,
               t ++ events (get_query_result self q)
                 ++ events (get_annotation_data self q))
          | Ok annotation_data =>
              if negb (status_is_failed (qr_status qr)) then
                (Ok tt,
                 L.set_is_loaded true (L.set_annotation_data annotation_data (fetched qr l)),
                 t ++ events (get_query_result self q)
                   ++ events (get_annotation_data self q) ++ source_stats self)
              else
                (Ok tt, L.set_annotation_data annotation_data (fetched qr l),
                 t ++ events (get_query_result self q)
                   ++ events (get_annotation_data self q))
          end
      end.
Proof.
  unfold fetch_body, columns_missing. eff_simpl.
  destruct (negb (is_nil (invalid_columns self q))); [reflexivity|].
  rewrite get_query_result_run.
  destruct (outcome (get_query_result self q)) as [qr|ex]; [|reflexivity].
  rewrite get_annotation_data_run.
  destruct (outcome (get_annotation_data self q)) as [m|ex];
    [|rewrite <- app_assoc; reflexivity].
  cbn. unfold source_stats.
  destruct (status_is_failed (qr_status qr)); cbn.
  - rewrite <- app_assoc. reflexivity.
  - destruct (force self); cbn; rewrite <- !app_assoc; reflexivity.
Qed.

(** What an [except] clause leaves in the locals. *)
Definition handled (ex : exn) (l : L.t) : L.t :=
  if isinstance ex QueryObjectValidationError then
    L.set_status (Some FAILED) (L.set_error_message (Some (exn_str ex)) l)
  else
    L.set_stacktrace (get_stacktrace ex)
      (L.set_status (Some FAILED)
         (if negb (opt_str_truthy (L.error_message l))
          then L.set_error_message (Some (exn_str ex)) l else l)).

Definition handler_log (ex : exn) : Trace :=
  if isinstance ex QueryObjectValidationError then []
  else [Ev_log "exception" (exn_str ex)].

Lemma fetch_handler_run ex l t :
  fetch_handler ex l t = (Ok tt, handled ex l, t ++ handler_log ex).
Proof.
  unfold fetch_handler, handled, handler_log. eff_simpl.
  destruct (isinstance ex QueryObjectValidationError); cbn.
  - rewrite app_nil_r. reflexivity.
  - destruct (opt_str_truthy (L.error_message l)); reflexivity.
Qed.

(** Locals and log when the [try] statement is over. *)
Definition after_fetch (self : QueryContext) (q : QueryObject) (l : L.t) (t : Trace)
  : L.t * Trace :=
  match fetch_body self q l t with
  | (Ok _, l', t') => (l', t')
  | (Raise ex, l', t') => (handled ex l', t' ++ handler_log ex)
  end.

Lemma try_fetch_run self q l t :
  try_except (fetch_body self q) fetch_handler l t =
    (Ok tt, (after_fetch self q l t).1, (after_fetch self q l t).2).
Proof.
  unfold try_except, after_fetch.
  destruct (fetch_body self q l t) as [[[[]|ex] l'] t'].
  - reflexivity.
  - apply fetch_handler_run.
Qed.

Definition written_value (l : L.t) : CacheValue :=
  mk_cache_value (Some (L.df l)) (Some (L.query l)) (Some (L.annotation_data l)) None.

Lemma cache_write_run self key l t :
  cache_write self key l t =
    if L.is_loaded l && opt_str_truthy key && status_ne_FAILED (L.status l) then
      match cache_timeout self with
      | Ok timeout =>
          (Ok tt, l,
           t ++ [Ev_set_and_log_cache (default "" key) (written_value l) timeout
                   (uid (datasource self))])
      | Raise ex => (Raise ex, l, t)
      end
    else (Ok tt, l, t).
Proof.
  unfold cache_write. eff_simpl.
  destruct (L.is_loaded l && opt_str_truthy key && status_ne_FAILED (L.status l));
    [|reflexivity].
  destruct (cache_timeout self); reflexivity.
Qed.

Definition payload_of (self : QueryContext) (key : option string) (l : L.t)
    (cached_dttm : option string) (timeout : option Z) : Payload.t :=
  Payload.mk key cached_dttm timeout (L.df l) (L.annotation_data l) (L.error_message l)
    (is_some (L.cache_value l)) (L.query l) (L.status l) (L.stacktrace l)
    (df_rowcount (L.df l)).

Lemma build_payload_run self key l t :
  build_payload self key l t =
    match cached_dttm_of (L.cache_value l) with
    | Raise ex => (Raise ex, l, t)
    | Ok cached_dttm =>
        match cache_timeout self with
        | Raise ex => (Raise ex, l, t)
        | Ok timeout => (Ok (payload_of self key l cached_dttm timeout), l, t)
        end
    end.
Proof.
  unfold build_payload. eff_simpl.
  destruct (cached_dttm_of (L.cache_value l)); [|reflexivity].
  destruct (cache_timeout self); reflexivity.
Qed.

Definition cache_load_error : exn := mk_exn CacheLoadError "Error loading data from cache".

(** Symbolic execution of [get_df_payload]. *)
Lemma get_df_payload_run self q force_cached :
  get_df_payload self q force_cached L.init [] =
    let l0 := (after_cache_check self q).1 in
    let t0 := (after_cache_check self q).2 in
    let key := query_cache_key self q in
    if opt_bool_truthy force_cached && negb (L.is_loaded l0) then
      (Raise cache_load_error, l0,
       t0 ++ [Ev_log "warning" "force_cached (QueryContext): value not found for key %s"])
    else if qo_bool q && negb (L.is_loaded l0) then
      let l1 := (after_fetch self q l0 t0).1 in
      let t1 := (after_fetch self q l0 t0).2 in
      match cache_write self key l1 t1 with
      | (Ok _, l2, t2) => build_payload self key l2 t2
      | (Raise ex, l2, t2) => (Raise ex, l2, t2)
      end
    else build_payload self key l0 t0.
Proof.
  destruct (cache_check_spec self q) as (Hrun & _).
  unfold get_df_payload.
  cbv beta iota zeta delta [mbind Eff_bind eff_bind logger emit get_locals mret Eff_ret eff_ret].
  cbn [app]. rewrite Hrun.
  unfold force_cached_check.
  cbv beta iota zeta delta [mbind Eff_bind eff_bind logger emit get_locals mret Eff_ret eff_ret raise].
  destruct (opt_bool_truthy force_cached && negb (L.is_loaded (after_cache_check self q).1));
    [reflexivity|].
  destruct (qo_bool q && negb (L.is_loaded (after_cache_check self q).1));
    [|reflexivity].
  rewrite try_fetch_run. reflexivity.
Qed.


(** ** Calls recorded in the log *)

(** No call of the given kind was made. *)
Definition never (kind : Event -> bool) (t : Trace) : Prop :=
  forallb (fun e => negb (kind e)) t = true.

Lemma never_app kind t1 t2 : never kind (t1 ++ t2) <-> never kind t1 /\ never kind t2.
Proof. unfold never. rewrite forallb_app, andb_true_iff. reflexivity. Qed.

Lemma never_of_class (class kind : Event -> bool) t :
  (forall e, class e = true -> kind e = false) ->
  forallb class t = true -> never kind t.
Proof.
  intros Hk. unfold never. induction t as [|e t IH]; cbn; [reflexivity|].
  rewrite !andb_true_iff. intros [He Ht]. rewrite (Hk e He). auto.
Qed.

Lemma never_existsb kind t : never kind t <-> existsb kind t = false.
Proof.
  unfold never. induction t as [|e t IH]; cbn; [tauto|].
  rewrite andb_true_iff, orb_false_iff, IH, negb_true_iff. reflexivity.
Qed.

Lemma filter_never kind t : never kind t -> List.filter kind t = [].
Proof.
  unfold never. induction t as [|e t IH]; [reflexivity|]. cbn.
  rewrite andb_true_iff, negb_true_iff. intros [-> Hn]. apply IH, Hn.
Qed.

Lemma cache_phase_never kind self q :
  (forall e, is_cache_phase_event e = true -> kind e = false) ->
  never kind (after_cache_check self q).2.
Proof.
  intros Hk. destruct (cache_check_spec self q) as (_ & _ & _ & _ & _ & _ & Ht).
  eapply never_of_class; eauto.
Qed.

Ltac cache_phase_kind :=
  let e := fresh "e" in intros e; destruct e; cbn; congruence.

Lemma run_get_df_payload_eq self q force_cached :
  run_get_df_payload self q force_cached =
    ((get_df_payload self q force_cached L.init []).1.1,
     (get_df_payload self q force_cached L.init []).2).
Proof.
  unfold run_get_df_payload.
  destruct (get_df_payload self q force_cached L.init []) as [[r l] t]. reflexivity.
Qed.

(** ** get_df_payload: the cache-only guard *)

(** C3. With [force_cached] set and no usable cache entry loaded, the
    call raises [CacheLoadError]; the log of the call holds no query of
    the datasource, no post-processing, no annotation lookup and no
    cache write, and the outcome does not depend on the columns asked. *)
Theorem force_cached_miss_raises self q force_cached :
  opt_bool_truthy force_cached = true ->
  L.is_loaded (after_cache_check self q).1 = false ->
  exists t,
    run_get_df_payload self q force_cached = (Raise cache_load_error, t)
    /\ never is_datasource_query t
    /\ never is_post_processing t
    /\ never is_annotation_merge t
    /\ never is_cache_write t.
Proof.
  intros Hfc Hl. rewrite run_get_df_payload_eq, get_df_payload_run. cbn zeta.
  rewrite Hfc, Hl. cbn [negb andb fst snd].
  eexists. split; [reflexivity|].
  repeat split; apply never_app; split;
    try (apply cache_phase_never; cache_phase_kind); reflexivity.
Qed.

(** ** get_df_payload: column validation *)

Lemma invalid_columns_spec self q name :
  In name (invalid_columns self q) <->
  In name (columns q ++ groupby q
           ++ get_column_names_from_metrics (default [] (metrics q)))
  /\ ~ In name (column_names (datasource self))
  /\ name <> DTTM_ALIAS.
Proof.
  unfold invalid_columns. rewrite filter_In, andb_true_iff, !negb_true_iff.
  rewrite String.eqb_neq.
  assert (Hin : str_in name (column_names (datasource self)) = false
                <-> ~ In name (column_names (datasource self))).
  { unfold str_in. rewrite <- not_true_iff_false, existsb_exists.
    split; intros Hn.
    - intros Hi. apply Hn. exists name. split; [exact Hi|apply String.eqb_refl].
    - intros (x & Hx & He). apply String.eqb_eq in He. subst x. tauto. }
  rewrite Hin. reflexivity.
Qed.

(** When the fetch is reached and some referenced name is neither a
    column of the datasource nor the synthetic time column, the payload
    has status FAILED, its error is the "Columns missing" message built
    from exactly the invalid names, and the datasource is not queried. *)
Theorem invalid_columns_fail self q force_cached timeout dttm :
  qo_bool q = true ->
  opt_bool_truthy force_cached = false ->
  L.is_loaded (after_cache_check self q).1 = false ->
  invalid_columns self q <> [] ->
  cache_timeout self = Ok timeout ->
  cached_dttm_of (cache_entry_found self q) = Ok dttm ->
  exists payload t,
    run_get_df_payload self q force_cached = (Ok payload, t)
    /\ Payload.status payload = Some FAILED
    /\ Payload.error payload =
         Some (gettext_names "Columns missing in datasource: %(invalid_columns)s"
                             (invalid_columns self q))
    /\ (forall name,
          In name (invalid_columns self q) <->
          In name (columns q ++ groupby q
                   ++ get_column_names_from_metrics (default [] (metrics q)))
          /\ ~ In name (column_names (datasource self))
          /\ name <> DTTM_ALIAS)
    /\ never is_datasource_query t.
Proof.
  intros Hq Hfc Hl Hinv Ht Hd.
  destruct (cache_check_spec self q) as (_ & Hcv & _).
  rewrite run_get_df_payload_eq, get_df_payload_run. cbn zeta.
  rewrite Hfc, Hq, Hl. cbn [negb andb].
  assert (Hnil : is_nil (invalid_columns self q) = false)
    by (destruct (invalid_columns self q); [congruence|reflexivity]).
  unfold after_fetch. rewrite fetch_body_run, Hnil.
  cbn [negb fst snd]. rewrite cache_write_run.
  unfold handled, handler_log, columns_missing. cbn [isinstance exn_cls exn_class_eqb].
  cbn [L.is_loaded L.set_status L.set_error_message andb].
  rewrite Hl. cbn [andb]. rewrite build_payload_run.
  cbn [L.cache_value L.set_status L.set_error_message].
  rewrite Hcv, Hd, Ht. cbn [fst snd].
  eexists _, _. split; [reflexivity|].
  split; [reflexivity|]. split; [reflexivity|].
  split; [intros name; apply invalid_columns_spec|].
  rewrite app_nil_r. apply cache_phase_never. cache_phase_kind.
Qed.


(** ** get_df_payload: exceptions of the fetch *)

(** The body of the [try] assigns neither [cache_value] nor [stacktrace],
    and sets [is_loaded] only when it ends normally. *)
Lemma fetch_body_frame self q l t r l' t' :
  fetch_body self q l t = (r, l', t') ->
  L.cache_value l' = L.cache_value l
  /\ L.stacktrace l' = L.stacktrace l
  /\ (forall ex, r = Raise ex -> L.is_loaded l' = L.is_loaded l).
Proof.
  rewrite fetch_body_run.
  destruct (negb (is_nil (invalid_columns self q))).
  { intros [= <- <- <-]. auto. }
  destruct (outcome (get_query_result self q)) as [qr|ex].
  2:{ intros [= <- <- <-]. auto. }
  destruct (outcome (get_annotation_data self q)) as [m|ex].
  2:{ intros [= <- <- <-]. auto. }
  destruct (negb (status_is_failed (qr_status qr)));
    intros [= <- <- <-]; repeat split; intros; discriminate.
Qed.

Lemma handled_status ex l : L.status (handled ex l) = Some FAILED.
Proof. unfold handled. destruct (isinstance ex _); reflexivity. Qed.

Lemma handled_cache_value ex l : L.cache_value (handled ex l) = L.cache_value l.
Proof.
  unfold handled. destruct (isinstance ex _); [reflexivity|].
  destruct (negb _); reflexivity.
Qed.

Lemma handled_error ex l :
  L.error_message (handled ex l) =
    if isinstance ex QueryObjectValidationError then Some (exn_str ex)
    else if opt_str_truthy (L.error_message l) then L.error_message l
         else Some (exn_str ex).
Proof.
  unfold handled. destruct (isinstance ex _); [reflexivity|].
  destruct (opt_str_truthy _); reflexivity.
Qed.

Lemma handled_stacktrace ex l :
  L.stacktrace (handled ex l) =
    if isinstance ex QueryObjectValidationError then L.stacktrace l
    else get_stacktrace ex.
Proof. unfold handled. destruct (isinstance ex _); reflexivity. Qed.

Lemma opt_str_truthy_Some o : opt_str_truthy o = true -> o <> None.
Proof. destruct o; [discriminate|]. cbn. discriminate. Qed.

(** An exception raised by the body of the [try] (column validation,
    query of the datasource, post-processing, annotation merge) is not
    re-raised: the call returns a payload with status FAILED.  For a
    [QueryObjectValidationError] the error is its message and no stack
    trace is recorded; for any other exception the error is the message
    already taken from the datasource's response if there is one, else
    the exception's message, and the stack trace is the one
    [get_stacktrace] captured. *)
Theorem fetch_exception_recovered self q force_cached ex l1 t1 timeout dttm :
  opt_bool_truthy force_cached = false ->
  qo_bool q = true ->
  L.is_loaded (after_cache_check self q).1 = false ->
  fetch_body self q (after_cache_check self q).1 (after_cache_check self q).2
    = (Raise ex, l1, t1) ->
  cache_timeout self = Ok timeout ->
  cached_dttm_of (cache_entry_found self q) = Ok dttm ->
  exists payload t,
    run_get_df_payload self q force_cached = (Ok payload, t)
    /\ Payload.status payload = Some FAILED
    /\ Payload.error payload <> None
    /\ (isinstance ex QueryObjectValidationError = true ->
        Payload.error payload = Some (exn_str ex)
        /\ Payload.stacktrace payload = None)
    /\ (isinstance ex QueryObjectValidationError = false ->
        Payload.error payload =
          (if opt_str_truthy (L.error_message l1) then L.error_message l1
           else Some (exn_str ex))
        /\ Payload.stacktrace payload = get_stacktrace ex).
Proof.
  intros Hfc Hq Hl Hbody Ht Hd.
  destruct (cache_check_spec self q) as (_ & Hcv & _ & _ & Hst & _).
  destruct (fetch_body_frame _ _ _ _ _ _ _ Hbody) as (Hcv1 & Hst1 & _).
  rewrite run_get_df_payload_eq, get_df_payload_run. cbn zeta.
  rewrite Hfc, Hq, Hl. cbn [negb andb].
  unfold after_fetch. rewrite Hbody. cbn [fst snd].
  rewrite cache_write_run, handled_status. cbn [status_ne_FAILED status_is_failed negb].
  rewrite andb_false_r, build_payload_run.
  rewrite handled_cache_value, Hcv1, Hcv, Hd, Ht. cbn [fst snd].
  eexists _, _. split; [reflexivity|].
  unfold payload_of. cbn [Payload.status Payload.error Payload.stacktrace].
  rewrite handled_status, handled_error, handled_stacktrace, Hst1, Hst.
  split; [reflexivity|]. split.
  - destruct (isinstance ex QueryObjectValidationError); [discriminate|].
    destruct (opt_str_truthy (L.error_message l1)) eqn:He; [|discriminate].
    apply opt_str_truthy_Some. exact He.
  - split; intros ->; split; reflexivity.
Qed.


(** ** get_df_payload: the cache write *)

Lemma get_query_result_event_kinds self q :
  forallb (fun e => is_datasource_query e || is_post_processing e)
          (events (get_query_result self q)) = true.
Proof.
  unfold events.
  destruct (ds_query (datasource self) q) as [r|ex] eqn:Hq.
  - destruct (df_empty (qr_df r)) eqn:He.
    + rewrite (get_query_result_empty _ _ _ _ _ Hq He). reflexivity.
    + rewrite (get_query_result_nonempty _ _ _ _ _ Hq He).
      destruct (normalize_dttm_col _ _ _ _); [|reflexivity].
      destruct (pipeline_in_order self q (qr_df r)); reflexivity.
  - rewrite (get_query_result_raise _ _ _ _ _ Hq). reflexivity.
Qed.

Lemma get_viz_annotation_data_event_kinds layer force :
  forallb is_annotation_merge (events (get_viz_annotation_data layer force)) = true.
Proof.
  unfold events, get_viz_annotation_data. eff_simpl.
  destruct (find_by_id (layer_value layer)) as [chart|]; cbn -[isinstance];
    [|reflexivity].
  destruct (get_viz _ _ _ _) as [viz|ex]; cbn -[isinstance].
  - destruct (get_payload viz) as [payload|ex]; cbn -[isinstance].
    + destruct (payload_getitem_data payload) as [d|ex]; cbn -[isinstance];
        [reflexivity|].
      destruct (isinstance ex SupersetException); reflexivity.
    + destruct (isinstance ex SupersetException); reflexivity.
  - destruct (isinstance ex SupersetException); reflexivity.
Qed.

Lemma viz_layers_loop_event_kinds force layers :
  forall acc,
    forallb is_annotation_merge (events (viz_layers_loop force layers acc)) = true.
Proof.
  induction layers as [|l rest IH]; intros acc; [reflexivity|].
  unfold events. cbn [viz_layers_loop]. eff_simpl.
  rewrite (get_viz_annotation_data_run l force tt []).
  destruct (outcome (get_viz_annotation_data l force)) as [d|ex]; cbn [app snd].
  - rewrite viz_layers_loop_run. cbn [snd]. rewrite forallb_app.
    rewrite get_viz_annotation_data_event_kinds. apply IH.
  - apply get_viz_annotation_data_event_kinds.
Qed.

Lemma get_annotation_data_event_kinds self q :
  forallb is_annotation_merge (events (get_annotation_data self q)) = true.
Proof.
  unfold events, get_annotation_data. eff_simpl.
  rewrite (get_native_annotation_data_run q tt []).
  rewrite get_native_annotation_data_events.
  destruct (outcome (get_native_annotation_data q)) as [m|ex]; cbn [app snd];
    [|reflexivity].
  rewrite viz_layers_loop_run. cbn [snd app forallb is_annotation_merge andb].
  apply viz_layers_loop_event_kinds.
Qed.

Lemma fetch_never_writes self q :
  never is_cache_write (events (get_query_result self q))
  /\ never is_cache_write (events (get_annotation_data self q))
  /\ never is_cache_write (source_stats self)
  /\ forall ex, never is_cache_write (handler_log ex).
Proof.
  repeat split.
  - eapply never_of_class; [|apply get_query_result_event_kinds].
    intros []; cbn; congruence.
  - eapply never_of_class; [|apply get_annotation_data_event_kinds].
    intros []; cbn; congruence.
  - unfold source_stats. destruct (force self); reflexivity.
  - intros ex. unfold handler_log. destruct (isinstance ex _); reflexivity.
Qed.

(** The fetch completed: the body of the [try] ended without an
    exception, with a status other than FAILED. *)
Definition fetch_succeeded (self : QueryContext) (q : QueryObject)
    (force_cached : option bool) (l1 : L.t) : Prop :=
  opt_bool_truthy force_cached = false
  /\ qo_bool q = true
  /\ L.is_loaded (after_cache_check self q).1 = false
  /\ (exists t1,
        fetch_body self q (after_cache_check self q).1 (after_cache_check self q).2
          = (Ok tt, l1, t1))
  /\ L.status l1 <> Some FAILED.

Lemma status_ne_FAILED_spec st : status_ne_FAILED st = true <-> st <> Some FAILED.
Proof. destruct st as [[]|]; cbn; split; congruence. Qed.

(** What the log holds by way of cache writes. *)
Lemma cache_writes_of_run self q force_cached timeout :
  cache_timeout self = Ok timeout ->
  (exists l1,
      fetch_succeeded self q force_cached l1
      /\ opt_str_truthy (query_cache_key self q) = true
      /\ List.filter is_cache_write (run_get_df_payload self q force_cached).2 =
           [Ev_set_and_log_cache (default "" (query_cache_key self q))
              (written_value l1) timeout (uid (datasource self))])
  \/ ((forall l1, ~ (fetch_succeeded self q force_cached l1
                     /\ opt_str_truthy (query_cache_key self q) = true))
      /\ never is_cache_write (run_get_df_payload self q force_cached).2).
Proof.
  intros Ht.
  pose proof (cache_phase_never is_cache_write self q ltac:(cache_phase_kind)) as Ht0.
  destruct (fetch_never_writes self q) as (Hq & Ha & Hs & Hh).
  rewrite run_get_df_payload_eq, get_df_payload_run. cbn zeta.
  unfold fetch_succeeded.
  destruct (opt_bool_truthy force_cached) eqn:Hfc;
    destruct (L.is_loaded (after_cache_check self q).1) eqn:Hl;
    cbn [negb andb].
  1,3: right; split;
       [intros l1 [(? & ? & ? & _) _]; congruence
       |rewrite andb_false_r, build_payload_run;
        (destruct (cached_dttm_of _); [rewrite Ht|]; exact Ht0)].
  { right. split; [intros l1 [(? & _) _]; congruence|].
    cbn [snd]. apply never_app. split; [exact Ht0|reflexivity]. }
  destruct (qo_bool q) eqn:Hqb; cbn [andb].
  2:{ right. split; [intros l1 [(_ & ? & _) _]; congruence|].
      rewrite build_payload_run.
      destruct (cached_dttm_of _); [rewrite Ht|]; exact Ht0. }
  unfold after_fetch. rewrite fetch_body_run, cache_write_run.
  destruct (negb (is_nil (invalid_columns self q))); cbn [fst snd].
  { right. split; [intros l1 [(_ & _ & _ & [t1 [=]] & _) _]|].
    rewrite handled_status. cbn [status_ne_FAILED status_is_failed negb].
    rewrite andb_false_r, build_payload_run.
    assert (never is_cache_write ((after_cache_check self q).2
                                  ++ handler_log (columns_missing self q)))
      by (apply never_app; auto).
    destruct (cached_dttm_of _); [rewrite Ht|]; assumption. }
  destruct (outcome (get_query_result self q)) as [qr|ex]; cbn [fst snd].
  2:{ right. split; [intros l1 [(_ & _ & _ & [t1 [=]] & _) _]|].
      rewrite handled_status. cbn [status_ne_FAILED status_is_failed negb].
      rewrite andb_false_r, build_payload_run.
      assert (never is_cache_write
                (((after_cache_check self q).2 ++ events (get_query_result self q))
                 ++ handler_log ex))
        by (repeat (apply never_app; split); auto).
      destruct (cached_dttm_of _); [rewrite Ht|]; assumption. }
  destruct (outcome (get_annotation_data self q)) as [m|ex]; cbn [fst snd].
  2:{ right. split; [intros l1 [(_ & _ & _ & [t1 [=]] & _) _]|].
      rewrite handled_status. cbn [status_ne_FAILED status_is_failed negb].
      rewrite andb_false_r, build_payload_run.
      assert (never is_cache_write
                (((after_cache_check self q).2 ++ events (get_query_result self q)
                  ++ events (get_annotation_data self q)) ++ handler_log ex))
        by (repeat (apply never_app; split); auto).
      destruct (cached_dttm_of _); [rewrite Ht|]; assumption. }
  destruct (status_is_failed (qr_status qr)) eqn:Hf; cbn [negb fst snd].
  { right. split.
    - intros l1 [(_ & _ & _ & [t1 [= <- _]] & Hst) _]. apply Hst. cbn.
      destruct (qr_status qr); try discriminate. reflexivity.
    - cbn [L.is_loaded L.set_annotation_data fetched L.set_df L.set_error_message
             L.set_query L.set_status].
      rewrite Hl. cbn [andb]. rewrite build_payload_run.
      assert (never is_cache_write
                ((after_cache_check self q).2 ++ events (get_query_result self q)
                 ++ events (get_annotation_data self q)))
        by (repeat (apply never_app; split); auto).
      destruct (cached_dttm_of _); [rewrite Ht|]; assumption. }
  cbn [L.is_loaded L.set_is_loaded L.status L.set_annotation_data fetched L.set_df
         L.set_error_message L.set_query L.set_status status_ne_FAILED andb].
  rewrite Hf. cbn [negb].
  assert (Hpre : never is_cache_write
            ((after_cache_check self q).2 ++ events (get_query_result self q)
             ++ events (get_annotation_data self q) ++ source_stats self))
    by (repeat (apply never_app; split); auto).
  destruct (opt_str_truthy (query_cache_key self q)) eqn:Hk; cbn [andb].
  2:{ right. split; [intros l1 [_ ?]; congruence|].
      rewrite build_payload_run.
      destruct (cached_dttm_of _); [rewrite Ht|]; assumption. }
  left. rewrite Ht. eexists. split; [|split; [reflexivity|]].
  - repeat split; try reflexivity; [eexists; reflexivity|].
    cbn. destruct (qr_status qr); cbn in Hf; congruence.
  - rewrite build_payload_run.
    set (t2 := _ ++ [Ev_set_and_log_cache _ _ _ _]).
    assert (Hgoal : List.filter is_cache_write t2 =
                    [Ev_set_and_log_cache (default "" (query_cache_key self q))
                       (written_value
                          (L.set_is_loaded true
                             (L.set_annotation_data m
                                (fetched qr (after_cache_check self q).1))))
                       timeout (uid (datasource self))]).
    { subst t2. rewrite List.filter_app, (filter_never _ _ Hpre). reflexivity. }
    destruct (cached_dttm_of _); [rewrite Ht|]; exact Hgoal.
Qed.


Lemma fetch_body_ok_status self q l t l1 t1 :
  fetch_body self q l t = (Ok tt, l1, t1) ->
  exists qr, outcome (get_query_result self q) = Ok qr
             /\ L.status l1 = Some (qr_status qr)
             /\ L.error_message l1 = qr_error_message qr.
Proof.
  rewrite fetch_body_run.
  destruct (negb (is_nil (invalid_columns self q))); [discriminate|].
  destruct (outcome (get_query_result self q)) as [qr|ex]; [|discriminate].
  destruct (outcome (get_annotation_data self q)) as [m|ex]; [|discriminate].
  destruct (negb (status_is_failed (qr_status qr)));
    intros [= <- _]; exists qr; repeat split; reflexivity.
Qed.

(** Provided the cache timeout resolves, the call writes to the
    cache if and only if the fetch completed (no exception, status other
    than FAILED) and a cache key was derived; what is written is then
    the table, the query text and the annotation data of the fetch,
    under the per-query key, with the resolved timeout; and a response
    of the datasource with status FAILED is never written. *)
Theorem cache_write_iff self q force_cached timeout :
  cache_timeout self = Ok timeout ->
  (existsb is_cache_write (run_get_df_payload self q force_cached).2 = true <->
   (exists l1, fetch_succeeded self q force_cached l1)
   /\ opt_str_truthy (query_cache_key self q) = true)
  /\ (forall l1,
        fetch_succeeded self q force_cached l1 ->
        opt_str_truthy (query_cache_key self q) = true ->
        List.filter is_cache_write (run_get_df_payload self q force_cached).2 =
          [Ev_set_and_log_cache (default "" (query_cache_key self q))
             (mk_cache_value (Some (L.df l1)) (Some (L.query l1))
                             (Some (L.annotation_data l1)) None)
             timeout (uid (datasource self))])
  /\ (forall r,
        ds_query (datasource self) q = Ok r ->
        qr_status r = FAILED ->
        never is_cache_write (run_get_df_payload self q force_cached).2).
Proof.
  intros Ht.
  destruct (cache_writes_of_run self q force_cached timeout Ht)
    as [(l1 & Hs & Hk & Hw)|(Hno & Hn)].
  - assert (Hex : existsb is_cache_write (run_get_df_payload self q force_cached).2 = true).
    { destruct (existsb _ _) eqn:He; [reflexivity|].
      apply never_existsb in He.
      rewrite (filter_never _ _ He) in Hw. discriminate. }
    split; [|split].
    + split; [intros _; eauto|intros _; exact Hex].
    + intros l1' Hs' _.
      destruct Hs as (_ & _ & _ & [t1 Hb] & _).
      destruct Hs' as (_ & _ & _ & [t1' Hb'] & _).
      rewrite Hb in Hb'. injection Hb' as <- _. exact Hw.
    + intros r Hr Hf. exfalso.
      destruct Hs as (_ & _ & _ & [t1 Hb] & Hst).
      destruct (fetch_body_ok_status _ _ _ _ _ _ Hb) as (qr & Hqr & Hs1 & _).
      destruct (get_query_result_response _ _ _ Hqr) as (r' & Hr' & Hsr & _).
      rewrite Hr in Hr'. injection Hr' as <-.
      apply Hst. rewrite Hs1, Hsr, Hf. reflexivity.
  - split; [|split].
    + apply never_existsb in Hn. rewrite Hn.
      split; [discriminate|]. intros [[l1 Hs] Hk]. exfalso. eapply Hno; eauto.
    + intros l1 Hs Hk. exfalso. eapply Hno; eauto.
    + intros; exact Hn.
Qed.

(** ** get_df_payload: the returned payload *)

(** The locals and the log when the payload is built, cache write
    apart. *)
Definition before_payload (self : QueryContext) (q : QueryObject) : L.t * Trace :=
  if qo_bool q && negb (L.is_loaded (after_cache_check self q).1)
  then after_fetch self q (after_cache_check self q).1 (after_cache_check self q).2
  else after_cache_check self q.

Lemma after_fetch_cache_value self q l t :
  L.cache_value (after_fetch self q l t).1 = L.cache_value l.
Proof.
  unfold after_fetch.
  destruct (fetch_body self q l t) as [[[[]|ex] l'] t'] eqn:Hb;
    destruct (fetch_body_frame _ _ _ _ _ _ _ Hb) as (Hcv & _); cbn [fst].
  - exact Hcv.
  - rewrite handled_cache_value. exact Hcv.
Qed.

Lemma before_payload_cache_value self q :
  L.cache_value (before_payload self q).1 = cache_entry_found self q.
Proof.
  destruct (cache_check_spec self q) as (_ & Hcv & _).
  unfold before_payload. destruct (_ && _); [rewrite after_fetch_cache_value|]; exact Hcv.
Qed.

(** When the timeout resolves and the entry found (if any) has a
    ["dttm"], a call that passes the cache-only guard returns. *)
Lemma run_returns self q force_cached timeout dttm :
  cache_timeout self = Ok timeout ->
  cached_dttm_of (cache_entry_found self q) = Ok dttm ->
  opt_bool_truthy force_cached && negb (L.is_loaded (after_cache_check self q).1) = false ->
  exists written,
    run_get_df_payload self q force_cached =
      (Ok (payload_of self (query_cache_key self q) (before_payload self q).1 dttm timeout),
       (before_payload self q).2 ++ written)
    /\ never is_datasource_query written
    /\ never is_post_processing written
    /\ never is_annotation_merge written.
Proof.
  intros Ht Hd Hg.
  pose proof (before_payload_cache_value self q) as Hcv.
  rewrite run_get_df_payload_eq, get_df_payload_run. cbn zeta. rewrite Hg.
  unfold before_payload in *.
  destruct (qo_bool q && negb (L.is_loaded (after_cache_check self q).1)).
  - rewrite cache_write_run, Ht.
    destruct (_ && _ && _); rewrite build_payload_run, Hcv, Hd, Ht; cbn [fst snd].
    + eexists. split; [reflexivity|]. repeat split; reflexivity.
    + exists []. rewrite app_nil_r. repeat split; reflexivity.
  - rewrite build_payload_run, Hcv, Hd, Ht. cbn [fst snd].
    exists []. rewrite app_nil_r. repeat split; reflexivity.
Qed.

(** Conversely, a payload that is returned was built from those locals. *)
Lemma run_returned self q force_cached payload t :
  run_get_df_payload self q force_cached = (Ok payload, t) ->
  exists dttm timeout,
    payload = payload_of self (query_cache_key self q) (before_payload self q).1 dttm timeout
    /\ cached_dttm_of (cache_entry_found self q) = Ok dttm
    /\ cache_timeout self = Ok timeout.
Proof.
  pose proof (before_payload_cache_value self q) as Hcv.
  rewrite run_get_df_payload_eq, get_df_payload_run. cbn zeta.
  unfold before_payload in *.
  destruct (opt_bool_truthy force_cached && _); [discriminate|].
  destruct (qo_bool q && negb (L.is_loaded (after_cache_check self q).1)).
  - rewrite cache_write_run.
    destruct (_ && _ && _).
    + destruct (cache_timeout self) as [timeout|ex] eqn:Ht; [|discriminate].
      rewrite build_payload_run, Hcv, Ht.
      destruct (cached_dttm_of _) as [dttm|ex]; [|discriminate].
      cbn. intros [= <- _]. eauto.
    + rewrite build_payload_run, Hcv.
      destruct (cached_dttm_of _) as [dttm|ex]; [|discriminate].
      destruct (cache_timeout self) as [timeout|ex]; [|discriminate].
      cbn. intros [= <- _]. eauto.
  - rewrite build_payload_run, Hcv.
    destruct (cached_dttm_of _) as [dttm|ex]; [|discriminate].
    destruct (cache_timeout self) as [timeout|ex]; [|discriminate].
    cbn. intros [= <- _]. eauto.
Qed.


Lemma handled_df ex l : L.df (handled ex l) = L.df l.
Proof.
  unfold handled. destruct (isinstance ex _); [reflexivity|].
  destruct (negb _); reflexivity.
Qed.

(** With valid columns the fetch queries the datasource. *)
Lemma after_fetch_queries self q l t :
  invalid_columns self q = [] ->
  In Ev_datasource_query (after_fetch self q l t).2.
Proof.
  intros Hv. unfold after_fetch. rewrite fetch_body_run, Hv. cbn [is_nil negb].
  destruct (get_query_result_events self q) as [rest ->].
  destruct (outcome (get_query_result self q)) as [qr|ex]; cbn [snd].
  - destruct (outcome (get_annotation_data self q)) as [m|ex]; cbn [snd].
    + destruct (negb (status_is_failed (qr_status qr))); cbn [snd];
        apply in_app_iff; right; left; reflexivity.
    + apply in_app_iff; left. apply in_app_iff; right; left; reflexivity.
  - apply in_app_iff; left. apply in_app_iff; right; left; reflexivity.
Qed.

(** ** get_query_result inside get_df_payload: the empty table *)

Lemma after_fetch_empty self q r l t :
  invalid_columns self q = [] ->
  ds_query (datasource self) q = Ok r ->
  df_empty (qr_df r) = true ->
  L.df (after_fetch self q l t).1 = qr_df r
  /\ exists rest,
       (after_fetch self q l t).2 =
         t ++ Ev_datasource_query :: events (get_annotation_data self q) ++ rest
       /\ never is_post_processing rest.
Proof.
  intros Hv Hq He. unfold after_fetch. rewrite fetch_body_run, Hv. cbn [is_nil negb].
  assert (Ho : outcome (get_query_result self q) = Ok r)
    by (unfold outcome; rewrite (get_query_result_empty self q r tt [] Hq He); reflexivity).
  assert (Hev : events (get_query_result self q) = [Ev_datasource_query])
    by (unfold events; rewrite (get_query_result_empty self q r tt [] Hq He); reflexivity).
  rewrite Ho, Hev. cbn [fst snd app].
  destruct (outcome (get_annotation_data self q)) as [m|ex]; cbn [fst snd].
  - destruct (negb (status_is_failed (qr_status r))); cbn [fst snd];
      (split; [reflexivity|]).
    + exists (source_stats self). split; [reflexivity|].
      unfold source_stats. destruct (force self); reflexivity.
    + exists []. rewrite app_nil_r. split; reflexivity.
  - rewrite handled_df. split; [reflexivity|].
    exists (handler_log ex). rewrite <- app_assoc. split; [reflexivity|].
    unfold handler_log. destruct (isinstance ex _); reflexivity.
Qed.

(** In [get_query_result] the pipeline runs only on a non-empty
    table, and then as timestamp normalization (with the date-format
    hint of a "table" datasource, the datasource's offset and the
    query's time shift), numeric coercion of the object-typed metric
    columns, replacement of both infinities by NaN, and the query
    object's own post-processing, in that order.  An empty table is
    returned as the datasource gave it; in [get_df_payload] the
    annotation merge still runs on it, no post-processing step does, and
    the row count is that of the table; a table without rows is empty
    and its row count is zero. *)
Theorem post_processing_pipeline self q r :
  ds_query (datasource self) q = Ok r ->
  (df_empty (qr_df r) = false ->
   forall S (s : S) t,
     get_query_result self q s t =
       (match pipeline_in_order self q (qr_df r) with
        | Ok df => Ok (with_df r df)
        | Raise ex => Raise ex
        end,
        s,
        t ++ Ev_datasource_query :: Ev_normalize_dttm_col
          :: match normalize_dttm_col (qr_df r) (timestamp_format_of self q)
                     (offset (datasource self)) (time_shift q) with
             | Ok _ => [Ev_exec_post_processing]
             | Raise _ => []
             end))
  /\ (df_empty (qr_df r) = true ->
      (forall S (s : S) t,
         get_query_result self q s t = (Ok r, s, t ++ [Ev_datasource_query]))
      /\ forall force_cached timeout dttm,
           opt_bool_truthy force_cached = false ->
           qo_bool q = true ->
           L.is_loaded (after_cache_check self q).1 = false ->
           invalid_columns self q = [] ->
           cache_timeout self = Ok timeout ->
           cached_dttm_of (cache_entry_found self q) = Ok dttm ->
           exists payload t,
             run_get_df_payload self q force_cached = (Ok payload, t)
             /\ Payload.df payload = qr_df r
             /\ Payload.rowcount payload = df_rowcount (qr_df r)
             /\ never is_post_processing t
             /\ exists ids, In (Ev_find_annotation_layers ids) t)
  /\ (df_index (qr_df r) = [] ->
      df_empty (qr_df r) = true /\ df_rowcount (qr_df r) = 0%nat).
Proof.
  intros Hq. split; [|split].
  - intros He S s t. rewrite (get_query_result_nonempty _ _ _ _ _ Hq He).
    unfold pipeline_in_order.
    destruct (normalize_dttm_col _ _ _ _) as [d|ex]; [|reflexivity].
    destruct (exec_post_processing q _); reflexivity.
  - intros He. split.
    + intros S s t. apply get_query_result_empty; assumption.
    + intros force_cached timeout dttm Hfc Hqb Hl Hv Ht Hd.
      destruct (run_returns self q force_cached timeout dttm Ht Hd)
        as (written & Hrun & _ & Hw & _).
      { rewrite Hfc. reflexivity. }
      rewrite Hrun. unfold before_payload. rewrite Hqb, Hl. cbn [negb andb].
      destruct (after_fetch_empty self q r (after_cache_check self q).1
                  (after_cache_check self q).2 Hv Hq He) as (Hdf & rest & Htr & Hrest).
      eexists _, _. split; [reflexivity|].
      unfold payload_of. cbn [Payload.df Payload.rowcount]. rewrite Hdf.
      split; [reflexivity|]. split; [reflexivity|].
      destruct (get_annotation_data_events self q) as [more Hev].
      rewrite Htr, Hev. split.
      * assert (Hann : never is_post_processing (events (get_annotation_data self q))).
        { eapply never_of_class; [|apply get_annotation_data_event_kinds].
          intros []; cbn; congruence. }
        rewrite Hev in Hann.
        apply never_app. split; [|exact Hw].
        apply never_app. split; [apply cache_phase_never; cache_phase_kind|].
        apply (never_app _ [Ev_datasource_query]). split; [reflexivity|].
        apply never_app. split; assumption.
      * eexists. apply in_app_iff. left. apply in_app_iff. right.
        right. left. reflexivity.
  - unfold df_empty, df_rowcount. intros ->. split; reflexivity.
Qed.


(** ** Invariants of the payload *)

(** The two invariants the specification gives for the payload. *)
Definition payload_invariants (payload : Payload.t) : Prop :=
  (Payload.status payload = Some FAILED -> Payload.error payload <> None)
  /\ (Payload.is_cached payload = true -> Payload.cache_key payload <> None).

Lemma cache_entry_found_key self q entry :
  cache_entry_found self q = Some entry ->
  opt_str_truthy (query_cache_key self q) = true
  /\ force self = false
  /\ data_cache_get (query_cache_key self q) = Some entry.
Proof.
  unfold cache_entry_found.
  destruct (opt_str_truthy (query_cache_key self q)); [|discriminate].
  destruct (is_some data_cache); [|discriminate].
  destruct (force self); [discriminate|]. cbn. auto.
Qed.

Lemma before_payload_failed self q :
  L.status (before_payload self q).1 = Some FAILED ->
  L.error_message (before_payload self q).1 = None ->
  exists r, ds_query (datasource self) q = Ok r
            /\ qr_status r = FAILED /\ qr_error_message r = None.
Proof.
  destruct (cache_check_spec self q) as (_ & _ & _ & _ & _ & Hst & _).
  unfold before_payload.
  destruct (qo_bool q && negb (L.is_loaded (after_cache_check self q).1)).
  2:{ rewrite Hst. destruct (served_from_cache self q); discriminate. }
  unfold after_fetch.
  destruct (fetch_body self q _ _) as [[[[]|ex] l1] t1] eqn:Hb; cbn [fst].
  - destruct (fetch_body_ok_status _ _ _ _ _ _ Hb) as (qr & Hqr & Hs1 & He1).
    destruct (get_query_result_response _ _ _ Hqr) as (r & Hr & Hsr & Her & _).
    rewrite Hs1, He1, Hsr, Her. intros [= Hf] Hn. eauto.
  - rewrite handled_error. intros _.
    destruct (isinstance ex _); [discriminate|].
    destruct (opt_str_truthy (L.error_message l1)) eqn:Ht; [|discriminate].
    intros Hn. apply opt_str_truthy_Some in Ht. contradiction.
Qed.

(** C9, as the code has it.  A returned payload marked as cached always
    carries a cache key; a returned payload with status FAILED has an
    error whenever the datasource does not itself answer with status
    FAILED and no error message, this status and message being copied
    from the response as they are. *)
Theorem payload_invariants_amended self q force_cached payload t :
  (forall r, ds_query (datasource self) q = Ok r ->
             qr_status r = FAILED -> qr_error_message r <> None) ->
  run_get_df_payload self q force_cached = (Ok payload, t) ->
  payload_invariants payload.
Proof.
  intros Hds Hrun.
  destruct (run_returned _ _ _ _ _ Hrun) as (dttm & timeout & -> & _ & _).
  unfold payload_invariants, payload_of.
  cbn [Payload.status Payload.error Payload.is_cached Payload.cache_key].
  split.
  - intros Hf Hn.
    destruct (before_payload_failed self q Hf Hn) as (r & Hr & Hs & He).
    exact (Hds r Hr Hs He).
  - rewrite before_payload_cache_value.
    destruct (cache_entry_found self q) as [entry|] eqn:Hfound; [|discriminate].
    intros _. destruct (cache_entry_found_key _ _ _ Hfound) as (Hk & _).
    apply opt_str_truthy_Some. exact Hk.
Qed.

(** ** Stale cache entries *)

Lemma run_raises_on_dttm self q force_cached timeout ex :
  cache_timeout self = Ok timeout ->
  cached_dttm_of (cache_entry_found self q) = Raise ex ->
  opt_bool_truthy force_cached && negb (L.is_loaded (after_cache_check self q).1) = false ->
  exists t, run_get_df_payload self q force_cached = (Raise ex, t).
Proof.
  intros Ht Hd Hg.
  pose proof (before_payload_cache_value self q) as Hcv.
  rewrite run_get_df_payload_eq, get_df_payload_run. cbn zeta. rewrite Hg.
  unfold before_payload in *.
  destruct (qo_bool q && negb (L.is_loaded (after_cache_check self q).1)).
  - rewrite cache_write_run, Ht.
    destruct (_ && _ && _); rewrite build_payload_run, Hcv, Hd; cbn [fst snd]; eauto.
  - rewrite build_payload_run, Hcv, Hd. cbn [fst snd]. eauto.
Qed.

(** C10. Without [force], a returned payload is marked as cached exactly
    when the cache check found an entry under the derived key.  When the
    entry found cannot be used (it lacks ["df"] or ["query"]) the data is
    fetched from the datasource, and the payload is still marked as
    cached, with the ["dttm"] of that entry; an entry without ["dttm"]
    makes the call raise [KeyError] when the payload is built. *)
Theorem is_cached_reflects_entry_found self q force_cached timeout :
  force self = false ->
  cache_timeout self = Ok timeout ->
  (forall payload t,
     run_get_df_payload self q force_cached = (Ok payload, t) ->
     (Payload.is_cached payload = true <->
      opt_str_truthy (query_cache_key self q) = true
      /\ exists entry, data_cache_get (query_cache_key self q) = Some entry))
  /\ (forall entry,
        cache_entry_found self q = Some entry ->
        well_formed entry = false ->
        opt_bool_truthy force_cached = false ->
        forall dttm,
          cv_dttm entry = Some dttm ->
          exists payload t,
            run_get_df_payload self q force_cached = (Ok payload, t)
            /\ Payload.is_cached payload = true
            /\ Payload.cached_dttm payload = Some dttm
            /\ (qo_bool q = true -> invalid_columns self q = [] ->
                In Ev_datasource_query t))
  /\ (forall entry,
        cache_entry_found self q = Some entry ->
        opt_bool_truthy force_cached && negb (well_formed entry) = false ->
        cv_dttm entry = None ->
        exists t,
          run_get_df_payload self q force_cached = (Raise (mk_exn KeyError "'dttm'"), t)).
Proof.
  intros Hforce Ht.
  destruct (cache_check_spec self q) as (_ & _ & Hl & _).
  split; [|split].
  - intros payload t Hrun.
    destruct (run_returned _ _ _ _ _ Hrun) as (dttm & timeout' & -> & _ & _).
    unfold payload_of. cbn [Payload.is_cached].
    rewrite before_payload_cache_value. unfold cache_entry_found.
    rewrite Hforce. cbn [negb]. rewrite andb_true_r.
    destruct (opt_str_truthy (query_cache_key self q)); cbn [andb].
    2:{ split; [discriminate|intros [? _]; discriminate]. }
    unfold data_cache_get.
    destruct data_cache as [store|]; cbn [is_some].
    2:{ split; [discriminate|intros [_ [? ?]]; discriminate]. }
    destruct (query_cache_key self q) as [key|]; cbn.
    2:{ split; [discriminate|intros [_ [? ?]]; discriminate]. }
    destruct (store !! key); cbn; split; try discriminate; eauto.
    intros [_ [? ?]]; discriminate.
  - intros entry Hfound Hwf Hfc dttm Hdttm.
    assert (Hnl : L.is_loaded (after_cache_check self q).1 = false).
    { rewrite Hl. unfold served_from_cache. rewrite Hfound. exact Hwf. }
    assert (Hd : cached_dttm_of (cache_entry_found self q) = Ok (Some dttm)).
    { rewrite Hfound. unfold cached_dttm_of. rewrite Hdttm. reflexivity. }
    destruct (run_returns self q force_cached timeout (Some dttm) Ht Hd)
      as (written & Hrun & _).
    { rewrite Hfc. reflexivity. }
    rewrite Hrun. eexists _, _. split; [reflexivity|].
    unfold payload_of. cbn [Payload.is_cached Payload.cached_dttm].
    rewrite before_payload_cache_value, Hfound.
    split; [reflexivity|]. split; [reflexivity|].
    intros Hqb Hv. apply in_app_iff. left.
    unfold before_payload. rewrite Hqb, Hnl. cbn [negb andb].
    apply after_fetch_queries. exact Hv.
  - intros entry Hfound Hg Hdttm.
    apply (run_raises_on_dttm self q force_cached timeout); [exact Ht| |].
    + rewrite Hfound. unfold cached_dttm_of. rewrite Hdttm. reflexivity.
    + rewrite Hl. unfold served_from_cache. rewrite Hfound. exact Hg.
Qed.

End Properties.

(** * The properties on the scenarios *)

Import Scenario.

Lemma cache_timeout_without_database_witness :
  cache_timeout (H := ambient None) (context None (answered sales SUCCESS None))
    = Raise (mk_exn AttributeError "object has no attribute 'database'")
  /\ cache_timeout (H := ambient None) (context None (answered sales SUCCESS None))
     <> Ok (Some 86400).
Proof.
  apply (cache_timeout_without_database (H := ambient None)); reflexivity.
Defined.

Lemma get_viz_annotation_data_missing_chart_witness :
  get_viz_annotation_data (H := ambient None) (S := unit)
      (mk_layer "Trend" "line" 8) false tt []
    = (Raise (mk_exn AttributeError "'NoneType' object has no attribute 'form_data'"),
       tt, [Ev_find_chart 8])
  /\ isinstance (mk_exn AttributeError "'NoneType' object has no attribute 'form_data'")
       QueryObjectValidationError = false.
Proof.
  apply (get_viz_annotation_data_missing_chart (H := ambient None)
           (mk_layer "Trend" "line" 8) false tt []).
  reflexivity.
Defined.

Lemma force_cached_miss_raises_witness :
  exists t,
    run_get_df_payload (H := ambient (Some ∅))
        (context main_db (answered sales SUCCESS None))
        (query_object ["revenue"] None []) (Some true)
      = (Raise cache_load_error, t)
    /\ never is_datasource_query t
    /\ never is_post_processing t
    /\ never is_annotation_merge t
    /\ never is_cache_write t.
Proof.
  apply (force_cached_miss_raises (H := ambient (Some ∅))); vm_compute; reflexivity.
Defined.

Lemma invalid_columns_fail_witness :
  exists payload t,
    run_get_df_payload (H := ambient (Some ∅))
        (context main_db (answered sales SUCCESS None))
        (query_object ["region"] (Some [saved_metric "revenue"]) []) None
      = (Ok payload, t)
    /\ Payload.status payload = Some FAILED
    /\ Payload.error payload =
         Some "Columns missing in datasource: %(invalid_columns)s % [revenue]"
    /\ never is_datasource_query t.
Proof.
  destruct (invalid_columns_fail (H := ambient (Some ∅))
              (context main_db (answered sales SUCCESS None))
              (query_object ["region"] (Some [saved_metric "revenue"]) []) None
              (Some 86400) None)
    as (payload & t & Hrun & Hs & He & _ & Hn);
    try (vm_compute; reflexivity).
  - vm_compute. discriminate.
  - exists payload, t. repeat split; assumption.
Defined.


Lemma cache_write_iff_witness :
  existsb is_cache_write
    (run_get_df_payload (H := ambient (Some ∅))
       (context main_db (answered sales SUCCESS None))
       (query_object ["sales"] None []) None).2 = true
  /\ never is_cache_write
       (run_get_df_payload (H := ambient (Some ∅))
          (context main_db (answered sales FAILED (Some "syntax error")))
          (query_object ["sales"] None []) None).2.
Proof.
  split.
  - apply (cache_write_iff (H := ambient (Some ∅))
             (context main_db (answered sales SUCCESS None))
             (query_object ["sales"] None []) None (Some 86400) eq_refl).
    split; [|reflexivity].
    eexists. repeat split; try reflexivity.
    + eexists. vm_compute. reflexivity.
    + vm_compute. discriminate.
  - eapply (cache_write_iff (H := ambient (Some ∅))
              (context main_db (answered sales FAILED (Some "syntax error")))
              (query_object ["sales"] None []) None (Some 86400) eq_refl);
      reflexivity.
Defined.

Lemma fetch_exception_recovered_witness :
  exists payload t,
    run_get_df_payload (H := ambient (Some ∅))
        (context main_db (Raise (mk_exn Exception "connection refused")))
        (query_object ["sales"] None []) None
      = (Ok payload, t)
    /\ Payload.status payload = Some FAILED
    /\ Payload.error payload = Some "connection refused"
    /\ Payload.stacktrace payload = Some "Traceback: connection refused".
Proof.
  destruct (fetch_exception_recovered (H := ambient (Some ∅))
              (context main_db (Raise (mk_exn Exception "connection refused")))
              (query_object ["sales"] None []) None
              (mk_exn Exception "connection refused")
              (L.set_cache_value None L.init)
              [Ev_log "info" "Cache key: %s"; Ev_cache_get "key1"; Ev_datasource_query]
              (Some 86400) None)
    as (payload & t & Hrun & Hs & _ & _ & Ho);
    try (vm_compute; reflexivity).
  destruct (Ho eq_refl) as [He Hst].
  exists payload, t. repeat split; assumption.
Defined.

Lemma post_processing_pipeline_witness :
  get_query_result (H := ambient None) (S := unit)
      (context main_db (answered sales SUCCESS None))
      (query_object ["sales"] None []) tt []
    = (Ok (mk_query_result
             (mk_df [0; 1] [("sales", mk_series dt_float64 [c_nan; c_int 3])])
             "SELECT sales FROM t" SUCCESS None),
       tt, [Ev_datasource_query; Ev_normalize_dttm_col; Ev_exec_post_processing])
  /\ get_query_result (H := ambient None) (S := unit)
       (context main_db (answered no_rows SUCCESS None))
       (query_object ["sales"] None []) tt []
     = (Ok (mk_query_result no_rows "SELECT sales FROM t" SUCCESS None),
        tt, [Ev_datasource_query]).
Proof.
  split.
  - apply (post_processing_pipeline (H := ambient None)
             (context main_db (answered sales SUCCESS None))
             (query_object ["sales"] None [])
             (mk_query_result sales "SELECT sales FROM t" SUCCESS None) eq_refl).
    reflexivity.
  - apply (post_processing_pipeline (H := ambient None)
             (context main_db (answered no_rows SUCCESS None))
             (query_object ["sales"] None [])
             (mk_query_result no_rows "SELECT sales FROM t" SUCCESS None) eq_refl).
    reflexivity.
Defined.

(** The scenario of the specification: a native and a derived layer,
    both named "Holidays". *)
Lemma get_annotation_data_derived_overwrites_witness :
  exists m,
    outcome (get_annotation_data (H := ambient None)
               (context main_db (answered sales SUCCESS None))
               (query_object ["sales"] None holidays)) = Ok m
    /\ m !! "Holidays" = Some (viz_result (viz_data "line"))
    /\ size m = 1%nat.
Proof.
  destruct (get_annotation_data (H := ambient None) (S := unit)
              (context main_db (answered sales SUCCESS None))
              (query_object ["sales"] None holidays) tt [])
    as [[[m|ex] s'] t'] eqn:Hrun.
  2:{ vm_compute in Hrun. discriminate. }
  destruct (get_annotation_data_derived_overwrites (H := ambient None)
              _ _ _ _ _ _ _ Hrun) as (native & _ & _ & Hlook).
  specialize (Hlook "Holidays"). cbn in Hlook.
  destruct Hlook as (data & Hdata & Hm).
  vm_compute in Hdata. injection Hdata as <-.
  exists m. unfold outcome. rewrite Hrun. split; [reflexivity|]. split; [exact Hm|].
  vm_compute in Hrun. injection Hrun as <- _ _. reflexivity.
Defined.

(** C9, as stated, fails: the datasource answers with status FAILED and
    no error message, and the payload copies both. *)
Lemma payload_invariants_counterexample :
  exists payload t,
    run_get_df_payload (H := ambient None)
        (context main_db (answered sales FAILED None))
        (query_object ["sales"] None []) None
      = (Ok payload, t)
    /\ Payload.status payload = Some FAILED
    /\ Payload.error payload = None
    /\ ~ payload_invariants payload.
Proof.
  eexists _, _. split; [vm_compute; reflexivity|].
  split; [reflexivity|]. split; [reflexivity|].
  intros [Hf _]. apply Hf; reflexivity.
Qed.

Lemma payload_invariants_amended_witness :
  exists payload t,
    run_get_df_payload (H := ambient None)
        (context main_db (answered sales FAILED (Some "syntax error")))
        (query_object ["sales"] None []) None
      = (Ok payload, t)
    /\ payload_invariants payload.
Proof.
  eexists _, _. split; [vm_compute; reflexivity|].
  eapply (payload_invariants_amended (H := ambient None)
            (context main_db (answered sales FAILED (Some "syntax error")))
            (query_object ["sales"] None []) None);
    [|vm_compute; reflexivity].
  cbn. intros r [= <-] _. discriminate.
Defined.

Lemma is_cached_reflects_entry_found_witness :
  (exists payload t,
      run_get_df_payload (H := ambient (Some {["key1" := stale]}))
          (context main_db (answered sales SUCCESS None))
          (query_object ["sales"] None []) None
        = (Ok payload, t)
      /\ Payload.is_cached payload = true
      /\ Payload.cached_dttm payload = Some "2020-01-01T00:00:00"
      /\ In Ev_datasource_query t)
  /\ (exists t,
        run_get_df_payload
            (H := ambient (Some {["key1" := mk_cache_value (Some sales) None None None]}))
            (context main_db (answered sales SUCCESS None))
            (query_object ["sales"] None []) None
          = (Raise (mk_exn KeyError "'dttm'"), t)).
Proof.
  split.
  - destruct (is_cached_reflects_entry_found (H := ambient (Some {["key1" := stale]}))
                (context main_db (answered sales SUCCESS None))
                (query_object ["sales"] None []) None (Some 86400) eq_refl eq_refl)
      as (_ & Hstale & _).
    destruct (Hstale stale ltac:(vm_compute; reflexivity) eq_refl eq_refl
                "2020-01-01T00:00:00" eq_refl)
      as (payload & t & Hrun & Hc & Hd & Hq).
    exists payload, t. repeat split; try assumption. apply Hq; reflexivity.
  - destruct (is_cached_reflects_entry_found
                (H := ambient (Some {["key1" := mk_cache_value (Some sales) None None None]}))
                (context main_db (answered sales SUCCESS None))
                (query_object ["sales"] None []) None (Some 86400) eq_refl eq_refl)
      as (_ & _ & Hraise).
    apply (Hraise (mk_cache_value (Some sales) None None None));
      vm_compute; reflexivity.
Defined.

(** * Further properties of the annotation merger *)

Definition is_native (layer : Layer) : bool :=
  String.eqb (layer_sourceType layer) "NATIVE".

(** The record built for one annotation row. *)
Definition annotation_record (annotation : Annotation) : list (string * field_value) :=
  map (fun column => (column, annotation_getattr annotation column)) annotation_columns.

(** A query object with other annotation layers. *)
Definition set_annotation_layers (layers : list Layer) (q : QueryObject) : QueryObject :=
  mk_query_object (qo_bool q) (columns q) (groupby q) (metrics q) (metric_names q)
    (granularity q) (time_shift q) layers (exec_post_processing q) (qo_cache_key q).

Section Annotations.
Context `{Ambient}.

Lemma index_by_id_fold objects :
  forall (m : gmap Z AnnotationLayer) id,
    fold_left (fun m o => <[al_id o := o]> m) objects m !! id = None <->
    m !! id = None /\ ~ In id (map al_id objects).
Proof.
  induction objects as [|o rest IH]; intros m id; cbn.
  - tauto.
  - rewrite IH. destruct (decide (al_id o = id)) as [->|Hne].
    + rewrite lookup_insert_eq. split; [intros [[=] _]|intros [_ Hn]; tauto].
    + rewrite lookup_insert_ne by exact Hne. tauto.
Qed.

Lemma index_by_id_None objects id :
  index_by_id objects !! id = None <-> ~ In id (map al_id objects).
Proof.
  unfold index_by_id. rewrite index_by_id_fold, lookup_empty. tauto.
Qed.

Lemma native_layers_loop_cons objects layer rest acc :
  outcome (native_layers_loop objects (layer :: rest) acc) =
    match objects !! layer_value layer with
    | None => Raise (mk_exn KeyError (pretty (layer_value layer)))
    | Some layer_object =>
        outcome (native_layers_loop objects rest
                   (<[layer_name layer :=
                        native_result annotation_columns
                          (map annotation_record (al_annotation layer_object))]> acc))
    end.
Proof.
  unfold outcome at 1. cbn [native_layers_loop].
  destruct (objects !! layer_value layer); [|reflexivity].
  rewrite native_layers_loop_run. reflexivity.
Qed.

Lemma native_layers_loop_not_found objects layer post :
  forall pre acc,
    (forall l, In l pre -> objects !! layer_value l <> None) ->
    objects !! layer_value layer = None ->
    outcome (native_layers_loop objects (pre ++ layer :: post) acc) =
      Raise (mk_exn KeyError (pretty (layer_value layer))).
Proof.
  induction pre as [|l pre IH]; intros acc Hpre Hl; cbn [app];
    rewrite native_layers_loop_cons.
  - rewrite Hl. reflexivity.
  - destruct (objects !! layer_value l) eqn:Hfound.
    + apply IH; [|exact Hl]. intros l' Hin. apply Hpre. right. exact Hin.
    + exfalso. apply (Hpre l); [left; reflexivity|exact Hfound].
Qed.

Lemma native_layers_loop_lookup objects layers :
  forall acc m,
    outcome (native_layers_loop objects layers acc) = Ok m ->
    forall name,
      match last_named name layers with
      | Some layer =>
          exists layer_object,
            objects !! layer_value layer = Some layer_object
            /\ m !! name = Some (native_result annotation_columns
                                   (map annotation_record (al_annotation layer_object)))
      | None => m !! name = acc !! name
      end.
Proof.
  induction layers as [|l rest IH]; intros acc m Hm name.
  - cbn in Hm. injection Hm as <-. reflexivity.
  - rewrite native_layers_loop_cons in Hm.
    destruct (objects !! layer_value l) as [o|] eqn:Ho; [|discriminate].
    specialize (IH _ _ Hm name). cbn [last_named].
    destruct (last_named name rest) as [later|]; [exact IH|].
    destruct (String.eqb (layer_name l) name) eqn:Hn.
    + apply String.eqb_eq in Hn. subst name. exists o. split; [exact Ho|].
      rewrite IH. apply lookup_insert_eq.
    + apply String.eqb_neq in Hn. rewrite IH. apply lookup_insert_ne. exact Hn.
Qed.

Lemma get_native_annotation_data_outcome q :
  outcome (get_native_annotation_data q) =
    outcome (native_layers_loop
               (index_by_id (find_by_ids
                               (map layer_value (List.filter is_native (annotation_layers q)))))
               (List.filter is_native (annotation_layers q)) ∅).
Proof.
  unfold outcome at 1, get_native_annotation_data. eff_simpl.
  rewrite native_layers_loop_run. reflexivity.
Qed.

(** X1. A native layer whose id the annotation-layer store does not
    return makes [get_native_annotation_data] raise [KeyError] on that
    id: the first such layer in request order decides, and no mapping
    is returned. *)
Theorem native_layer_not_found q pre layer post :
  List.filter is_native (annotation_layers q) = pre ++ layer :: post ->
  (forall l, In l pre ->
     In (layer_value l)
        (map al_id (find_by_ids (map layer_value (pre ++ layer :: post))))) ->
  ~ In (layer_value layer)
       (map al_id (find_by_ids (map layer_value (pre ++ layer :: post)))) ->
  outcome (get_native_annotation_data q) =
    Raise (mk_exn KeyError (pretty (layer_value layer)))
  /\ isinstance (mk_exn KeyError (pretty (layer_value layer)))
       QueryObjectValidationError = false.
Proof.
  intros Hf Hpre Hl. split; [|reflexivity].
  rewrite get_native_annotation_data_outcome, Hf.
  apply native_layers_loop_not_found.
  - intros l Hin Hnone. apply index_by_id_None in Hnone. apply Hnone, Hpre, Hin.
  - apply index_by_id_None. exact Hl.
Qed.

(** X2. When [get_native_annotation_data] returns, its mapping has an
    entry exactly for the names of the native layers; the entry of a
    name is built from the layer object of the last native layer of
    that name: the five fixed columns and one record per annotation row,
    in the order of the rows. *)
Theorem native_annotation_data_lookup q m :
  outcome (get_native_annotation_data q) = Ok m ->
  forall name,
    match last_named name (List.filter is_native (annotation_layers q)) with
    | Some layer =>
        exists layer_object,
          In layer_object
             (find_by_ids (map layer_value (List.filter is_native (annotation_layers q))))
          /\ al_id layer_object = layer_value layer
          /\ m !! name =
               Some (native_result
                       ["start_dttm"; "end_dttm"; "short_descr"; "long_descr"; "json_metadata"]
                       (map annotation_record (al_annotation layer_object)))
    | None => m !! name = None
    end.
Proof.
  rewrite get_native_annotation_data_outcome. intros Hm name.
  pose proof (native_layers_loop_lookup _ _ _ _ Hm name) as Hl.
  destruct (last_named name _) as [layer|]; [|rewrite Hl; apply lookup_empty].
  destruct Hl as (o & Ho & Hlook). exists o. split; [|split; [|exact Hlook]].
  - revert Ho. unfold index_by_id.
    generalize (find_by_ids (map layer_value (List.filter is_native (annotation_layers q)))).
    intros objects. assert (Hgen : forall (m0 : gmap Z AnnotationLayer),
      fold_left (fun m o => <[al_id o := o]> m) objects m0 !! layer_value layer = Some o ->
      m0 !! layer_value layer = Some o \/ In o objects).
    { induction objects as [|o' rest IH]; intros m0; cbn; [auto|].
      intros Hf. destruct (IH _ Hf) as [Hin|Hin]; [|auto].
      destruct (decide (al_id o' = layer_value layer)) as [He|Hne].
      - rewrite He, lookup_insert_eq in Hin. injection Hin as ->. auto.
      - rewrite lookup_insert_ne in Hin by exact Hne. auto. }
    intros Ho. destruct (Hgen _ Ho) as [Hin|Hin]; [|exact Hin].
    rewrite lookup_empty in Hin. discriminate.
  - revert Ho. unfold index_by_id.
    generalize (find_by_ids (map layer_value (List.filter is_native (annotation_layers q)))).
    intros objects. assert (Hgen : forall (m0 : gmap Z AnnotationLayer),
      (forall id o', m0 !! id = Some o' -> al_id o' = id) ->
      forall id o', fold_left (fun m o => <[al_id o := o]> m) objects m0 !! id = Some o' ->
                    al_id o' = id).
    { induction objects as [|o1 rest IH]; intros m0 Hm0 id o'; cbn; [apply Hm0|].
      apply IH. intros id' o''.
      destruct (decide (al_id o1 = id')) as [He|Hne].
      - rewrite He, lookup_insert_eq. intros [= <-]. exact He.
      - rewrite lookup_insert_ne by exact Hne. apply Hm0. }
    apply Hgen. intros id o'. rewrite lookup_empty. discriminate.
Qed.

End Annotations.

Section Annotations2.
Context `{Ambient}.

(** X3. For a chart that exists, an exception raised while the
    visualization is built or run leaves [get_viz_annotation_data] as a
    [QueryObjectValidationError] carrying [error_msg_from_exception] of
    that very exception when it is a [SupersetException], and unchanged
    otherwise; a payload without ["data"] raises [KeyError], and a
    payload with it gives that data. *)
Theorem viz_exceptions_translated layer force chart :
  find_by_id (layer_value layer) = Some chart ->
  (forall ex,
     get_viz (slice_datasource_type chart) (slice_datasource_id chart)
             (form_data chart) force = Raise ex ->
     outcome (get_viz_annotation_data layer force) =
       Raise (if isinstance ex SupersetException
              then mk_exn QueryObjectValidationError (error_msg_from_exception ex)
              else ex))
  /\ (forall viz ex,
        get_viz (slice_datasource_type chart) (slice_datasource_id chart)
                (form_data chart) force = Ok viz ->
        get_payload viz = Raise ex ->
        outcome (get_viz_annotation_data layer force) =
          Raise (if isinstance ex SupersetException
                 then mk_exn QueryObjectValidationError (error_msg_from_exception ex)
                 else ex))
  /\ (forall viz payload,
        get_viz (slice_datasource_type chart) (slice_datasource_id chart)
                (form_data chart) force = Ok viz ->
        get_payload viz = Ok payload ->
        outcome (get_viz_annotation_data layer force) =
          match payload_data payload with
          | Some data => Ok data
          | None => Raise (mk_exn KeyError "'data'")
          end).
Proof.
  intros Hc. unfold outcome, get_viz_annotation_data. eff_simpl. rewrite Hc.
  cbn -[isinstance]. split; [|split].
  - intros ex ->. cbn -[isinstance].
    destruct (isinstance ex SupersetException); reflexivity.
  - intros viz ex -> Hp. cbn -[isinstance]. rewrite Hp. cbn -[isinstance].
    destruct (isinstance ex SupersetException); reflexivity.
  - intros viz payload -> Hp. cbn -[isinstance]. rewrite Hp. cbn -[isinstance].
    unfold payload_getitem_data. destruct (payload_data payload); reflexivity.
Qed.

Lemma filter_twice {A} (f g : A -> bool) (l : list A) :
  (forall x, f x = true -> g x = true) ->
  List.filter f (List.filter g l) = List.filter f l.
Proof.
  intros Hfg. induction l as [|x l IH]; cbn; [reflexivity|].
  destruct (g x) eqn:Hg; cbn.
  - rewrite IH. reflexivity.
  - destruct (f x) eqn:Hf; [|exact IH]. rewrite (Hfg x Hf) in Hg. discriminate.
Qed.

(** X4. Annotation layers whose source type is neither "NATIVE" nor
    "line" nor "table" play no part in the merge: dropping them from the
    query object changes neither what [get_annotation_data] returns or
    raises nor the calls it makes. *)
Theorem other_layers_ignored {S} self q (s : S) t :
  get_annotation_data self
      (set_annotation_layers
         (List.filter (fun layer => is_native layer || is_derived layer)
                      (annotation_layers q)) q) s t
  = get_annotation_data self q s t.
Proof.
  unfold get_annotation_data, get_native_annotation_data. cbn [annotation_layers set_annotation_layers].
  change (fun layer : Layer => String.eqb (layer_sourceType layer) "NATIVE") with is_native.
  rewrite !filter_twice; [reflexivity| |].
  - intros l ->. reflexivity.
  - intros l ->. apply orb_true_r.
Qed.

End Annotations2.

(** * Further properties of get_df_payload *)

Definition is_cache_get (e : Event) : bool :=
  match e with Ev_cache_get _ => true | _ => false end.

(** The calls the fetch can make: everything but cache reads and
    writes. *)
Definition is_fetch_event (e : Event) : bool :=
  match e with
  | Ev_cache_get _ | Ev_set_and_log_cache _ _ _ _ => false
  | _ => true
  end.

Section CachePaths.
Context `{Ambient}.

(** The locals and the log after a cache check that loads an entry. *)
Lemma cache_check_hit self q entry df query :
  cache_entry_found self q = Some entry ->
  cv_df entry = Some df ->
  cv_query entry = Some query ->
  after_cache_check self q =
    (L.mk true None df (Some entry) (Some SUCCESS) query
          (default ∅ (cv_annotation_data entry)) None,
     [Ev_log "info" "Cache key: %s";
      Ev_cache_get (default "" (query_cache_key self q));
      Ev_stats_incr "loading_from_cache";
      Ev_stats_incr "loaded_from_cache";
      Ev_log "info" "Serving from cache"]).
Proof.
  intros Hfound Hdf Hquery.
  unfold after_cache_check, cache_check. revert Hfound. unfold cache_entry_found.
  destruct (opt_str_truthy (query_cache_key self q) && is_some data_cache
            && negb (force self)); [|discriminate].
  intros Hget. eff_simpl. rewrite Hget.
  destruct entry as [d qy a dt]. cbn in Hdf, Hquery. subst d qy.
  destruct a, dt; reflexivity.
Qed.

(** The cache check does nothing but log the key when the key is falsy,
    no store is configured, or the context is forced. *)
Lemma cache_check_skipped self q :
  opt_str_truthy (query_cache_key self q) && is_some data_cache && negb (force self)
    = false ->
  after_cache_check self q = (L.init, [Ev_log "info" "Cache key: %s"]).
Proof.
  intros Hc. unfold after_cache_check, cache_check. rewrite Hc. reflexivity.
Qed.

Lemma forallb_weaken {A} (f g : A -> bool) (l : list A) :
  (forall x, f x = true -> g x = true) ->
  forallb f l = true -> forallb g l = true.
Proof.
  intros Hfg. induction l as [|x l IH]; cbn; [reflexivity|].
  rewrite !andb_true_iff. intros [Hx Hl]. auto.
Qed.

Lemma after_fetch_trace self q l t :
  exists mid,
    (after_fetch self q l t).2 = t ++ mid /\ forallb is_fetch_event mid = true.
Proof.
  assert (Hq : forallb is_fetch_event (events (get_query_result self q)) = true).
  { eapply forallb_weaken; [|apply get_query_result_event_kinds].
    intros []; cbn; congruence. }
  assert (Ha : forallb is_fetch_event (events (get_annotation_data self q)) = true).
  { eapply forallb_weaken; [|apply get_annotation_data_event_kinds].
    intros []; cbn; congruence. }
  assert (Hs : forallb is_fetch_event (source_stats self) = true)
    by (unfold source_stats; destruct (force self); reflexivity).
  assert (Hh : forall ex, forallb is_fetch_event (handler_log ex) = true)
    by (intros ex; unfold handler_log; destruct (isinstance ex _); reflexivity).
  unfold after_fetch. rewrite fetch_body_run.
  destruct (negb (is_nil (invalid_columns self q))); cbn [snd].
  { eexists. split; [reflexivity|]. apply Hh. }
  destruct (outcome (get_query_result self q)) as [qr|ex]; cbn [snd].
  2:{ eexists. rewrite <- app_assoc. split; [reflexivity|].
      rewrite forallb_app, Hq. apply Hh. }
  destruct (outcome (get_annotation_data self q)) as [m|ex]; cbn [snd].
  2:{ eexists. rewrite <- !app_assoc. split; [reflexivity|].
      rewrite !forallb_app, Hq, Ha. apply Hh. }
  destruct (negb (status_is_failed (qr_status qr))); cbn [snd].
  - eexists. split; [reflexivity|]. rewrite !forallb_app, Hq, Ha. exact Hs.
  - eexists. split; [reflexivity|]. rewrite !forallb_app, Hq. exact Ha.
Qed.

(** The log of a call: the cache check, then the calls of the fetch,
    then at most one cache write, which needs a truthy key. *)
Lemma run_trace self q force_cached :
  exists mid written,
    (run_get_df_payload self q force_cached).2
      = (after_cache_check self q).2 ++ mid ++ written
    /\ forallb is_fetch_event mid = true
    /\ (written = []
        \/ (opt_str_truthy (query_cache_key self q) = true
            /\ exists value timeout,
                 written = [Ev_set_and_log_cache (default "" (query_cache_key self q))
                              value timeout (uid (datasource self))])).
Proof.
  rewrite run_get_df_payload_eq, get_df_payload_run. cbn zeta.
  destruct (opt_bool_truthy force_cached && _).
  { cbn [snd]. eexists _, []. rewrite app_nil_r. split; [reflexivity|]. split; [reflexivity|auto]. }
  destruct (qo_bool q && _).
  2:{ exists [], []. rewrite !app_nil_r, build_payload_run. split; [|split; [reflexivity|auto]].
      destruct (cached_dttm_of _); [|reflexivity]. destruct (cache_timeout self); reflexivity. }
  destruct (after_fetch_trace self q (after_cache_check self q).1 (after_cache_check self q).2)
    as (mid & Hmid & Hk).
  rewrite cache_write_run, Hmid.
  destruct (L.is_loaded _ && opt_str_truthy (query_cache_key self q) && _) eqn:Hw.
  - destruct (cache_timeout self) as [timeout|ex] eqn:Ht.
    + exists mid. eexists. rewrite build_payload_run, Ht. split; [|split; [exact Hk|]].
      * rewrite app_assoc. destruct (cached_dttm_of _); reflexivity.
      * right. apply andb_true_iff in Hw as [Hw _]. apply andb_true_iff in Hw as [_ Hw].
        split; [exact Hw|]. eauto.
    + exists mid, []. rewrite app_nil_r. cbn [snd]. split; [reflexivity|]. split; [exact Hk|auto].
  - exists mid, []. rewrite app_nil_r, build_payload_run. split; [|split; [exact Hk|auto]].
    destruct (cached_dttm_of _); [|reflexivity]. destruct (cache_timeout self); reflexivity.
Qed.

End CachePaths.

Section CachePaths2.
Context `{Ambient}.

Lemma run_trace_fetch self q force_cached :
  opt_bool_truthy force_cached = false ->
  qo_bool q = true ->
  L.is_loaded (after_cache_check self q).1 = false ->
  exists written,
    (run_get_df_payload self q force_cached).2
      = (after_fetch self q (after_cache_check self q).1 (after_cache_check self q).2).2
        ++ written.
Proof.
  intros Hfc Hq Hl. rewrite run_get_df_payload_eq, get_df_payload_run. cbn zeta.
  rewrite Hfc, Hq, Hl. cbn [andb negb]. rewrite cache_write_run.
  destruct (L.is_loaded _ && _ && _).
  - destruct (cache_timeout self) as [timeout|ex] eqn:Ht.
    + rewrite build_payload_run, Ht. eexists.
      destruct (cached_dttm_of _); reflexivity.
    + exists []. rewrite app_nil_r. reflexivity.
  - exists []. rewrite app_nil_r, build_payload_run.
    destruct (cached_dttm_of _); [|reflexivity]. destruct (cache_timeout self); reflexivity.
Qed.

Lemma never_of_fetch_events kind mid :
  (forall e, is_fetch_event e = true -> kind e = false) ->
  forallb is_fetch_event mid = true -> never kind mid.
Proof. apply never_of_class. Qed.

(** X5. A usable cache entry is served as it is: the payload carries the
    entry's table, query text, annotation data (empty when the entry has
    none) and ["dttm"], with status SUCCESS, no error and [is_cached]
    set; the call makes the cache lookup and nothing else: no query of
    the datasource, no annotation lookup, no cache write. *)
Theorem cache_hit_served self q force_cached entry df query dttm timeout :
  cache_entry_found self q = Some entry ->
  cv_df entry = Some df ->
  cv_query entry = Some query ->
  cv_dttm entry = Some dttm ->
  cache_timeout self = Ok timeout ->
  run_get_df_payload self q force_cached =
    (Ok (Payload.mk (query_cache_key self q) (Some dttm) timeout df
           (default ∅ (cv_annotation_data entry)) None true query (Some SUCCESS) None
           (df_rowcount df)),
     [Ev_log "info" "Cache key: %s";
      Ev_cache_get (default "" (query_cache_key self q));
      Ev_stats_incr "loading_from_cache";
      Ev_stats_incr "loaded_from_cache";
      Ev_log "info" "Serving from cache"]).
Proof.
  intros Hfound Hdf Hquery Hdttm Ht.
  rewrite run_get_df_payload_eq, get_df_payload_run. cbn zeta.
  rewrite (cache_check_hit self q entry df query Hfound Hdf Hquery).
  cbn [fst snd L.is_loaded negb]. rewrite !andb_false_r.
  rewrite build_payload_run. cbn [L.cache_value cached_dttm_of getitem].
  rewrite Hdttm, Ht. reflexivity.
Qed.

(** X6. With [force] set the cache is never read: the call makes no
    cache lookup, a returned payload is not marked as cached and has no
    cached timestamp, and a query object with valid columns is fetched
    from the datasource, whatever the store holds. *)
Theorem force_bypasses_cache self q force_cached :
  force self = true ->
  never is_cache_get (run_get_df_payload self q force_cached).2
  /\ (forall payload t,
        run_get_df_payload self q force_cached = (Ok payload, t) ->
        Payload.is_cached payload = false /\ Payload.cached_dttm payload = None)
  /\ (opt_bool_truthy force_cached = false ->
      qo_bool q = true ->
      invalid_columns self q = [] ->
      In Ev_datasource_query (run_get_df_payload self q force_cached).2).
Proof.
  intros Hforce.
  assert (Hskip : after_cache_check self q = (L.init, [Ev_log "info" "Cache key: %s"])).
  { apply cache_check_skipped. rewrite Hforce. apply andb_false_r. }
  assert (Hfound : cache_entry_found self q = None).
  { unfold cache_entry_found. rewrite Hforce, andb_false_r. reflexivity. }
  split; [|split].
  - destruct (run_trace self q force_cached) as (mid & written & -> & Hmid & Hw).
    rewrite Hskip. cbn [snd].
    apply never_app. split; [reflexivity|]. apply never_app. split.
    + eapply never_of_fetch_events; [|exact Hmid]. intros []; cbn; congruence.
    + destruct Hw as [->|(_ & v & ti & ->)]; reflexivity.
  - intros payload t Hrun.
    destruct (run_returned _ _ _ _ _ Hrun) as (dttm & timeout & -> & Hd & _).
    unfold payload_of. cbn [Payload.is_cached Payload.cached_dttm].
    rewrite before_payload_cache_value, Hfound. rewrite Hfound in Hd.
    cbn in Hd. injection Hd as <-. split; reflexivity.
  - intros Hfc Hq Hv.
    destruct (run_trace_fetch self q force_cached Hfc Hq) as (written & ->).
    { rewrite Hskip. reflexivity. }
    apply in_app_iff. left. apply after_fetch_queries. exact Hv.
Qed.

(** X7. A missing or empty cache key only disables caching for the
    call: the cache is neither read nor written and a returned payload
    is not marked as cached. *)
Theorem no_key_no_caching self q force_cached :
  opt_str_truthy (query_cache_key self q) = false ->
  never is_cache_get (run_get_df_payload self q force_cached).2
  /\ never is_cache_write (run_get_df_payload self q force_cached).2
  /\ (forall payload t,
        run_get_df_payload self q force_cached = (Ok payload, t) ->
        Payload.is_cached payload = false).
Proof.
  intros Hkey.
  assert (Hskip : after_cache_check self q = (L.init, [Ev_log "info" "Cache key: %s"])).
  { apply cache_check_skipped. rewrite Hkey. reflexivity. }
  assert (Hfound : cache_entry_found self q = None).
  { unfold cache_entry_found. rewrite Hkey. reflexivity. }
  destruct (run_trace self q force_cached) as (mid & written & Htr & Hmid & Hw).
  assert (Hwritten : written = []).
  { destruct Hw as [->|(Hk & _)]; [reflexivity|congruence]. }
  subst written. rewrite Htr, Hskip, app_nil_r. cbn [snd].
  split; [|split].
  - apply never_app. split; [reflexivity|].
    eapply never_of_fetch_events; [|exact Hmid]. intros []; cbn; congruence.
  - apply never_app. split; [reflexivity|].
    eapply never_of_fetch_events; [|exact Hmid]. intros []; cbn; congruence.
  - intros payload t Hrun.
    destruct (run_returned _ _ _ _ _ Hrun) as (dttm & timeout & -> & _ & _).
    unfold payload_of. cbn [Payload.is_cached].
    rewrite before_payload_cache_value, Hfound. reflexivity.
Qed.

End CachePaths2.

(** The same collaborators around another content of the data cache. *)
Definition with_data_cache (A : Ambient) (store : option (gmap string CacheValue))
  : Ambient := {|
  CACHE_DEFAULT_TIMEOUT := @CACHE_DEFAULT_TIMEOUT A;
  DTTM_ALIAS := @DTTM_ALIAS A;
  data_cache := store;
  row_level_security := @row_level_security A;
  get_rls_ids := @get_rls_ids A;
  gettext := @gettext A;
  gettext_names := @gettext_names A;
  error_msg_from_exception := @error_msg_from_exception A;
  get_column_names_from_metrics := @get_column_names_from_metrics A;
  get_stacktrace := @get_stacktrace A;
  normalize_dttm_col := @normalize_dttm_col A;
  infer_objects := @infer_objects A;
  find_by_ids := @find_by_ids A;
  find_by_id := @find_by_id A;
  get_viz := @get_viz A
|}.

(** A written value once the store has added its ["dttm"]. *)
Definition stamped (value : CacheValue) (dttm : string) : CacheValue :=
  mk_cache_value (cv_df value) (cv_query value) (cv_annotation_data value) (Some dttm).

(** X8. Round trip through the cache.  If a call returns after writing a
    value under a key, and the store then holds that value under that
    key with a ["dttm"] added, a later call on the same context and
    query object (not forced) returns the same table, query text and
    annotation data without querying the datasource, marked as cached
    with that ["dttm"] and status SUCCESS. *)
Theorem cache_round_trip (A : Ambient) self q force_cached force_cached'
    payload1 t1 key value timeout uid dttm (store : gmap string CacheValue) :
  force self = false ->
  run_get_df_payload (H := A) self q force_cached = (Ok payload1, t1) ->
  In (Ev_set_and_log_cache key value timeout uid) t1 ->
  exists payload2 t2,
    run_get_df_payload (H := with_data_cache A (Some (<[key := stamped value dttm]> store)))
        self q force_cached' = (Ok payload2, t2)
    /\ Payload.df payload2 = Payload.df payload1
    /\ Payload.query payload2 = Payload.query payload1
    /\ Payload.annotation_data payload2 = Payload.annotation_data payload1
    /\ Payload.status payload2 = Some SUCCESS
    /\ Payload.is_cached payload2 = true
    /\ Payload.cached_dttm payload2 = Some dttm
    /\ never is_datasource_query t2.
Proof.
  intros Hforce Hrun Hin.
  destruct (run_returned (H := A) _ _ _ _ _ Hrun) as (d1 & to1 & Hp1 & _ & Ht).
  destruct (cache_writes_of_run (H := A) self q force_cached to1 Ht)
    as [(l1 & Hs & Hk & Hw)|(_ & Hn)].
  2:{ exfalso. rewrite Hrun in Hn. cbn [snd] in Hn.
      apply never_existsb in Hn.
      assert (He : existsb is_cache_write t1 = true)
        by (apply existsb_exists; eexists; split; [exact Hin|reflexivity]).
      congruence. }
  rewrite Hrun in Hw. cbn [snd] in Hw.
  assert (Hev : In (Ev_set_and_log_cache key value timeout uid)
                   (List.filter is_cache_write t1))
    by (apply filter_In; split; [exact Hin|reflexivity]).
  rewrite Hw in Hev. destruct Hev as [[= <- <- <- <-]|[]].
  destruct Hs as (_ & Hqb & Hl & [t1' Hbody] & _).
  assert (Hbefore : (before_payload (H := A) self q).1 = l1).
  { unfold before_payload. rewrite Hqb, Hl. cbn [andb negb].
    unfold after_fetch. rewrite Hbody. reflexivity. }
  rewrite Hbefore in Hp1. subst payload1.
  destruct (query_cache_key (H := A) self q) as [k|] eqn:Hkey; [|discriminate].
  set (A' := with_data_cache A (Some (<[default "" (Some k) := stamped (written_value l1) dttm]> store))).
  assert (Hkey' : query_cache_key (H := A') self q = Some k) by exact Hkey.
  assert (Hfound : cache_entry_found (H := A') self q
                   = Some (stamped (written_value l1) dttm)).
  { unfold cache_entry_found. rewrite Hkey', Hforce. cbn [opt_str_truthy] in *.
    rewrite Hk. cbn. apply lookup_insert_eq. }
  eexists _, _.
  rewrite (run_get_df_payload_eq (H := A')), (get_df_payload_run (H := A')). cbn zeta.
  rewrite (cache_check_hit (H := A') self q _ _ _ Hfound eq_refl eq_refl).
  cbn [fst snd L.is_loaded negb]. rewrite !andb_false_r.
  rewrite (build_payload_run (H := A')). cbn [L.cache_value cached_dttm_of getitem stamped cv_dttm].
  change (cache_timeout (H := A') self) with (cache_timeout (H := A) self). rewrite Ht.
  cbn [fst snd]. split; [reflexivity|]. repeat split; reflexivity.
Qed.

(** * Further properties of get_query_result *)

Section QueryResult.
Context `{Ambient}.

(** X9. [get_query_result] raises exactly when the datasource's query
    raises, or the table is not empty and the timestamp normalization
    or the query object's post-processing raises; the exception is
    theirs, unchanged.  On an empty table nothing can raise once the
    datasource has answered. *)
Theorem get_query_result_raises_iff self q ex :
  outcome (get_query_result self q) = Raise ex <->
  ds_query (datasource self) q = Raise ex
  \/ exists r,
       ds_query (datasource self) q = Ok r
       /\ df_empty (qr_df r) = false
       /\ pipeline_in_order self q (qr_df r) = Raise ex.
Proof.
  unfold outcome.
  destruct (ds_query (datasource self) q) as [r|ex0] eqn:Hq.
  - assert (Hrhs : (Ok r = Raise ex
                    \/ exists r', Ok r = Ok r' /\ df_empty (qr_df r') = false
                                  /\ pipeline_in_order self q (qr_df r') = Raise ex)
                   <-> df_empty (qr_df r) = false
                       /\ pipeline_in_order self q (qr_df r) = Raise ex).
    { split.
      - intros [[=]|(r' & [= <-] & He & Hp)]. auto.
      - intros [He Hp]. right. exists r. auto. }
    rewrite Hrhs. clear Hrhs.
    destruct (df_empty (qr_df r)) eqn:He.
    + rewrite (get_query_result_empty _ _ _ _ _ Hq He). cbn.
      split; [discriminate|intros [[=] _]].
    + rewrite (get_query_result_nonempty _ _ _ _ _ Hq He).
      unfold pipeline_in_order.
      destruct (normalize_dttm_col _ _ _ _) as [d|ex1]; cbn.
      * destruct (exec_post_processing q _) as [d'|ex1]; cbn.
        -- split; [discriminate|intros [_ [=]]].
        -- split; [intros [= <-]; auto|intros [_ [= <-]]; reflexivity].
      * split; [intros [= <-]; auto|intros [_ [= <-]]; reflexivity].
  - rewrite (get_query_result_raise _ _ _ _ _ Hq). cbn. split.
    + intros [= <-]. left. reflexivity.
    + intros [[= <-]|(r & [=] & _)]. reflexivity.
Qed.

Lemma df_metrics_to_num_labels df q :
  df_index (df_metrics_to_num df q) = df_index df
  /\ map fst (df_columns (df_metrics_to_num df q)) = map fst (df_columns df).
Proof.
  unfold df_metrics_to_num. cbn [df_index df_columns]. split; [reflexivity|].
  induction (df_columns df) as [|[col s] rest IH]; [reflexivity|].
  cbn [map]. rewrite IH. destruct (is_object (dtype s) && _); reflexivity.
Qed.

Lemma df_replace_labels to_replace value df :
  df_index (df_replace to_replace value df) = df_index df
  /\ map fst (df_columns (df_replace to_replace value df)) = map fst (df_columns df).
Proof.
  unfold df_replace. cbn [df_index df_columns]. split; [reflexivity|].
  induction (df_columns df) as [|[col s] rest IH]; [reflexivity|].
  cbn [map]. rewrite IH. reflexivity.
Qed.

(** X10. The table handed to the query object's post-processing holds no
    infinite value, whatever the numeric coercion produced: the
    infinities are replaced after the coercion, and the index and the
    column labels are those of the normalized table. *)
Theorem post_processing_input_scrubbed self q r normalized :
  ds_query (datasource self) q = Ok r ->
  df_empty (qr_df r) = false ->
  normalize_dttm_col (qr_df r) (timestamp_format_of self q)
    (offset (datasource self)) (time_shift q) = Ok normalized ->
  exists input,
    outcome (get_query_result self q) =
      match exec_post_processing q input with
      | Ok df => Ok (with_df r df)
      | Raise ex => Raise ex
      end
    /\ df_index input = df_index normalized
    /\ map fst (df_columns input) = map fst (df_columns normalized)
    /\ forall name s c,
         In (name, s) (df_columns input) -> In c (values s) ->
         c <> c_inf /\ c <> c_neg_inf.
Proof.
  intros Hq He Hn.
  exists (df_replace [c_inf; c_neg_inf] c_nan (df_metrics_to_num normalized q)).
  split; [|split; [|split]].
  - unfold outcome. rewrite (get_query_result_nonempty _ _ _ _ _ Hq He).
    unfold pipeline_in_order. rewrite Hn.
    destruct (exec_post_processing q _); reflexivity.
  - destruct (df_replace_labels [c_inf; c_neg_inf] c_nan (df_metrics_to_num normalized q))
      as [-> _].
    apply df_metrics_to_num_labels.
  - destruct (df_replace_labels [c_inf; c_neg_inf] c_nan (df_metrics_to_num normalized q))
      as [_ ->].
    apply df_metrics_to_num_labels.
  - intros name s c. apply df_replace_scrubs.
Qed.

(** X11. [df_metrics_to_num] keeps the index, the column labels and
    their order, and touches only object-typed columns that are metrics:
    a table with no such column is returned unchanged. *)
Theorem df_metrics_to_num_frame df q :
  df_index (df_metrics_to_num df q) = df_index df
  /\ map fst (df_columns (df_metrics_to_num df q)) = map fst (df_columns df)
  /\ (forall i col s,
        nth_error (df_columns df) i = Some (col, s) ->
        is_object (dtype s) && str_in col (metric_names q) = false ->
        nth_error (df_columns (df_metrics_to_num df q)) i = Some (col, s))
  /\ ((forall col s, In (col, s) (df_columns df) ->
         is_object (dtype s) && str_in col (metric_names q) = false) ->
      df_metrics_to_num df q = df).
Proof.
  destruct (df_metrics_to_num_labels df q) as [Hi Hl].
  split; [exact Hi|]. split; [exact Hl|]. split.
  - unfold df_metrics_to_num. cbn [df_columns]. intros i col s Hnth Hno.
    rewrite nth_error_map, Hnth. cbn. rewrite Hno. reflexivity.
  - clear Hi Hl. intros Hall. destruct df as [idx cols]. unfold df_metrics_to_num.
    cbn [df_index df_columns] in *. apply (f_equal (mk_df idx)).
    induction cols as [|[col s] rest IH]; [reflexivity|].
    cbn [map]. rewrite (Hall col s) by (left; reflexivity).
    rewrite IH; [reflexivity|]. intros c s' Hin. apply Hall. right. exact Hin.
Qed.

End QueryResult.

(** * Further properties of the fetch *)

(** The table local [df] holds after the cache check: the entry's table
    when the entry has one, else the empty table it was initialised
    with. *)
Definition table_after_cache_check `{Ambient} (self : QueryContext) (q : QueryObject)
  : DataFrame :=
  match cache_entry_found self q with
  | Some entry => default pd_DataFrame (cv_df entry)
  | None => pd_DataFrame
  end.

Section Fetch.
Context `{Ambient}.

Lemma cache_check_locals self q :
  L.df (after_cache_check self q).1 = table_after_cache_check self q
  /\ (L.is_loaded (after_cache_check self q).1 = false ->
      L.query (after_cache_check self q).1 = ""
      /\ L.annotation_data (after_cache_check self q).1 = ∅).
Proof.
  unfold after_cache_check, table_after_cache_check, cache_entry_found, cache_check.
  destruct (opt_str_truthy (query_cache_key self q) && is_some data_cache
            && negb (force self)); eff_simpl; cbn; [|auto].
  destruct (data_cache_get (query_cache_key self q)) as [[d qy a dt]|]; cbn; [|auto].
  destruct d, qy, a, dt; cbn; split; auto; discriminate.
Qed.

(** X12. When the fetch ends without an exception the payload is the
    fetch: status, query text and error message of the datasource's
    response, the table [get_query_result] returned, the merged
    annotation data and no stack trace, whatever the status is. *)
Theorem fetched_payload self q force_cached qr annotation_data timeout dttm :
  opt_bool_truthy force_cached = false ->
  qo_bool q = true ->
  L.is_loaded (after_cache_check self q).1 = false ->
  invalid_columns self q = [] ->
  outcome (get_query_result self q) = Ok qr ->
  outcome (get_annotation_data self q) = Ok annotation_data ->
  cache_timeout self = Ok timeout ->
  cached_dttm_of (cache_entry_found self q) = Ok dttm ->
  exists t,
    run_get_df_payload self q force_cached =
      (Ok (Payload.mk (query_cache_key self q) dttm timeout (qr_df qr) annotation_data
             (qr_error_message qr) (is_some (cache_entry_found self q)) (qr_query qr)
             (Some (qr_status qr)) None (df_rowcount (qr_df qr))),
       t).
Proof.
  intros Hfc Hq Hl Hv Hqr Ha Ht Hd.
  destruct (cache_check_spec self q) as (_ & Hcv & _ & _ & Hst & _).
  destruct (run_returns self q force_cached timeout dttm Ht Hd) as (written & Hrun & _).
  { rewrite Hfc. reflexivity. }
  rewrite Hrun. eexists. f_equal. f_equal.
  unfold before_payload. rewrite Hq, Hl. cbn [andb negb].
  unfold after_fetch. rewrite fetch_body_run, Hv, Hqr, Ha. cbn [is_nil negb].
  unfold payload_of.
  destruct (negb (status_is_failed (qr_status qr))); cbn; rewrite Hcv, Hst; reflexivity.
Qed.

(** X13. When the column validation or the query of the datasource
    fails, the FAILED payload carries the table the locals held before
    the fetch: the empty table, or the table of a cache entry that was
    found but could not be used for want of a ["query"]; its query text
    and annotation data are empty. *)
Theorem failed_fetch_table self q force_cached timeout dttm :
  opt_bool_truthy force_cached = false ->
  qo_bool q = true ->
  L.is_loaded (after_cache_check self q).1 = false ->
  invalid_columns self q <> []
  \/ (exists ex, outcome (get_query_result self q) = Raise ex) ->
  cache_timeout self = Ok timeout ->
  cached_dttm_of (cache_entry_found self q) = Ok dttm ->
  exists payload t,
    run_get_df_payload self q force_cached = (Ok payload, t)
    /\ Payload.status payload = Some FAILED
    /\ Payload.df payload = table_after_cache_check self q
    /\ Payload.rowcount payload = df_rowcount (table_after_cache_check self q)
    /\ Payload.query payload = ""
    /\ Payload.annotation_data payload = ∅.
Proof.
  intros Hfc Hq Hl Hfail Ht Hd.
  destruct (cache_check_locals self q) as (Hdf & Hrest).
  destruct (Hrest Hl) as (Hquery & Hann).
  destruct (run_returns self q force_cached timeout dttm Ht Hd) as (written & Hrun & _).
  { rewrite Hfc. reflexivity. }
  rewrite Hrun. eexists _, _. split; [reflexivity|].
  unfold before_payload. rewrite Hq, Hl. cbn [andb negb].
  assert (Hbody : exists ex,
            fetch_body self q (after_cache_check self q).1 (after_cache_check self q).2
            = (Raise ex, (after_cache_check self q).1,
               (fetch_body self q (after_cache_check self q).1
                  (after_cache_check self q).2).2)).
  { rewrite fetch_body_run. destruct Hfail as [Hinv|[ex Hex]].
    - destruct (invalid_columns self q); [congruence|]. cbn. eauto.
    - destruct (negb (is_nil (invalid_columns self q))); [eauto|]. rewrite Hex. eauto. }
  destruct Hbody as [ex Hbody]. unfold after_fetch. rewrite Hbody. cbn [fst].
  unfold payload_of.
  cbn [Payload.status Payload.df Payload.rowcount Payload.query Payload.annotation_data].
  rewrite handled_status, handled_df, Hdf.
  assert (Hq' : L.query (handled ex (after_cache_check self q).1) = "").
  { unfold handled. destruct (isinstance ex _); [exact Hquery|].
    destruct (negb _); exact Hquery. }
  assert (Ha' : L.annotation_data (handled ex (after_cache_check self q).1) = ∅).
  { unfold handled. destruct (isinstance ex _); [exact Hann|].
    destruct (negb _); exact Hann. }
  rewrite Hq', Ha'. repeat split; reflexivity.
Qed.

End Fetch.

Section DerivedLayers.
Context `{Ambient}.

Lemma viz_layers_loop_abort force layer post ex :
  forall pre acc,
    Forall (fun l => exists d, outcome (get_viz_annotation_data l force) = Ok d) pre ->
    outcome (get_viz_annotation_data layer force) = Raise ex ->
    outcome (viz_layers_loop force (pre ++ layer :: post) acc) = Raise ex
    /\ events (viz_layers_loop force (pre ++ layer :: post) acc) =
         concat (map (fun l => events (get_viz_annotation_data l force)) pre)
         ++ events (get_viz_annotation_data layer force).
Proof.
  induction pre as [|l pre IH]; intros acc Hpre Hex; cbn [app map concat].
  - unfold outcome at 1, events at 1. cbn [viz_layers_loop]. eff_simpl.
    rewrite (get_viz_annotation_data_run layer force tt []), Hex. cbn. auto.
  - inversion Hpre as [|? ? [d Hd] Hrest]; subst.
    unfold outcome at 1, events at 1. cbn [viz_layers_loop]. eff_simpl.
    rewrite (get_viz_annotation_data_run l force tt []), Hd. cbn [fst snd app].
    rewrite viz_layers_loop_run. cbn [fst snd].
    destruct (IH (<[layer_name l := viz_result d]> acc) Hrest Hex) as [-> ->].
    rewrite app_assoc. auto.
Qed.

(** X20. The derived layers are rendered in request order and the merge
    stops at the first one that fails: [get_annotation_data] raises its
    exception, returns no partial mapping, and makes no chart lookup for
    the layers after it. *)
Theorem derived_layer_failure_aborts self q native pre layer post ex :
  outcome (get_native_annotation_data q) = Ok native ->
  List.filter is_derived (annotation_layers q) = pre ++ layer :: post ->
  Forall (fun l => exists d, outcome (get_viz_annotation_data l (force self)) = Ok d) pre ->
  outcome (get_viz_annotation_data layer (force self)) = Raise ex ->
  outcome (get_annotation_data self q) = Raise ex
  /\ events (get_annotation_data self q) =
       events (get_native_annotation_data q)
       ++ concat (map (fun l => events (get_viz_annotation_data l (force self))) pre)
       ++ events (get_viz_annotation_data layer (force self)).
Proof.
  intros Hn Hf Hpre Hex.
  destruct (viz_layers_loop_abort (force self) layer post ex pre native Hpre Hex)
    as [Ho He].
  unfold outcome at 1, events at 1. unfold get_annotation_data. eff_simpl.
  rewrite (get_native_annotation_data_run q tt []), Hn, Hf.
  rewrite viz_layers_loop_run, Ho, He. cbn. auto.
Qed.

End DerivedLayers.

(** * The rest of QueryContext: construction, whole-context cache key,
      get_payload and raise_for_access *)

(** The result types and formats; the module names [FULL], [CSV] and
    [JSON], the other members are kept by their string value.  They are
    string enumerations, so a member is truthy when its value is not
    empty. *)
Inductive ChartDataResultType : Type :=
| FULL
| result_type_member (value : string).

Inductive ChartDataResultFormat : Type :=
| CSV
| JSON
| result_format_member (value : string).

Definition result_type_truthy (t : ChartDataResultType) : bool :=
  match t with FULL => true | result_type_member value => str_truthy value end.

Definition result_format_truthy (f : ChartDataResultFormat) : bool :=
  match f with CSV | JSON => true | result_format_member value => str_truthy value end.

(** [x or default] on an optional enumeration member. *)
Definition or_default {A} (truthy : A -> bool) (x : option A) (default : A) : A :=
  match x with
  | Some a => if truthy a then a else default
  | None => default
  end.

(** The [datasource] argument of the constructor, a [DatasourceDict]
    with a string ["type"] and an integer ["id"]; on such a dict the
    subscripts succeed and [str] and [int] change nothing. *)
Record DatasourceDict : Type := mk_datasource_dict { dd_type : string; dd_id : Z }.

(** A query object as the request gives it, before the [QueryObject] constructor unpacks it. *)
Definition QueryDict : Type := list (string * string).

(** The values a cache dict holds. *)
Inductive cache_field : Type :=
| cf_datasource (d : DatasourceDict)
| cf_queries (qs : list QueryDict)
| cf_result_type (t : ChartDataResultType)
| cf_result_format (f : ChartDataResultFormat)
| cf_extra (rendered : string).

(** A Python dict with string keys, in insertion order. *)
Definition pydict : Type := list (string * cache_field).

Fixpoint dict_get (key : string) (d : pydict) : option cache_field :=
  match d with
  | [] => None
  | (k, v) :: rest => if String.eqb k key then Some v else dict_get key rest
  end.

(** [d[key] = value]: an existing key keeps its place. *)
Fixpoint dict_set (key : string) (value : cache_field) (d : pydict) : pydict :=
  match d with
  | [] => [(key, value)]
  | (k, v) :: rest =>
      if String.eqb k key then (k, value) :: rest else (k, v) :: dict_set key value rest
  end.

(** [d.update(other)] *)
Definition dict_update (d other : pydict) : pydict :=
  fold_left (fun acc '(k, v) => dict_set k v acc) other d.

(** A [QueryContext] object with the attributes the claims did not
    need. *)
Record QueryContextObject : Type := mk_object {
  qc : QueryContext;
  result_type : ChartDataResultType;
  result_format : ChartDataResultFormat;
  cache_values : pydict
}.

(** What [get_payload] writes to [cache_manager.cache]. *)
Record ContextWrite : Type := mk_context_write {
  cw_key : string;
  cw_data : pydict;            (* {"data": self.cache_values} *)
  cw_timeout : option Z
}.

(** The collaborators of construction, [get_payload] and
    [raise_for_access]. *)
Class Services : Type := {
  get_datasource : string -> Z -> result BaseDatasource;   (* ConnectorRegistry.get_datasource *)
  QueryObject_init : QueryDict -> result QueryObject;      (* the QueryObject constructor on the unpacked dict *)
  qo_result_type : QueryObject -> option ChartDataResultType;  (* query_obj.result_type *)
  validate : QueryObject -> result unit;                   (* query.validate() *)
  security_raise_for_access : QueryContextObject -> result unit;
  generate_cache_key : pydict -> string -> string;
  QueryResults : Type;
  (* superset.common.query_actions.get_query_results: what it returns or
     raises and the calls it makes *)
  get_query_results :
    ChartDataResultType -> QueryContextObject -> QueryObject -> bool
    -> result QueryResults * Trace
}.

(** Sequencing of calls that may raise. *)
Definition result_bind {A B} (r : result A) (k : A -> result B) : result B :=
  match r with Ok a => k a | Raise ex => Raise ex end.

(** [[f(x) for x in xs]] when [f] may raise. *)
Fixpoint result_map {A B} (f : A -> result B) (xs : list A) : result (list B) :=
  match xs with
  | [] => Ok []
  | x :: rest =>
      result_bind (f x) (fun y =>
      result_bind (result_map f rest) (fun ys => Ok (y :: ys)))
  end.

Module Obj.
Section Methods.
Context `{Ambient} `{Services}.

(** [QueryContext.__init__], from the call of the connector registry
    on, for a well-typed [datasource] argument. *)
Definition init (datasource : DatasourceDict) (queries : list QueryDict)
    (force : bool) (custom_cache_timeout : option Z)
    (result_type : option ChartDataResultType)
    (result_format : option ChartDataResultFormat) : result QueryContextObject :=
  result_bind (get_datasource (dd_type datasource) (dd_id datasource)) (fun ds =>
  result_bind (result_map QueryObject_init queries) (fun query_objects =>
  let result_type := or_default result_type_truthy result_type FULL in
  let result_format := or_default result_format_truthy result_format JSON in
  Ok (mk_object
        (mk_query_context ds query_objects force custom_cache_timeout)
        result_type
        result_format
        [("datasource", cf_datasource datasource);
         ("queries", cf_queries queries);
         ("result_type", cf_result_type result_type);
         ("result_format", cf_result_format result_format)]))).

(** [cache_key], [extra] being its keyword arguments *)
Definition cache_key (self : QueryContextObject) (extra : pydict) : string :=
  let key_prefix := "qc-" in
  let cache_dict := dict_update (cache_values self) extra in
  generate_cache_key cache_dict key_prefix.

(** The list comprehension of [get_payload]. *)
Fixpoint query_results_loop {S} (self : QueryContextObject) (force_cached : bool)
    (queries : list QueryObject) : Eff S (list QueryResults) :=
  match queries with
  | [] => mret []
  | query_obj :: rest =>
      r ← (fun s t =>
             let '(r, calls) :=
               get_query_results
                 (or_default result_type_truthy (qo_result_type query_obj) (result_type self))
                 self query_obj force_cached in
             (r, s, t ++ calls));
      rs ← query_results_loop self force_cached rest;
      mret (r :: rs)
  end.

(** The dict [get_payload] returns. *)
Record ReturnValue : Type := mk_return_value {
  rv_queries : list QueryResults;
  rv_cache_key : option string
}.

(** [get_payload]; the state is the list of writes made to
    [cache_manager.cache]. *)
Definition get_payload (self : QueryContextObject) (cache_query_context : option bool)
    (force_cached : bool) : Eff (list ContextWrite) ReturnValue :=
  query_results ← query_results_loop self force_cached (queries (qc self));
  if opt_bool_truthy cache_query_context then
    let cache_key := cache_key self [] in
    timeout ← lift (cache_timeout (qc self));
    modify (fun written => written ++ [mk_context_write cache_key (cache_values self) timeout]);;
    mret (mk_return_value query_results (Some cache_key))
  else mret (mk_return_value query_results None).

(** [raise_for_access] *)
Fixpoint validate_all (queries : list QueryObject) : result unit :=
  match queries with
  | [] => Ok tt
  | query :: rest => result_bind (validate query) (fun _ => validate_all rest)
  end.

Definition raise_for_access (self : QueryContextObject) : result unit :=
  result_bind (validate_all (queries (qc self))) (fun _ =>
  security_raise_for_access self).

End Methods.
End Obj.

Section ObjectProperties.
Context `{Ambient} `{Services}.

Lemma result_map_ok {A B} (f : A -> result B) xs :
  forall ys, result_map f xs = Ok ys <-> Forall2 (fun x y => f x = Ok y) xs ys.
Proof.
  induction xs as [|x rest IH]; intros ys; cbn.
  - split; [intros [= <-]; constructor|intros Hf; inversion Hf; reflexivity].
  - destruct (f x) as [y|ex] eqn:Hx; cbn.
    + destruct (result_map f rest) as [ys'|ex] eqn:Hr; cbn.
      * split.
        -- intros [= <-]. constructor; [exact Hx|]. apply IH. reflexivity.
        -- intros Hf. inversion Hf as [|x0 y0 l l' Hy Hl]; subst.
           rewrite Hx in Hy. injection Hy as <-.
           apply IH in Hl. injection Hl as <-. reflexivity.
      * split; [discriminate|].
        intros Hf. inversion Hf as [|x0 y0 l l' Hy Hl]; subst.
        apply IH in Hl. discriminate.
    + split; [discriminate|].
      intros Hf. inversion Hf as [|x0 y0 l l' Hy Hl]; subst. congruence.
Qed.

Lemma result_map_raise {A B} (f : A -> result B) xs ex :
  result_map f xs = Raise ex <->
  exists pre x post,
    xs = pre ++ x :: post
    /\ Forall (fun x => exists y, f x = Ok y) pre
    /\ f x = Raise ex.
Proof.
  induction xs as [|x rest IH]; cbn.
  - split; [discriminate|]. intros (pre & x & post & He & _). destruct pre; discriminate.
  - destruct (f x) as [y|ex0] eqn:Hx; cbn.
    + destruct (result_map f rest) as [ys|ex1] eqn:Hr; cbn.
      * split; [discriminate|].
        intros (pre & x' & post & He & Hpre & Hx').
        destruct pre as [|p pre]; cbn in He; injection He as -> ->; [congruence|].
        assert (Hsome : Ok ys = Raise ex); [|discriminate].
        apply IH. inversion Hpre; subst. eauto 6.
      * split.
        -- intros [= <-]. destruct (proj1 IH eq_refl) as (pre & x' & post & -> & Hpre & Hx').
           exists (x :: pre), x', post. split; [reflexivity|]. split; [|exact Hx'].
           constructor; eauto.
        -- intros (pre & x' & post & He & Hpre & Hx').
           destruct pre as [|p pre]; cbn in He; injection He as -> ->; [congruence|].
           apply IH. inversion Hpre; subst. eauto 6.
    + split.
      * intros [= <-]. exists [], x, rest. split; [reflexivity|]. split; [constructor|exact Hx].
      * intros (pre & x' & post & He & Hpre & Hx').
        destruct pre as [|p pre]; cbn in He; injection He as -> ->; [congruence|].
        inversion Hpre as [|? ? [y Hy] ?]; subst. congruence.
Qed.

(** A constructed context holds the datasource the registry returned
    and one query object per query dict, in request order; a missing
    result type is [FULL] and a missing result format is [JSON]. *)
Lemma init_builds ds_dict query_dicts forced timeout_override
    requested_type requested_format self :
  Obj.init ds_dict query_dicts forced timeout_override requested_type requested_format = Ok self ->
  get_datasource (dd_type ds_dict) (dd_id ds_dict) = Ok (datasource (qc self))
  /\ Forall2 (fun d q => QueryObject_init d = Ok q) query_dicts (queries (qc self))
  /\ length (queries (qc self)) = length query_dicts
  /\ force (qc self) = forced
  /\ custom_cache_timeout (qc self) = timeout_override
  /\ (requested_type = None -> result_type self = FULL)
  /\ (requested_format = None -> result_format self = JSON)
  /\ cache_values self =
       [("datasource", cf_datasource ds_dict);
        ("queries", cf_queries query_dicts);
        ("result_type", cf_result_type (result_type self));
        ("result_format", cf_result_format (result_format self))].
Proof.
  unfold Obj.init.
  destruct (get_datasource _ _) as [ds|ex0]; cbn; [|discriminate].
  destruct (result_map QueryObject_init query_dicts) as [qs|ex1] eqn:Hm; cbn; [|discriminate].
  intros [= <-]. cbn. apply result_map_ok in Hm.
  split; [reflexivity|]. split; [exact Hm|]. split.
  - symmetry. eapply Forall2_length. exact Hm.
  - repeat split; intros ->; reflexivity.
Qed.

End ObjectProperties.

Section CacheKey.
Context `{Ambient} `{Services}.

Lemma dict_get_set key k value d :
  dict_get key (dict_set k value d) =
    if String.eqb k key then Some value else dict_get key d.
Proof.
  induction d as [|[k0 v0] rest IH]; cbn.
  - reflexivity.
  - destruct (String.eqb k0 k) eqn:Hk; cbn.
    + apply String.eqb_eq in Hk. subst k0.
      destruct (String.eqb k key); reflexivity.
    + destruct (String.eqb k0 key) eqn:Hk0; [|exact IH].
      apply String.eqb_eq in Hk0. subst k0.
      rewrite String.eqb_sym in Hk. rewrite Hk. reflexivity.
Qed.

Lemma dict_get_update key other :
  forall d,
    dict_get key (dict_update d other) =
      match dict_get key (rev other) with
      | Some v => Some v
      | None => dict_get key d
      end.
Proof.
  unfold dict_update. induction other as [|[k v] rest IH]; intros d; cbn.
  - reflexivity.
  - rewrite IH, dict_get_set.
    assert (Happ : forall l1 l2, dict_get key (l1 ++ l2) =
              match dict_get key l1 with Some x => Some x | None => dict_get key l2 end).
    { induction l1 as [|[k1 v1] l1 IHl]; intros l2; cbn; [reflexivity|].
      destruct (String.eqb k1 key); [reflexivity|apply IHl]. }
    rewrite Happ. cbn. destruct (dict_get key (rev rest)); [reflexivity|].
    destruct (String.eqb k key); reflexivity.
Qed.

Lemma dict_set_same k value d :
  dict_get k d = Some value -> dict_set k value d = d.
Proof.
  induction d as [|[k0 v0] rest IH]; cbn; [discriminate|].
  destruct (String.eqb k0 k); [intros [= ->]; reflexivity|].
  intros Hg. rewrite IH by exact Hg. reflexivity.
Qed.

Lemma dict_update_same other :
  forall d,
    (forall k v, In (k, v) other -> dict_get k d = Some v) ->
    dict_update d other = d.
Proof.
  unfold dict_update. induction other as [|[k v] rest IH]; intros d Hall; cbn.
  - reflexivity.
  - rewrite dict_set_same by (apply Hall; left; reflexivity).
    apply IH. intros k' v' Hin. apply Hall. right. exact Hin.
Qed.

(** X15. The whole-context cache key depends on the request's
    datasource and query dicts and on the result type and format after
    defaulting, and on nothing else: two contexts built from the same
    dicts have the same key for the same extra arguments whatever their
    force flag and timeout override, and a missing result type or
    format gives the key of [FULL] or [JSON]. *)
Theorem cache_key_of_request ds_dict query_dicts forced1 forced2 timeout1 timeout2
    type1 type2 format1 format2 self1 self2 :
  Obj.init ds_dict query_dicts forced1 timeout1 type1 format1 = Ok self1 ->
  Obj.init ds_dict query_dicts forced2 timeout2 type2 format2 = Ok self2 ->
  or_default result_type_truthy type1 FULL = or_default result_type_truthy type2 FULL ->
  or_default result_format_truthy format1 JSON = or_default result_format_truthy format2 JSON ->
  forall extra, Obj.cache_key self1 extra = Obj.cache_key self2 extra.
Proof.
  unfold Obj.init. destruct (get_datasource _ _) as [ds|ex0]; cbn; [|discriminate].
  destruct (result_map QueryObject_init query_dicts) as [qs|ex1]; cbn; [|discriminate].
  intros [= <-] [= <-] Ht Hf extra. unfold Obj.cache_key. cbn [cache_values].
  rewrite Ht, Hf. reflexivity.
Qed.

(** X16. The dict that is hashed is the cache values updated with the
    extra arguments: under every key it holds the extra argument of that
    name if there is one, else the cache value; extra arguments that
    repeat cache values leave the key as it is without them. *)
Theorem cache_key_extra self extra :
  (exists cache_dict,
      Obj.cache_key self extra = generate_cache_key cache_dict "qc-"
      /\ forall key,
           dict_get key cache_dict =
             match dict_get key (rev extra) with
             | Some value => Some value
             | None => dict_get key (cache_values self)
             end)
  /\ ((forall key value, In (key, value) extra ->
         dict_get key (cache_values self) = Some value) ->
      Obj.cache_key self extra = Obj.cache_key self []).
Proof.
  split.
  - eexists. split; [reflexivity|]. intros key. apply dict_get_update.
  - intros Hall. unfold Obj.cache_key. rewrite dict_update_same by exact Hall. reflexivity.
Qed.

End CacheKey.

Section WholeContext.
Context `{Ambient} `{Services}.

(** What [get_query_results] is called with for a query object. *)
Definition query_results_of (self : QueryContextObject) (force_cached : bool)
    (query_obj : QueryObject) : result QueryResults * Trace :=
  get_query_results
    (or_default result_type_truthy (qo_result_type query_obj) (result_type self))
    self query_obj force_cached.

(** The calls made for a list of query objects, up to and including the
    first one that raises. *)
Fixpoint calls_until_raise (self : QueryContextObject) (force_cached : bool)
    (queries : list QueryObject) : Trace :=
  match queries with
  | [] => []
  | query_obj :: rest =>
      (query_results_of self force_cached query_obj).2
      ++ match (query_results_of self force_cached query_obj).1 with
         | Ok _ => calls_until_raise self force_cached rest
         | Raise _ => []
         end
  end.

Lemma query_results_loop_run self force_cached queries :
  forall S (s : S) t,
    Obj.query_results_loop self force_cached queries s t =
      (result_map (fun q => (query_results_of self force_cached q).1) queries,
       s, t ++ calls_until_raise self force_cached queries).
Proof.
  induction queries as [|q rest IH]; intros S s t.
  - cbn. rewrite app_nil_r. reflexivity.
  - cbn [Obj.query_results_loop result_map calls_until_raise]. eff_simpl.
    fold (query_results_of self force_cached q).
    destruct (query_results_of self force_cached q) as [[r|ex] calls]; cbn.
    + rewrite IH.
      destruct (result_map _ rest); cbn; rewrite <- app_assoc; reflexivity.
    + rewrite app_nil_r. reflexivity.
Qed.

Lemma calls_until_raise_app self force_cached pre :
  forall rest,
    Forall (fun q => exists r, (query_results_of self force_cached q).1 = Ok r) pre ->
    calls_until_raise self force_cached (pre ++ rest) =
      concat (map (fun q => (query_results_of self force_cached q).2) pre)
      ++ calls_until_raise self force_cached rest.
Proof.
  induction pre as [|q pre IH]; intros rest Hpre; cbn; [reflexivity|].
  inversion Hpre as [|? ? [r Hr] Hrest]; subst. rewrite Hr, IH by exact Hrest.
  rewrite app_assoc. reflexivity.
Qed.

(** X17. When [get_payload] returns, its results are those of
    [get_query_results] on the context's query objects, one each and in
    order, each asked for the query object's own result type if it has
    one and the context's otherwise.  With [cache_query_context] set the
    cache values are written once under the whole-context key with the
    resolved timeout and the key is returned; without it nothing is
    written and no key is returned. *)
Theorem get_payload_returns self cache_query_context force_cached written t
    return_value written' t' :
  Obj.get_payload self cache_query_context force_cached written t
    = (Ok return_value, written', t') ->
  Forall2 (fun q r => (query_results_of self force_cached q).1 = Ok r)
          (queries (qc self)) (Obj.rv_queries return_value)
  /\ t' = t ++ concat (map (fun q => (query_results_of self force_cached q).2)
                           (queries (qc self)))
  /\ (opt_bool_truthy cache_query_context = true ->
      Obj.rv_cache_key return_value = Some (Obj.cache_key self [])
      /\ exists timeout,
           cache_timeout (qc self) = Ok timeout
           /\ written' = written ++ [mk_context_write (Obj.cache_key self [])
                                       (cache_values self) timeout])
  /\ (opt_bool_truthy cache_query_context = false ->
      Obj.rv_cache_key return_value = None /\ written' = written).
Proof.
  unfold Obj.get_payload. eff_simpl. rewrite query_results_loop_run.
  destruct (result_map _ (queries (qc self))) as [rs|ex] eqn:Hm; [|discriminate].
  apply result_map_ok in Hm.
  assert (Hcalls : calls_until_raise self force_cached (queries (qc self)) =
                   concat (map (fun q => (query_results_of self force_cached q).2)
                               (queries (qc self)))).
  { rewrite <- (app_nil_r (queries (qc self))) at 1.
    rewrite calls_until_raise_app; [apply app_nil_r|].
    clear -Hm. induction Hm; constructor; eauto. }
  rewrite Hcalls.
  destruct (opt_bool_truthy cache_query_context).
  - destruct (cache_timeout (qc self)) as [timeout|ex]; [|discriminate].
    intros [= <- <- <-]. cbn. repeat split; try discriminate; eauto.
  - intros [= <- <- <-]. cbn. repeat split; try discriminate; auto.
Qed.

(** X18. When [get_payload] raises, the whole-context entry has not
    been written to [cache_manager.cache]; what the query objects that
    ran did, their own cache writes included, stays in the log.  Either
    a query failed: the exception is that of the first failing query
    object and the query objects after it were not run; or every query
    succeeded and resolving the cache timeout raised. *)
Theorem get_payload_raises self cache_query_context force_cached written t
    ex written' t' :
  Obj.get_payload self cache_query_context force_cached written t
    = (Raise ex, written', t') ->
  written' = written
  /\ ((exists pre query_obj post,
          queries (qc self) = pre ++ query_obj :: post
          /\ Forall (fun q => exists r, (query_results_of self force_cached q).1 = Ok r) pre
          /\ (query_results_of self force_cached query_obj).1 = Raise ex
          /\ t' = t ++ concat (map (fun q => (query_results_of self force_cached q).2) pre)
                    ++ (query_results_of self force_cached query_obj).2)
      \/ (Forall (fun q => exists r, (query_results_of self force_cached q).1 = Ok r)
                 (queries (qc self))
          /\ opt_bool_truthy cache_query_context = true
          /\ cache_timeout (qc self) = Raise ex)).
Proof.
  unfold Obj.get_payload. eff_simpl. rewrite query_results_loop_run.
  destruct (result_map _ (queries (qc self))) as [rs|ex0] eqn:Hm.
  - apply result_map_ok in Hm.
    destruct (opt_bool_truthy cache_query_context); [|discriminate].
    destruct (cache_timeout (qc self)) as [timeout|ex1]; [discriminate|].
    intros [= <- <- <-]. split; [reflexivity|]. right.
    split; [|auto]. clear -Hm. induction Hm; constructor; eauto.
  - intros [= <- <- <-]. split; [reflexivity|]. left.
    apply result_map_raise in Hm as (pre & q & post & Hq & Hpre & Hex).
    exists pre, q, post. repeat split; try assumption.
    rewrite Hq, calls_until_raise_app by exact Hpre.
    cbn [calls_until_raise]. rewrite Hex, app_nil_r. reflexivity.
Qed.

(** X19. [raise_for_access] succeeds exactly when every query object
    validates and the security manager grants access; validation comes
    first, so the exception of the first query object that fails to
    validate is raised whatever the security manager would answer. *)
Theorem raise_for_access_outcome self :
  (Obj.raise_for_access self = Ok tt <->
   Forall (fun q => validate q = Ok tt) (queries (qc self))
   /\ security_raise_for_access self = Ok tt)
  /\ (forall pre query post ex,
        queries (qc self) = pre ++ query :: post ->
        Forall (fun q => validate q = Ok tt) pre ->
        validate query = Raise ex ->
        Obj.raise_for_access self = Raise ex).
Proof.
  unfold Obj.raise_for_access. split.
  - generalize (queries (qc self)). intros qs.
    induction qs as [|q rest IH]; cbn.
    + split; [intros Hs; split; [constructor|exact Hs]|intros [_ Hs]; exact Hs].
    + destruct (validate q) as [[]|ex] eqn:Hv; cbn.
      * rewrite IH. split.
        -- intros [Hr Hs]. split; [constructor; assumption|exact Hs].
        -- intros [Hr Hs]. inversion Hr; subst. auto.
      * split; [discriminate|]. intros [Hr _]. inversion Hr; subst. congruence.
  - intros pre query post ex -> Hpre Hv.
    induction Hpre as [|q pre Hq Hpre IH]; cbn.
    + rewrite Hv. reflexivity.
    + rewrite Hq. cbn. exact IH.
Qed.

End WholeContext.

(** * The further properties on scenarios *)

Module MoreScenarios.

(** The collaborators of [Scenario], around a given data cache,
    annotation-layer store and visualization outcome. *)
Definition ambient_of (store : option (gmap string CacheValue))
    (layers_store : list Z -> list AnnotationLayer)
    (rendering : result BaseViz) : Ambient := {|
  CACHE_DEFAULT_TIMEOUT := 86400;
  DTTM_ALIAS := "__timestamp";
  data_cache := store;
  row_level_security := false;
  get_rls_ids := fun _ => [];
  gettext := fun message => message;
  gettext_names := fun template names =>
    (template ++ " % [" ++ String.concat ", " names ++ "]")%string;
  error_msg_from_exception := exn_str;
  get_column_names_from_metrics :=
    map (fun m => match m with saved_metric n => n | adhoc_metric c _ => c end);
  get_stacktrace := fun ex => Some ("Traceback: " ++ exn_str ex)%string;
  normalize_dttm_col := fun df _ _ _ => Ok df;
  infer_objects := fun s => mk_series dt_float64 (values s);
  find_by_ids := layers_store;
  find_by_id := fun id => if Z.eqb id 7 then Some (mk_slice [] "table" 3) else None;
  get_viz := fun _ _ _ _ => rendering
|}.

(** A store that knows layer 1 only. *)
Definition only_layer_1 (ids : list Z) : list AnnotationLayer :=
  map (fun id => mk_annotation_layer id [mk_annotation 0 1 "closed" "bank holiday" "{}"])
      (List.filter (Z.eqb 1) ids).

Definition rendered : result BaseViz :=
  Ok (mk_viz (Ok (mk_viz_payload (Some (viz_data "line"))))).

Definition timed_out : result BaseViz :=
  Raise (mk_exn SupersetException "query timed out").

Definition two_natives : list Layer :=
  [mk_layer "Holidays" "NATIVE" 1; mk_layer "Gone" "NATIVE" 9].

Definition fresh : CacheValue :=
  mk_cache_value (Some sales) (Some "SELECT sales FROM t") None (Some "2020-01-01T00:00:00").

Definition forced_context : QueryContext :=
  mk_query_context (table main_db (answered sales SUCCESS None)) [] true None.

Definition keyless (cols : list string) : QueryObject :=
  mk_query_object true cols [] None [] None None [] (fun df => Ok df) (fun _ => None).

End MoreScenarios.
Import MoreScenarios.

Lemma native_layer_not_found_witness :
  outcome (get_native_annotation_data (H := ambient_of None only_layer_1 rendered)
             (query_object ["sales"] None two_natives))
    = Raise (mk_exn KeyError "9")
  /\ isinstance (mk_exn KeyError "9") QueryObjectValidationError = false.
Proof.
  apply (native_layer_not_found (H := ambient_of None only_layer_1 rendered)
           (query_object ["sales"] None two_natives)
           [mk_layer "Holidays" "NATIVE" 1] (mk_layer "Gone" "NATIVE" 9) []).
  - reflexivity.
  - intros l [<-|[]]. left. reflexivity.
  - intros [Hin|[]]. discriminate Hin.
Defined.

Lemma native_annotation_data_lookup_witness :
  exists m,
    outcome (get_native_annotation_data (H := ambient None)
               (query_object ["sales"] None holidays)) = Ok m
    /\ m !! "Holidays" =
         Some (native_result
                 ["start_dttm"; "end_dttm"; "short_descr"; "long_descr"; "json_metadata"]
                 [[("start_dttm", fv_dttm 0); ("end_dttm", fv_dttm 1);
                   ("short_descr", fv_text "closed");
                   ("long_descr", fv_text "bank holiday");
                   ("json_metadata", fv_text "{}")]])
    /\ m !! "Trend" = None.
Proof.
  destruct (outcome (get_native_annotation_data (H := ambient None)
                       (query_object ["sales"] None holidays))) as [m|ex] eqn:Hm.
  2:{ vm_compute in Hm. discriminate. }
  exists m. split; [reflexivity|].
  pose proof (native_annotation_data_lookup (H := ambient None) _ _ Hm "Holidays") as Hh.
  pose proof (native_annotation_data_lookup (H := ambient None) _ _ Hm "Trend") as Ht.
  cbn in Hh, Ht. destruct Hh as (o & [Ho|[]] & _ & Hlook). subst o.
  split; [exact Hlook|exact Ht].
Defined.

Lemma viz_exceptions_translated_witness :
  outcome (get_viz_annotation_data (H := ambient_of None only_layer_1 timed_out)
             (mk_layer "Trend" "line" 7) false)
    = Raise (mk_exn QueryObjectValidationError "query timed out").
Proof.
  destruct (viz_exceptions_translated (H := ambient_of None only_layer_1 timed_out)
              (mk_layer "Trend" "line" 7) false (mk_slice [] "table" 3) eq_refl)
    as (Hraise & _ & _).
  apply (Hraise (mk_exn SupersetException "query timed out")). reflexivity.
Defined.

Lemma cache_hit_served_witness :
  run_get_df_payload (H := ambient (Some {["key1" := fresh]}))
      (context main_db (Raise (mk_exn Exception "connection refused")))
      (query_object ["revenue"] None []) (Some true)
  = (Ok (Payload.mk (Some "key1") (Some "2020-01-01T00:00:00") (Some 86400) sales ∅
           None true "SELECT sales FROM t" (Some SUCCESS) None 2%nat),
     [Ev_log "info" "Cache key: %s"; Ev_cache_get "key1";
      Ev_stats_incr "loading_from_cache"; Ev_stats_incr "loaded_from_cache";
      Ev_log "info" "Serving from cache"]).
Proof.
  apply (cache_hit_served (H := ambient (Some {["key1" := fresh]}))
           (context main_db (Raise (mk_exn Exception "connection refused")))
           (query_object ["revenue"] None []) (Some true)
           fresh sales "SELECT sales FROM t" "2020-01-01T00:00:00" (Some 86400));
    vm_compute; reflexivity.
Defined.

Lemma force_bypasses_cache_witness :
  never is_cache_get
    (run_get_df_payload (H := ambient (Some {["key1" := fresh]})) forced_context
       (query_object ["sales"] None []) None).2
  /\ In Ev_datasource_query
       (run_get_df_payload (H := ambient (Some {["key1" := fresh]})) forced_context
          (query_object ["sales"] None []) None).2.
Proof.
  destruct (force_bypasses_cache (H := ambient (Some {["key1" := fresh]})) forced_context
              (query_object ["sales"] None []) None eq_refl) as (Hn & _ & Hq).
  split; [exact Hn|]. apply Hq; reflexivity.
Defined.

Lemma no_key_no_caching_witness :
  never is_cache_get
    (run_get_df_payload (H := ambient (Some {["key1" := fresh]}))
       (context main_db (answered sales SUCCESS None)) (keyless ["sales"]) None).2
  /\ never is_cache_write
       (run_get_df_payload (H := ambient (Some {["key1" := fresh]}))
          (context main_db (answered sales SUCCESS None)) (keyless ["sales"]) None).2.
Proof.
  destruct (no_key_no_caching (H := ambient (Some {["key1" := fresh]}))
              (context main_db (answered sales SUCCESS None)) (keyless ["sales"]) None
              eq_refl) as (Hg & Hw & _).
  split; assumption.
Defined.

Lemma post_processing_input_scrubbed_witness :
  exists input,
    outcome (get_query_result (H := ambient None)
               (context main_db (answered sales SUCCESS None))
               (query_object ["sales"] None []))
      = Ok (mk_query_result input "SELECT sales FROM t" SUCCESS None)
    /\ forall name s c,
         In (name, s) (df_columns input) -> In c (values s) ->
         c <> c_inf /\ c <> c_neg_inf.
Proof.
  destruct (post_processing_input_scrubbed (H := ambient None)
              (context main_db (answered sales SUCCESS None))
              (query_object ["sales"] None [])
              (mk_query_result sales "SELECT sales FROM t" SUCCESS None) sales
              eq_refl eq_refl eq_refl) as (input & Ho & _ & _ & Hfin).
  exists input. split; [exact Ho|exact Hfin].
Defined.

Lemma fetched_payload_witness :
  exists t,
    run_get_df_payload (H := ambient (Some ∅))
        (context main_db (answered no_rows FAILED (Some "syntax error")))
        (query_object ["sales"] None []) None
    = (Ok (Payload.mk (Some "key1") None (Some 86400) no_rows ∅ (Some "syntax error")
             false "SELECT sales FROM t" (Some FAILED) None 0%nat),
       t).
Proof.
  destruct (fetched_payload (H := ambient (Some ∅))
              (context main_db (answered no_rows FAILED (Some "syntax error")))
              (query_object ["sales"] None []) None
              (mk_query_result no_rows "SELECT sales FROM t" FAILED (Some "syntax error"))
              ∅ (Some 86400) None) as [t Ht];
    try (vm_compute; reflexivity).
  exists t. rewrite Ht. apply (f_equal (fun p => (Ok p, t))). vm_compute. reflexivity.
Defined.

Lemma failed_fetch_table_witness :
  exists payload t,
    run_get_df_payload (H := ambient (Some {["key1" := stale]}))
        (context main_db (Raise (mk_exn Exception "connection refused")))
        (query_object ["sales"] None []) None
    = (Ok payload, t)
    /\ Payload.status payload = Some FAILED
    /\ Payload.df payload = sales
    /\ Payload.rowcount payload = 2%nat.
Proof.
  destruct (failed_fetch_table (H := ambient (Some {["key1" := stale]}))
              (context main_db (Raise (mk_exn Exception "connection refused")))
              (query_object ["sales"] None []) None (Some 86400)
              (Some "2020-01-01T00:00:00"))
    as (payload & t & Hrun & Hs & Hdf & Hrows & _);
    try (vm_compute; reflexivity).
  { right. eexists. vm_compute. reflexivity. }
  exists payload, t. repeat split; assumption.
Defined.

Lemma derived_layer_failure_aborts_witness :
  outcome (get_annotation_data (H := ambient None)
             (context main_db (answered sales SUCCESS None))
             (query_object ["sales"] None
                [mk_layer "Trend" "line" 7; mk_layer "Lost" "table" 8;
                 mk_layer "Later" "line" 7]))
    = Raise (mk_exn AttributeError "'NoneType' object has no attribute 'form_data'")
  /\ events (get_annotation_data (H := ambient None)
               (context main_db (answered sales SUCCESS None))
               (query_object ["sales"] None
                  [mk_layer "Trend" "line" 7; mk_layer "Lost" "table" 8;
                   mk_layer "Later" "line" 7]))
     = [Ev_find_annotation_layers []; Ev_find_chart 7; Ev_get_viz 3 false; Ev_find_chart 8].
Proof.
  apply (derived_layer_failure_aborts (H := ambient None)
           (context main_db (answered sales SUCCESS None))
           (query_object ["sales"] None
              [mk_layer "Trend" "line" 7; mk_layer "Lost" "table" 8;
               mk_layer "Later" "line" 7])
           ∅ [mk_layer "Trend" "line" 7] (mk_layer "Lost" "table" 8)
           [mk_layer "Later" "line" 7]).
  - reflexivity.
  - reflexivity.
  - constructor; [|constructor]. eexists. reflexivity.
  - reflexivity.
Defined.

(** The table of [Scenario.sales] after the pipeline, and the entry a
    first call writes for it. *)
Definition scrubbed_sales : DataFrame :=
  mk_df [0; 1] [("sales", mk_series dt_float64 [c_nan; c_int 3])].

Definition first_write : CacheValue :=
  mk_cache_value (Some scrubbed_sales) (Some "SELECT sales FROM t") (Some ∅) None.

Lemma cache_round_trip_witness :
  exists payload2 t2,
    run_get_df_payload
        (H := with_data_cache (ambient (Some ∅))
                (Some (<["key1" := stamped first_write "2021-06-01T12:00:00"]> ∅)))
        (context main_db (answered sales SUCCESS None))
        (query_object ["sales"] None []) (Some true)
      = (Ok payload2, t2)
    /\ Payload.df payload2 = scrubbed_sales
    /\ Payload.is_cached payload2 = true
    /\ Payload.cached_dttm payload2 = Some "2021-06-01T12:00:00"
    /\ never is_datasource_query t2.
Proof.
  destruct (run_get_df_payload (H := ambient (Some ∅))
              (context main_db (answered sales SUCCESS None))
              (query_object ["sales"] None []) None) as [[payload1|ex] t1] eqn:Hrun.
  2:{ vm_compute in Hrun. discriminate. }
  pose proof Hrun as Hc. vm_compute in Hc. injection Hc as Hp Ht.
  assert (Hin : In (Ev_set_and_log_cache "key1" first_write (Some 86400) "1__table") t1).
  { rewrite <- Ht. do 8 right. left. reflexivity. }
  destruct (cache_round_trip (ambient (Some ∅))
              (context main_db (answered sales SUCCESS None))
              (query_object ["sales"] None []) None (Some true)
              payload1 t1 "key1" first_write (Some 86400) "1__table"
              "2021-06-01T12:00:00" ∅ eq_refl Hrun Hin)
    as (payload2 & t2 & Hrun2 & Hdf & _ & _ & _ & Hc2 & Hd & Hn).
  exists payload2, t2. split; [exact Hrun2|]. split; [|auto].
  rewrite Hdf, <- Hp. reflexivity.
Defined.

Module ObjectScenario.

(** A registry that knows datasource 1, a constructor that rejects empty
    query dicts, and query results that fail on a query object without
    columns. *)
Definition services : Services := {|
  get_datasource := fun _ id =>
    if Z.eqb id 1 then Ok (table main_db (answered sales SUCCESS None))
    else Raise (mk_exn SupersetException "Dataset not found");
  QueryObject_init := fun query =>
    match query with
    | [] => Raise (mk_exn Exception "empty query")
    | _ => Ok (query_object (map snd query) None [])
    end;
  qo_result_type := fun _ => None;
  validate := fun query =>
    if is_nil (columns query) then Raise (mk_exn QueryObjectValidationError "no columns")
    else Ok tt;
  security_raise_for_access := fun _ => Ok tt;
  generate_cache_key := fun cache_dict prefix =>
    (prefix ++ String.concat "," (map fst cache_dict))%string;
  QueryResults := string;
  get_query_results := fun _ _ query _ =>
    if is_nil (columns query)
    then (Raise (mk_exn Exception "nothing to select"), [Ev_log "error" "query failed"])
    else (Ok (String.concat "," (columns query)), [Ev_datasource_query])
|}.

Definition request : DatasourceDict := mk_datasource_dict "table" 1.

Definition object_of (queries : list QueryObject) : QueryContextObject :=
  mk_object
    (mk_query_context (table main_db (answered sales SUCCESS None)) queries false None)
    FULL JSON
    [("datasource", cf_datasource request); ("queries", cf_queries []);
     ("result_type", cf_result_type FULL); ("result_format", cf_result_format JSON)].

End ObjectScenario.
Import ObjectScenario.

Lemma cache_key_of_request_witness :
  exists self1 self2,
    Obj.init (H0 := services) request [[("column", "sales")]]
         false None None None = Ok self1
    /\ Obj.init (H0 := services) request [[("column", "sales")]]
            true (Some 60) (Some FULL) (Some JSON) = Ok self2
    /\ Obj.cache_key (H0 := services) self1 [] = Obj.cache_key (H0 := services) self2 [].
Proof.
  eexists _, _. split; [reflexivity|]. split; [reflexivity|].
  apply (cache_key_of_request (H0 := services)
           request [[("column", "sales")]] false true None (Some 60)
           None (Some FULL) None (Some JSON)); reflexivity.
Defined.

Lemma get_payload_returns_witness :
  exists return_value written' t',
    Obj.get_payload (H := ambient None) (H0 := services)
        (object_of [query_object ["region"] None []; query_object ["sales"] None []])
        (Some true) false [] []
      = (Ok return_value, written', t')
    /\ Obj.rv_cache_key return_value = Some "qc-datasource,queries,result_type,result_format"
    /\ t' = [Ev_datasource_query; Ev_datasource_query]
    /\ length written' = 1%nat.
Proof.
  destruct (Obj.get_payload (H := ambient None) (H0 := services)
              (object_of [query_object ["region"] None []; query_object ["sales"] None []])
              (Some true) false [] []) as [[[rv|ex] w] t] eqn:Hrun.
  2:{ vm_compute in Hrun. discriminate. }
  destruct (get_payload_returns (H := ambient None) (H0 := services) _ _ _ _ _ _ _ _ Hrun)
    as (_ & Ht & Hw & _).
  destruct (Hw eq_refl) as (Hk & timeout & _ & Hwritten).
  exists rv, w, t. split; [reflexivity|]. split; [rewrite Hk; reflexivity|].
  split; [rewrite Ht; reflexivity|rewrite Hwritten; reflexivity].
Defined.

Lemma get_payload_raises_witness :
  exists ex written' t',
    Obj.get_payload (H := ambient None) (H0 := services)
        (object_of [query_object ["region"] None []; query_object [] None [];
                    query_object ["sales"] None []])
        (Some true) false [] []
      = (Raise ex, written', t')
    /\ written' = [].
Proof.
  destruct (Obj.get_payload (H := ambient None) (H0 := services)
              (object_of [query_object ["region"] None []; query_object [] None [];
                          query_object ["sales"] None []])
              (Some true) false [] []) as [[[rv|ex] w] t] eqn:Hrun.
  1:{ vm_compute in Hrun. discriminate. }
  destruct (get_payload_raises (H := ambient None) (H0 := services) _ _ _ _ _ _ _ _ Hrun)
    as (Hw & _).
  exists ex, w, t. split; [reflexivity|exact Hw].
Defined.

(** * The payload that cannot be built

    [cache_timeout] is evaluated when the per-query entry is written and
    when the payload is built; when it raises, the call raises with it. *)

Section UnresolvedTimeout.
Context `{Ambient}.

Lemma run_raises_on_timeout self q force_cached ex dttm :
  cache_timeout self = Raise ex ->
  cached_dttm_of (cache_entry_found self q) = Ok dttm ->
  opt_bool_truthy force_cached && negb (L.is_loaded (after_cache_check self q).1) = false ->
  run_get_df_payload self q force_cached = (Raise ex, (before_payload self q).2).
Proof.
  intros Ht Hd Hg.
  pose proof (before_payload_cache_value self q) as Hcv.
  rewrite run_get_df_payload_eq, get_df_payload_run. cbn zeta. rewrite Hg.
  unfold before_payload in *.
  destruct (qo_bool q && negb (L.is_loaded (after_cache_check self q).1)).
  - rewrite cache_write_run, Ht.
    destruct (_ && _ && _); [reflexivity|].
    rewrite build_payload_run, Hcv, Hd, Ht. reflexivity.
  - rewrite build_payload_run, Hcv, Hd, Ht. reflexivity.
Qed.

(** C4. On a context whose cache timeout does not resolve (C1), a query
    object with invalid columns that reaches the fetch gets no FAILED
    envelope: the validation error is caught, the datasource is not
    queried, and the call then raises the exception of [cache_timeout]
    while the payload is built. *)
Theorem invalid_columns_unresolved_timeout self q force_cached ex dttm :
  qo_bool q = true ->
  opt_bool_truthy force_cached = false ->
  L.is_loaded (after_cache_check self q).1 = false ->
  invalid_columns self q <> [] ->
  cache_timeout self = Raise ex ->
  cached_dttm_of (cache_entry_found self q) = Ok dttm ->
  exists t,
    run_get_df_payload self q force_cached = (Raise ex, t)
    /\ never is_datasource_query t
    /\ forall payload, run_get_df_payload self q force_cached <> (Ok payload, t).
Proof.
  intros Hq Hfc Hl Hinv Ht Hd.
  rewrite (run_raises_on_timeout self q force_cached ex dttm Ht Hd)
    by (rewrite Hfc; reflexivity).
  eexists. split; [reflexivity|]. split; [|discriminate].
  unfold before_payload. rewrite Hq, Hl. cbn [andb negb].
  unfold after_fetch. rewrite fetch_body_run.
  destruct (invalid_columns self q) as [|c cs]; [congruence|]. cbn [is_nil negb snd].
  apply never_app. split; [apply cache_phase_never; intros []; cbn; congruence|reflexivity].
Qed.

(** C5. On a context whose cache timeout does not resolve (C1), a fetch
    that completed with a status other than FAILED, under a derived
    key, is not written to the cache: the call raises the exception of
    [cache_timeout] when it evaluates the arguments of the write. *)
Theorem cache_write_unresolved_timeout self q force_cached ex l1 :
  cache_timeout self = Raise ex ->
  fetch_succeeded self q force_cached l1 ->
  opt_str_truthy (query_cache_key self q) = true ->
  (run_get_df_payload self q force_cached).1 = Raise ex
  /\ never is_cache_write (run_get_df_payload self q force_cached).2.
Proof.
  intros Ht (Hfc & Hq & Hl & [t1 Hbody] & Hst) Hk.
  pose proof (cache_phase_never is_cache_write self q ltac:(intros []; cbn; congruence)) as Ht0.
  destruct (fetch_never_writes self q) as (Hnq & Hna & Hns & _).
  rewrite run_get_df_payload_eq, get_df_payload_run. cbn zeta.
  rewrite Hfc, Hq, Hl. cbn [andb negb].
  unfold after_fetch. rewrite Hbody. cbn [fst snd].
  rewrite cache_write_run, Hk, Ht.
  apply status_ne_FAILED_spec in Hst. rewrite Hst, andb_true_r.
  revert Hbody. rewrite fetch_body_run.
  destruct (negb (is_nil (invalid_columns self q))); [discriminate|].
  destruct (outcome (get_query_result self q)) as [qr|ex0]; [|discriminate].
  destruct (outcome (get_annotation_data self q)) as [m|ex0]; [|discriminate].
  destruct (negb (status_is_failed (qr_status qr))) eqn:Hf.
  - intros [= <- <-]. cbn. split; [reflexivity|].
    repeat (apply never_app; split); assumption.
  - intros [= Hl1 _]. exfalso. subst l1. cbn in Hst.
    apply negb_false_iff in Hf. rewrite Hf in Hst. discriminate.
Qed.

(** C6. On a context whose cache timeout does not resolve (C1), an
    exception raised in the body of the [try] is caught, and yet no
    envelope is returned: the call raises the exception of
    [cache_timeout] while the payload is built. *)
Theorem fetch_exception_unresolved_timeout self q force_cached ex0 l1 t1 ex dttm :
  opt_bool_truthy force_cached = false ->
  qo_bool q = true ->
  L.is_loaded (after_cache_check self q).1 = false ->
  fetch_body self q (after_cache_check self q).1 (after_cache_check self q).2
    = (Raise ex0, l1, t1) ->
  cache_timeout self = Raise ex ->
  cached_dttm_of (cache_entry_found self q) = Ok dttm ->
  run_get_df_payload self q force_cached = (Raise ex, t1 ++ handler_log ex0)
  /\ L.status (handled ex0 l1) = Some FAILED.
Proof.
  intros Hfc Hq Hl Hbody Ht Hd.
  rewrite (run_raises_on_timeout self q force_cached ex dttm Ht Hd)
    by (rewrite Hfc; reflexivity).
  unfold before_payload. rewrite Hq, Hl. cbn [andb negb].
  unfold after_fetch. rewrite Hbody. cbn [snd].
  split; [reflexivity|apply handled_status].
Qed.

End UnresolvedTimeout.

(** * The pipeline, step by step *)

(** The second step in the words of the specification: every column
    that is a metric of the query object and has the object type is
    replaced by its best-effort numeric conversion, every other column
    is kept, and the index, the labels and their order do not change. *)
Definition coerced_from `{Ambient} (q : QueryObject) (before after : DataFrame) : Prop :=
  df_index after = df_index before
  /\ Forall2
       (fun b a =>
          a.1 = b.1
          /\ (dtype b.2 = dt_object -> In b.1 (metric_names q) -> a.2 = infer_objects b.2)
          /\ (dtype b.2 <> dt_object \/ ~ In b.1 (metric_names q) -> a.2 = b.2))
       (df_columns before) (df_columns after).

(** The third step: every positive or negative infinity of the table
    becomes NaN and every other cell is kept. *)
Definition scrubbed_from (before after : DataFrame) : Prop :=
  df_index after = df_index before
  /\ Forall2
       (fun b a =>
          a.1 = b.1
          /\ dtype a.2 = dtype b.2
          /\ Forall2 (fun c c' =>
                        c' = match c with c_inf | c_neg_inf => c_nan | _ => c end)
                     (values b.2) (values a.2))
       (df_columns before) (df_columns after).

Section Steps.
Context `{Ambient}.

Lemma str_in_In x l : str_in x l = true <-> In x l.
Proof.
  unfold str_in. rewrite existsb_exists. split.
  - intros (y & Hy & He). apply String.eqb_eq in He. subst y. exact Hy.
  - intros Hx. exists x. split; [exact Hx|apply String.eqb_refl].
Qed.

Lemma is_object_spec d : is_object d = true <-> d = dt_object.
Proof. destruct d; cbn; split; congruence. Qed.

Lemma df_metrics_to_num_coerces df q : coerced_from q df (df_metrics_to_num df q).
Proof.
  unfold coerced_from, df_metrics_to_num. cbn [df_index df_columns].
  split; [reflexivity|].
  induction (df_columns df) as [|[col s] rest IH]; cbn [map]; constructor; [|exact IH].
  cbn [fst snd].
  destruct (is_object (dtype s)) eqn:Ho; cbn [andb].
  - destruct (str_in col (metric_names q)) eqn:Hm; cbn [fst snd].
    + split; [reflexivity|]. split; [reflexivity|].
      apply is_object_spec in Ho. apply str_in_In in Hm. intros [Hn|Hn]; contradiction.
    + split; [reflexivity|]. split; [|reflexivity].
      intros _ Hin. apply str_in_In in Hin. congruence.
  - cbn [fst snd]. split; [reflexivity|]. split; [|reflexivity].
    intros Hd. apply is_object_spec in Hd. congruence.
Qed.

Lemma df_replace_scrubs_infinities df :
  scrubbed_from df (df_replace [c_inf; c_neg_inf] c_nan df).
Proof.
  unfold scrubbed_from, df_replace. cbn [df_index df_columns].
  split; [reflexivity|].
  induction (df_columns df) as [|[col s] rest IH]; cbn [map]; constructor; [|exact IH].
  cbn [fst snd series_replace dtype values].
  split; [reflexivity|]. split; [reflexivity|].
  induction (values s) as [|c cs IHc]; cbn [map]; constructor; [|exact IHc].
  destruct c; reflexivity.
Qed.

End Steps.

Section PipelineSteps.
Context `{Ambient}.

Lemma run_trace_after_fetch self q force_cached :
  opt_bool_truthy force_cached = false ->
  qo_bool q = true ->
  L.is_loaded (after_cache_check self q).1 = false ->
  exists written,
    (run_get_df_payload self q force_cached).2
      = (after_fetch self q (after_cache_check self q).1 (after_cache_check self q).2).2
        ++ written
    /\ never is_post_processing written.
Proof.
  intros Hfc Hq Hl. rewrite run_get_df_payload_eq, get_df_payload_run. cbn zeta.
  rewrite Hfc, Hq, Hl. cbn [andb negb]. rewrite cache_write_run.
  destruct (L.is_loaded _ && _ && _).
  - destruct (cache_timeout self) as [timeout|ex] eqn:Ht.
    + rewrite build_payload_run, Ht. eexists. split.
      * destruct (cached_dttm_of _); reflexivity.
      * reflexivity.
    + exists []. rewrite app_nil_r. split; reflexivity.
  - exists []. rewrite app_nil_r, build_payload_run. split; [|reflexivity].
    destruct (cached_dttm_of _); [|reflexivity]. destruct (cache_timeout self); reflexivity.
Qed.

(** C7. In [get_query_result] the pipeline runs only on a non-empty
    table, in this order: timestamp normalization with the date-format
    hint of a "table" datasource, the datasource's offset and the
    query's time shift; then numeric coercion of exactly the
    object-typed metric columns; then replacement of both infinities by
    NaN in every cell; then the query object's own post-processing, on
    the table so obtained.  An empty table is returned as the datasource
    gave it; in [get_df_payload] the annotation merge still runs after
    it, no post-processing call is made, and a returned payload carries
    that table and the length of its index, zero for a table without
    rows. *)
Theorem post_processing_steps self q r :
  ds_query (datasource self) q = Ok r ->
  (df_empty (qr_df r) = false ->
   forall S (s : S) t,
     match normalize_dttm_col (qr_df r) (timestamp_format_of self q)
             (offset (datasource self)) (time_shift q) with
     | Raise ex =>
         get_query_result self q s t =
           (Raise ex, s, t ++ [Ev_datasource_query; Ev_normalize_dttm_col])
     | Ok normalized =>
         exists coerced scrubbed,
           coerced_from q normalized coerced
           /\ scrubbed_from coerced scrubbed
           /\ get_query_result self q s t =
                (match exec_post_processing q scrubbed with
                 | Ok df => Ok (mk_query_result df (qr_query r) (qr_status r)
                                                (qr_error_message r))
                 | Raise ex => Raise ex
                 end,
                 s,
                 t ++ [Ev_datasource_query; Ev_normalize_dttm_col;
                       Ev_exec_post_processing])
     end)
  /\ (df_empty (qr_df r) = true ->
      (forall S (s : S) t,
         get_query_result self q s t = (Ok r, s, t ++ [Ev_datasource_query]))
      /\ forall force_cached,
           opt_bool_truthy force_cached = false ->
           qo_bool q = true ->
           L.is_loaded (after_cache_check self q).1 = false ->
           invalid_columns self q = [] ->
           never is_post_processing (run_get_df_payload self q force_cached).2
           /\ (exists ids before after,
                 (run_get_df_payload self q force_cached).2 =
                   before ++ Ev_datasource_query :: Ev_find_annotation_layers ids :: after)
           /\ forall payload t,
                run_get_df_payload self q force_cached = (Ok payload, t) ->
                Payload.df payload = qr_df r
                /\ Payload.rowcount payload = length (df_index (qr_df r)))
  /\ (df_index (qr_df r) = [] ->
      df_empty (qr_df r) = true /\ length (df_index (qr_df r)) = 0%nat).
Proof.
  intros Hq. split; [|split].
  - intros He S s t. rewrite (get_query_result_nonempty _ _ _ _ _ Hq He).
    unfold pipeline_in_order, with_df.
    destruct (normalize_dttm_col _ _ _ _) as [normalized|ex]; [|reflexivity].
    exists (df_metrics_to_num normalized q),
           (df_replace [c_inf; c_neg_inf] c_nan (df_metrics_to_num normalized q)).
    split; [apply df_metrics_to_num_coerces|].
    split; [apply df_replace_scrubs_infinities|].
    destruct (exec_post_processing q _); reflexivity.
  - intros He. split.
    + intros S s t. apply get_query_result_empty; assumption.
    + intros force_cached Hfc Hqb Hl Hv.
      destruct (run_trace_after_fetch self q force_cached Hfc Hqb Hl)
        as (written & Htr & Hw).
      destruct (after_fetch_empty self q r (after_cache_check self q).1
                  (after_cache_check self q).2 Hv Hq He) as (Hdf & rest & Haf & Hrest).
      destruct (get_annotation_data_events self q) as [more Hev].
      assert (Hann : never is_post_processing (events (get_annotation_data self q))).
      { eapply never_of_class; [|apply get_annotation_data_event_kinds].
        intros []; cbn; congruence. }
      rewrite Htr, Haf. split; [|split].
      * apply never_app. split; [|exact Hw].
        apply never_app. split; [apply cache_phase_never; intros []; cbn; congruence|].
        apply (never_app _ [Ev_datasource_query]). split; [reflexivity|].
        apply never_app. split; assumption.
      * rewrite Hev. eexists _, (after_cache_check self q).2, _.
        rewrite <- app_assoc. cbn [app]. reflexivity.
      * intros payload t Hrun.
        destruct (run_returned _ _ _ _ _ Hrun) as (dttm & timeout & -> & _ & _).
        unfold payload_of. cbn [Payload.df Payload.rowcount].
        unfold before_payload. rewrite Hqb, Hl. cbn [andb negb]. rewrite Hdf.
        split; reflexivity.
  - unfold df_empty. intros ->. split; reflexivity.
Qed.

End PipelineSteps.

(** * The merged mapping, name by name *)

Definition is_chart_event (e : Event) : bool :=
  match e with Ev_find_chart _ | Ev_get_viz _ _ => true | _ => false end.

Section Merge.
Context `{Ambient}.

Lemma get_viz_annotation_data_chart_events layer force :
  forallb is_chart_event (events (get_viz_annotation_data layer force)) = true.
Proof.
  unfold events, get_viz_annotation_data. eff_simpl.
  destruct (find_by_id (layer_value layer)) as [chart|]; cbn -[isinstance];
    [|reflexivity].
  destruct (get_viz _ _ _ _) as [viz|ex]; cbn -[isinstance].
  - destruct (get_payload viz) as [payload|ex]; cbn -[isinstance].
    + destruct (payload_getitem_data payload) as [d|ex]; cbn -[isinstance];
        [reflexivity|].
      destruct (isinstance ex SupersetException); reflexivity.
    + destruct (isinstance ex SupersetException); reflexivity.
  - destruct (isinstance ex SupersetException); reflexivity.
Qed.

Lemma viz_layers_loop_chart_events force layers :
  forall acc, forallb is_chart_event (events (viz_layers_loop force layers acc)) = true.
Proof.
  induction layers as [|l rest IH]; intros acc; [reflexivity|].
  unfold events. cbn [viz_layers_loop]. eff_simpl.
  rewrite (get_viz_annotation_data_run l force tt []).
  destruct (outcome (get_viz_annotation_data l force)) as [d|ex]; cbn [app snd].
  - rewrite viz_layers_loop_run. cbn [snd]. rewrite forallb_app.
    rewrite get_viz_annotation_data_chart_events. apply IH.
  - apply get_viz_annotation_data_chart_events.
Qed.

(** C8. When [get_annotation_data] returns, the native layers were
    looked up first and the derived layers rendered afterwards, and the
    mapping is, name by name: the data of the last derived layer of
    that name if there is one; else the columns and records of the
    layer object of the last native layer of that name if there is one;
    else nothing.  A derived layer thus replaces a native layer of the
    same name, and the mapping has one entry per name. *)
Theorem get_annotation_data_merged {S} self q (s s' : S) t t' m :
  get_annotation_data self q s t = (Ok m, s', t') ->
  (exists rest,
      t' = t ++ Ev_find_annotation_layers
                  (map layer_value (List.filter is_native (annotation_layers q))) :: rest
      /\ forallb is_chart_event rest = true)
  /\ forall name,
       match last_named name (List.filter is_derived (annotation_layers q)) with
       | Some layer =>
           exists data,
             outcome (get_viz_annotation_data layer (force self)) = Ok data
             /\ m !! name = Some (viz_result data)
       | None =>
           match last_named name (List.filter is_native (annotation_layers q)) with
           | Some layer =>
               exists layer_object,
                 index_by_id
                   (find_by_ids
                      (map layer_value (List.filter is_native (annotation_layers q))))
                   !! layer_value layer = Some layer_object
                 /\ m !! name =
                      Some (native_result
                              ["start_dttm"; "end_dttm"; "short_descr"; "long_descr";
                               "json_metadata"]
                              (map (fun a =>
                                      [("start_dttm", fv_dttm (start_dttm a));
                                       ("end_dttm", fv_dttm (end_dttm a));
                                       ("short_descr", fv_text (short_descr a));
                                       ("long_descr", fv_text (long_descr a));
                                       ("json_metadata", fv_text (json_metadata a))])
                                   (al_annotation layer_object)))
           | None => m !! name = None
           end
       end.
Proof.
  unfold get_annotation_data. eff_simpl.
  rewrite (get_native_annotation_data_run q s t).
  rewrite get_native_annotation_data_events.
  destruct (outcome (get_native_annotation_data q)) as [native|ex] eqn:Hnative;
    cbn; [|discriminate].
  rewrite viz_layers_loop_run. intros Hrun. injection Hrun as Hm _ Ht.
  split.
  - eexists. split.
    + rewrite <- Ht, <- app_assoc. reflexivity.
    + apply viz_layers_loop_chart_events.
  - intros name.
    pose proof (viz_layers_loop_lookup _ _ _ _ Hm name) as Hd.
    destruct (last_named name (List.filter is_derived (annotation_layers q)));
      [exact Hd|].
    rewrite Hd. rewrite get_native_annotation_data_outcome in Hnative.
    pose proof (native_layers_loop_lookup _ _ _ _ Hnative name) as Hn.
    destruct (last_named name (List.filter is_native (annotation_layers q)));
      [|rewrite Hn; apply lookup_empty].
    destruct Hn as (o & Ho & Hlook). exists o. split; [exact Ho|exact Hlook].
Qed.

End Merge.

(** * The revised properties on scenarios *)

Module LateScenarios.

(** A datasource without a [database] attribute and without a timeout of
    its own. *)
Definition orphan (response : result QueryResult) : QueryContext :=
  context None response.

Definition no_database : exn := mk_exn AttributeError "object has no attribute 'database'".

(** A table whose metric column has the object type. *)
Definition orders : DataFrame :=
  mk_df [0; 1]
    [("sales", mk_series dt_object [c_inf; c_int 3]);
     ("region", mk_series dt_object [c_str "eu"; c_str "us"])].

Definition sales_by_region : QueryObject :=
  mk_query_object true ["region"] [] (Some [saved_metric "sales"]) ["sales"] None None []
    (fun df => Ok df) (fun _ => Some "key1").

Definition three_layers : list Layer :=
  [mk_layer "Holidays" "NATIVE" 1; mk_layer "Fairs" "NATIVE" 2;
   mk_layer "Holidays" "line" 7].

End LateScenarios.
Import LateScenarios.

Lemma invalid_columns_unresolved_timeout_witness :
  exists t,
    run_get_df_payload (H := ambient (Some ∅)) (orphan (answered sales SUCCESS None))
        (query_object ["revenue"] None []) None
      = (Raise no_database, t)
    /\ never is_datasource_query t.
Proof.
  destruct (invalid_columns_unresolved_timeout (H := ambient (Some ∅))
              (orphan (answered sales SUCCESS None))
              (query_object ["revenue"] None []) None no_database None)
    as (t & Hrun & Hn & _); try (vm_compute; reflexivity).
  - vm_compute. discriminate.
  - exists t. split; assumption.
Defined.

Lemma cache_write_unresolved_timeout_witness :
  (run_get_df_payload (H := ambient (Some ∅)) (orphan (answered sales SUCCESS None))
     (query_object ["sales"] None []) None).1 = Raise no_database
  /\ never is_cache_write
       (run_get_df_payload (H := ambient (Some ∅)) (orphan (answered sales SUCCESS None))
          (query_object ["sales"] None []) None).2.
Proof.
  eapply (cache_write_unresolved_timeout (H := ambient (Some ∅))
            (orphan (answered sales SUCCESS None))
            (query_object ["sales"] None []) None no_database).
  - reflexivity.
  - repeat split; try reflexivity.
    + eexists. vm_compute. reflexivity.
    + vm_compute. discriminate.
  - reflexivity.
Defined.

Lemma fetch_exception_unresolved_timeout_witness :
  exists t,
    run_get_df_payload (H := ambient (Some ∅))
        (orphan (Raise (mk_exn Exception "connection refused")))
        (query_object ["sales"] None []) None
      = (Raise no_database, t).
Proof.
  eexists.
  apply (fetch_exception_unresolved_timeout (H := ambient (Some ∅))
           (orphan (Raise (mk_exn Exception "connection refused")))
           (query_object ["sales"] None []) None
           (mk_exn Exception "connection refused")
           (L.set_cache_value None L.init)
           [Ev_log "info" "Cache key: %s"; Ev_cache_get "key1"; Ev_datasource_query]
           no_database None); vm_compute; reflexivity.
Defined.

Lemma post_processing_steps_witness :
  (exists coerced scrubbed,
      coerced_from (H := ambient_of None only_layer_1 rendered) sales_by_region orders coerced
      /\ scrubbed_from coerced scrubbed
      /\ get_query_result (H := ambient_of None only_layer_1 rendered) (S := unit)
           (context main_db (answered orders SUCCESS None)) sales_by_region tt []
         = (Ok (mk_query_result scrubbed "SELECT sales FROM t" SUCCESS None), tt,
            [Ev_datasource_query; Ev_normalize_dttm_col; Ev_exec_post_processing]))
  /\ get_query_result (H := ambient_of None only_layer_1 rendered) (S := unit)
       (context main_db (answered orders SUCCESS None)) sales_by_region tt []
     = (Ok (mk_query_result
              (mk_df [0; 1]
                 [("sales", mk_series dt_float64 [c_nan; c_int 3]);
                  ("region", mk_series dt_object [c_str "eu"; c_str "us"])])
              "SELECT sales FROM t" SUCCESS None),
        tt, [Ev_datasource_query; Ev_normalize_dttm_col; Ev_exec_post_processing]).
Proof.
  split; [|reflexivity].
  destruct (post_processing_steps (H := ambient_of None only_layer_1 rendered)
              (context main_db (answered orders SUCCESS None)) sales_by_region
              (mk_query_result orders "SELECT sales FROM t" SUCCESS None) eq_refl)
    as (Hsteps & _ & _).
  exact (Hsteps eq_refl unit tt []).
Defined.

Lemma get_annotation_data_merged_witness :
  exists m,
    outcome (get_annotation_data (H := ambient None)
               (context main_db (answered sales SUCCESS None))
               (query_object ["sales"] None three_layers)) = Ok m
    /\ m !! "Holidays" = Some (viz_result (viz_data "line"))
    /\ m !! "Fairs" =
         Some (native_result
                 ["start_dttm"; "end_dttm"; "short_descr"; "long_descr"; "json_metadata"]
                 [[("start_dttm", fv_dttm 0); ("end_dttm", fv_dttm 1);
                   ("short_descr", fv_text "closed");
                   ("long_descr", fv_text "bank holiday");
                   ("json_metadata", fv_text "{}")]])
    /\ m !! "Markets" = None.
Proof.
  destruct (get_annotation_data (H := ambient None) (S := unit)
              (context main_db (answered sales SUCCESS None))
              (query_object ["sales"] None three_layers) tt [])
    as [[[m|ex] s'] t'] eqn:Hrun.
  2:{ vm_compute in Hrun. discriminate. }
  destruct (get_annotation_data_merged (H := ambient None) _ _ _ _ _ _ _ Hrun)
    as (_ & Hlook).
  pose proof (Hlook "Holidays") as Hh.
  pose proof (Hlook "Fairs") as Hf.
  pose proof (Hlook "Markets") as Hm.
  cbn in Hh, Hf, Hm.
  destruct Hh as (data & Hdata & Hh). vm_compute in Hdata. injection Hdata as <-.
  destruct Hf as (o & Ho & Hf). vm_compute in Ho. injection Ho as <-.
  exists m. unfold outcome. rewrite Hrun. repeat split; assumption.
Defined.
